(** * go-nntp client: command/response engine and reply parsers

    A shallow embedding of the NNTP client of kothawoc/go-nntp
    (package nntpclient) and of the few functions of the Go standard
    library it is built on (strings, strconv, net/textproto), followed by
    the properties of the client's operations.

    Conventions of the embedding:
    - a Go [string] is a [string] of bytes. [strings.ToUpper] and
      [strings.Fields] are embedded on their ASCII path, the one Go takes
      for a string with no byte above 0x7f; a string with such a byte goes
      through [unicode.ToUpper] and [unicode.IsSpace], which are not
      embedded, so a statement that depends on the result of either
      function asks for ASCII strings ([ascii_only]);
    - a Go [int] / [int64] is a [Z], bounds written where the code has them;
    - a Go slice is the [list] of its elements, so [[]] is a slice of
      length 0, nil or not: [List] returns on its error paths the empty
      slice it made at line 117, the other calls return nil there, and
      both are [[]]. The one test against nil in the package, on the
      cache of capabilities, is a test for no element, since the cache is
      the result of [ReadDotLines], which is nil exactly when it is empty;
      [parts[i]] is stdpp's lookup and faults out of range;
    - a Go [error] is an [option error], [None] being nil;
    - a call either returns or faults at run time: the [go] type.

    [New] (which dials) and [Post] (which copies a reader into a dot
    writer) are left out: nothing below depends on them. *)

From Stdlib Require Import ZArith Ascii String Bool Lia DecimalString DecimalPos.
From stdpp Require Import base option list strings.

Local Open Scope Z_scope.

(** ** Run-time faults and results *)

Inductive fault : Type :=
| IndexOutOfRange (index length : nat)
| SliceBoundsOutOfRange (low high : nat)
| NilDereference.                 (* a method called on a nil interface *)

Inductive go (A : Type) : Type :=
| Returns (a : A)
| Panics (f : fault).
Arguments Returns {A} a.
Arguments Panics {A} f.

Global Instance go_ret : MRet go := fun A a => Returns a.

Global Instance go_bind : MBind go := fun A B k m =>
  match m with
  | Returns a => k a
  | Panics f => Panics f
  end.

(** [xs[i]] *)
Definition index {A} (xs : list A) (i : nat) : go A :=
  match xs !! i with
  | Some x => Returns x
  | None => Panics (IndexOutOfRange i (length xs))
  end.

(** [xs[1:]] *)
Definition slice_from_1 {A} (xs : list A) : go (list A) :=
  match xs with
  | [] => Panics (SliceBoundsOutOfRange 1 0)
  | _ :: tl => Returns tl
  end.

(** ** Errors *)

Inductive numcause : Type := ErrSyntax | ErrRange.

Inductive error : Type :=
| EOF                                        (* io.EOF *)
| ErrUnexpectedEOF                           (* io.ErrUnexpectedEOF *)
| NetError (what : string)                   (* any other transport error *)
| ProtocolError (text : string)              (* textproto.ProtocolError *)
| CodeError (code : Z) (msg : string)        (* *textproto.Error *)
| NumError (func num : string) (cause : numcause)  (* *strconv.NumError *)
| ErrorString (text : string).               (* errors.New *)

(** ** package strings *)

Module strings.

Definition is_lower (c : ascii) : bool :=
  (97 <=? Z.of_nat (nat_of_ascii c)) && (Z.of_nat (nat_of_ascii c) <=? 122).

Definition upper (c : ascii) : ascii :=
  if is_lower c then ascii_of_nat (nat_of_ascii c - 32) else c.

(** [strings.ToUpper] on a string with no byte above 0x7f: the path Go
    takes when its scan finds the string ASCII, byte by byte. For other
    strings Go maps [unicode.ToUpper] over the runes, which is outside
    the embedding. *)
Fixpoint ToUpper (s : string) : string :=
  match s with
  | EmptyString => EmptyString
  | String c s' => String (upper c) (ToUpper s')
  end.

(** [strings.Split(s, sep)] for a separator of one byte, which is what
    every call site passes. *)
Fixpoint Split (s : string) (sep : ascii) : list string :=
  match s with
  | EmptyString => [EmptyString]
  | String c s' =>
      if Ascii.eqb c sep then EmptyString :: Split s' sep
      else match Split s' sep with
           | f :: fs => String c f :: fs
           | [] => [String c EmptyString]
           end
  end.

(** [strings.SplitN(s, sep, 2)] for a separator of one byte. *)
Fixpoint SplitN2 (s : string) (sep : ascii) : list string :=
  match s with
  | EmptyString => [EmptyString]
  | String c s' =>
      if Ascii.eqb c sep then [EmptyString; s']
      else match SplitN2 s' sep with
           | f :: fs => String c f :: fs
           | [] => [String c EmptyString]
           end
  end.

Fixpoint contains_byte (chars : string) (c : ascii) : bool :=
  match chars with
  | EmptyString => false
  | String d chars' => Ascii.eqb c d || contains_byte chars' c
  end.

(** [strings.IndexAny(s, chars)]: the index of the first byte of [s]
    that occurs in [chars], or -1. *)
Fixpoint IndexAny (s chars : string) : Z :=
  match s with
  | EmptyString => -1
  | String c s' =>
      if contains_byte chars c then 0
      else let i := IndexAny s' chars in
           if i =? -1 then -1 else i + 1
  end.

(** The table [asciiSpace] of package strings. *)
Definition asciiSpace (c : ascii) : bool :=
  let n := Z.of_nat (nat_of_ascii c) in
  ((9 <=? n) && (n <=? 13)) || (n =? 32).

(** [strings.Fields] on a string with no byte above 0x7f: the maximal
    runs of bytes that are not in [asciiSpace]. [field] is the run being
    read. For other strings Go splits with [unicode.IsSpace], which is
    outside the embedding. *)
Fixpoint Fields_from (field : string) (s : string) : list string :=
  match s with
  | EmptyString =>
      match field with EmptyString => [] | _ => [field] end
  | String c s' =>
      if asciiSpace c then
        match field with
        | EmptyString => Fields_from EmptyString s'
        | _ => field :: Fields_from EmptyString s'
        end
      else Fields_from (field +:+ String c EmptyString) s'
  end.

Definition Fields (s : string) : list string := Fields_from EmptyString s.

End strings.

(** [s[:i]] and [s[i:]] for an index within bounds. *)
Definition prefix_to (s : string) (i : Z) : string :=
  String.substring 0 (Z.to_nat i) s.

Definition suffix_from (s : string) (i : nat) : string :=
  String.substring i (String.length s - i) s.

(** ** package strconv *)

Module strconv.

Definition maxUint64 : Z := 2 ^ 64 - 1.
Definition maxInt64 : Z := 2 ^ 63 - 1.
Definition minInt64 : Z := - 2 ^ 63.

(** ['0' <= c && c <= '9'], with [c - '0']. *)
Definition digit (c : ascii) : option Z :=
  let n := Z.of_nat (nat_of_ascii c) in
  if (48 <=? n) && (n <=? 57) then Some (n - 48) else None.

Inductive uint_result : Type :=
| UValue (n : Z)
| USyntax
| URange.

(** The loop of [ParseUint(s, 10, 64)]: one byte at a time, leaving at
    the first byte that is no digit or at the first overflow. *)
Fixpoint ParseUint_loop (n : Z) (s : string) : uint_result :=
  match s with
  | EmptyString => UValue n
  | String c s' =>
      match digit c with
      | None => USyntax
      | Some d =>
          if maxUint64 / 10 + 1 <=? n then URange
          else let n1 := n * 10 + d in
               if maxUint64 <? n1 then URange
               else ParseUint_loop n1 s'
      end
  end.

Definition ParseUint (s : string) : uint_result :=
  match s with
  | EmptyString => USyntax
  | _ => ParseUint_loop 0 s
  end.

(** [strconv.ParseInt(s, 10, 64)]: the value and the error. *)
Definition ParseInt (s0 : string) : Z * option error :=
  match s0 with
  | EmptyString => (0, Some (NumError "ParseInt" s0 ErrSyntax))
  | String c rest =>
      let neg := Ascii.eqb c "-" in
      let s := if Ascii.eqb c "+" || neg then rest else s0 in
      let cutoff := 2 ^ 63 in
      match ParseUint s with
      | USyntax => (0, Some (NumError "ParseInt" s0 ErrSyntax))
      | r =>
          let un := match r with UValue n => n | _ => maxUint64 end in
          if negb neg && (cutoff <=? un) then
            (cutoff - 1, Some (NumError "ParseInt" s0 ErrRange))
          else if neg && (cutoff <? un) then
            (- cutoff, Some (NumError "ParseInt" s0 ErrRange))
          else (if neg then - un else un, None)
      end
  end.

(** The fast path of [strconv.Atoi], taken for 1 to 18 bytes. *)
Fixpoint Atoi_loop (n : Z) (s : string) : option Z :=
  match s with
  | EmptyString => Some n
  | String c s' =>
      match digit c with
      | None => None
      | Some d => Atoi_loop (n * 10 + d) s'
      end
  end.

Definition Atoi (s0 : string) : Z * option error :=
  let syntax := (0, Some (NumError "Atoi" s0 ErrSyntax)) in
  if (0 <? String.length s0)%nat && (String.length s0 <? 19)%nat then
    match s0 with
    | EmptyString => syntax
    | String c rest =>
        let signed := Ascii.eqb c "-" || Ascii.eqb c "+" in
        let s := if signed then rest else s0 in
        if signed && (String.length s <? 1)%nat then syntax
        else match Atoi_loop 0 s with
             | None => syntax
             | Some n => (if Ascii.eqb c "-" then - n else n, None)
             end
    end
  else
    match ParseInt s0 with
    | (i, Some (NumError _ num cause)) => (i, Some (NumError "Atoi" num cause))
    | r => r
    end.

End strconv.

(** ** package fmt *)

Module fmt.

(** The verb [%d] on an [int]. *)
Definition FormatInt (n : Z) : string :=
  DecimalString.NilZero.string_of_int (Z.to_int n).

(** [fmt.Sprintf(format)] with no operand, which is what
    [PrintfLine(cmd)] does with a command line: bytes other than [%] are
    copied, [%%] is a percent sign, and a verb finds its operand
    missing. Flags, widths and precisions between [%] and the verb are
    outside the model. *)
Fixpoint Sprintf0 (format : string) : string :=
  match format with
  | EmptyString => EmptyString
  | String c rest =>
      if Ascii.eqb c "%" then
        match rest with
        | EmptyString => "%!(NOVERB)"
        | String v rest' =>
            if Ascii.eqb v "%" then String "%" (Sprintf0 rest')
            else "%!" +:+ String v "(MISSING)" +:+ Sprintf0 rest'
        end
      else String c (Sprintf0 rest)
  end.

End fmt.

(** ** package net/textproto

    The transport the client consumes. A connection is what the peer will
    still deliver, line by line, what has been written to it, and what the
    next writes will meet. Reading past the last delivery is [io.EOF]; a
    write with no entry left succeeds. *)

Inductive delivery : Type :=
| Line (text : string)
| ReadFails (e : error).

Record Conn : Type := mkConn {
  inbound : list delivery;
  outbound : list string;
  wscript : list (option error)
}.

Module textproto.

(** [PrintfLine], the line already formatted. *)
Definition PrintfLine (line : string) (c : Conn) : option error * Conn :=
  match wscript c with
  | Some e :: w => (Some e, mkConn (inbound c) (outbound c) w)
  | None :: w => (None, mkConn (inbound c) (outbound c ++ [line]) w)
  | [] => (None, mkConn (inbound c) (outbound c ++ [line]) [])
  end.

Definition ReadLine (c : Conn) : (string * option error) * Conn :=
  match inbound c with
  | [] => (("", Some EOF), c)
  | Line l :: rest => ((l, None), mkConn rest (outbound c) (wscript c))
  | ReadFails e :: rest => (("", Some e), mkConn rest (outbound c) (wscript c))
  end.

(** Modelled from the spec: the expected-code contract of section 4.1,
    which [Command] delegates to [ReadCodeLine] of net/textproto (Go
    standard library, not under src/). A status line is three digits, a
    space or a dash, and the message; an expected code of one or two
    digits is a prefix of the code, one of three digits is the code, and
    any other value (-1 by convention) accepts every code. *)
Definition parseCodeLine (line : string) (expectCode : Z)
  : Z * bool * string * option error :=
  let sep := String.get 3 line in
  if (String.length line <? 4)%nat
     || negb (bool_decide (sep = Some " "%char) || bool_decide (sep = Some "-"%char))
  then (0, false, "", Some (ProtocolError ("short response: " +:+ line)))
  else
    let continued := bool_decide (sep = Some "-"%char) in
    let '(code, err) := strconv.Atoi (prefix_to line 3) in
    if bool_decide (err <> None) || (code <? 100) then
      (code, continued, "", Some (ProtocolError ("invalid response code: " +:+ line)))
    else
      let message := suffix_from line 4 in
      if (1 <=? expectCode) && (expectCode <? 10) && negb (code / 100 =? expectCode)
         || (10 <=? expectCode) && (expectCode <? 100) && negb (code / 10 =? expectCode)
         || (100 <=? expectCode) && (expectCode <? 1000) && negb (code =? expectCode)
      then (code, continued, message, Some (CodeError code message))
      else (code, continued, message, None).

Definition ReadCodeLine (expectCode : Z) (c : Conn)
  : (Z * string * option error) * Conn :=
  let '((line, err), c') := ReadLine c in
  match err with
  | Some e => ((0, "", Some e), c')
  | None =>
      let '(code, continued, message, err) := parseCodeLine line expectCode in
      match err with
      | None =>
          if continued then
            ((code, message,
              Some (ProtocolError ("unexpected multi-line response: " +:+ message))), c')
          else ((code, message, None), c')
      | Some e => ((code, message, Some e), c')
      end
  end.

(** The loop of [ReadDotLines]: a line that is one dot ends the block,
    any other leading dot is cut. *)
Fixpoint ReadDotLines_loop (pending : list delivery) (v : list string)
  : list delivery * list string * option error :=
  match pending with
  | [] => ([], v, Some ErrUnexpectedEOF)
  | ReadFails e :: rest =>
      (rest, v, Some (match e with EOF => ErrUnexpectedEOF | _ => e end))
  | Line l :: rest =>
      match l with
      | String "."%char EmptyString => (rest, v, None)
      | String "."%char l' => ReadDotLines_loop rest (v ++ [l'])
      | _ => ReadDotLines_loop rest (v ++ [l])
      end
  end.

Definition ReadDotLines (c : Conn) : (list string * option error) * Conn :=
  let '(rest, v, err) := ReadDotLines_loop (inbound c) [] in
  ((v, err), mkConn rest (outbound c) (wscript c)).

End textproto.

(** An [io.Reader]: nil, or the dot reader of a connection, which reads
    the block the connection delivers next. *)
Inductive Reader : Type :=
| NilReader
| DotReader (c : Conn).

(** ** package crypto/tls and net, as far as [StartTLS] touches them *)

Record Config : Type := mkConfig {
  ServerName : string;
  InsecureSkipVerify : bool
}.

Inductive NetConn : Type :=
| NilConn                                         (* the nil interface *)
| Socket (id : nat)
| TLSClient (under : NetConn) (config : Config).  (* tls.Client(under, config) *)

(** The error of a handshake whose configuration names no server and
    does not skip the verification. *)
Definition ErrNoServerName : error :=
  ErrorString
    "tls: either ServerName or InsecureSkipVerify must be specified in the tls.Config".

(** [Handshake] of [tls.Conn], as far as it depends on this side. The
    first write on a TLS client runs it before a byte of the caller goes
    out. It refuses a configuration with no [ServerName] and no
    [InsecureSkipVerify] before it touches the connection below;
    otherwise it writes its first record on that connection, and on the
    nil interface the call is a nil dereference. Over a socket the
    outcome is the peer's: it is part of what the text connection over
    the TLS client will meet. Over another TLS client the record goes
    through the handshake of that one. A connection that is no TLS
    client has no handshake. *)
Fixpoint Handshake (netconn : NetConn) : go (option error) :=
  match netconn with
  | TLSClient under config =>
      if String.eqb (ServerName config) "" && negb (InsecureSkipVerify config)
      then Returns (Some ErrNoServerName)
      else match under with
           | NilConn => Panics NilDereference
           | Socket _ => Returns None
           | TLSClient _ _ => Handshake under
           end
  | _ => Returns None
  end.

(** ** package nntp: the types the client returns *)

Module nntp.

(** [Unknown] is the zero value of the Go type, the one a [Group] holds
    before any assignment. *)
Inductive PostingStatus : Type :=
| Unknown
| PostingPermitted
| PostingModerated
| PostingNotPermitted.

(** Modelled from the spec: [nntp.Group] is declared in the root
    package, which is not under src/; the fields are those the client
    assigns. *)
Record Group : Type := mkGroup {
  Name : string;
  Count : Z;
  High : Z;
  Low : Z;
  Posting : PostingStatus
}.

Definition zero : Group := mkGroup "" 0 0 0 Unknown.

End nntp.

(** ** package nntpclient

    The client of src/unnamed/part_000; the line numbers are those of
    that file. *)

Module nntpclient.

(** [capabilities] is nil, and so without an element, until the first
    successful fetch; [netconn] is nil until [StartTLS] assigns it. *)
Record Client : Type := mkClient {
  conn : Conn;
  netconn : NetConn;
  tls : bool;
  Banner : string;
  capabilities : list string
}.

(** A method of [*Client]: it returns or faults, and in both cases
    leaves the client as its assignments made it. *)
Definition method (A : Type) : Type := Client -> go A * Client.

Global Instance method_ret : MRet method := fun A a c => (Returns a, c).

Global Instance method_bind : MBind method := fun A B k m c =>
  match m c with
  | (Returns a, c') => k a c'
  | (Panics f, c') => (Panics f, c')
  end.

(** A value computed without the client, which may fault. *)
Definition eval {A} (g : go A) : method A := fun c => (g, c).

(** [c.conn = k] and [c.capabilities = caps]. *)
Definition set_conn (k : Conn) (c : Client) : Client :=
  mkClient k (netconn c) (tls c) (Banner c) (capabilities c).

Definition set_capabilities (caps : list string) (c : Client) : Client :=
  mkClient (conn c) (netconn c) (tls c) (Banner c) caps.

(** A call on [c.conn]. *)
Definition on_conn {A} (f : Conn -> A * Conn) : method A :=
  fun c => let '(a, k) := f (conn c) in (Returns a, set_conn k c).

(** A read of the client, and an assignment to some of its fields. *)
Definition get {A} (f : Client -> A) : method A :=
  fun c => (Returns (f c), c).

Definition modify (f : Client -> Client) : method unit :=
  fun c => (Returns tt, f c).

Definition is_nil {A} (e : option A) : bool :=
  match e with None => true | Some _ => false end.

(** [Command]: one line written, one status line read. *)
Definition Command (cmd : string) (expectCode : Z)
  : method (Z * string * option error) :=
  err ← on_conn (textproto.PrintfLine (fmt.Sprintf0 cmd));
  match err with
  | Some e => mret (0, "", Some e)
  | None => on_conn (textproto.ReadCodeLine expectCode)
  end.

(** [Authenticate], lines 87-103. *)
Definition Authenticate (user pass : string) : method (string * option error) :=
  err ← on_conn (textproto.PrintfLine ("authinfo user " +:+ user));
  match err with
  | Some e => mret ("", Some e)
  | None =>
      '(_, _, err) ← on_conn (textproto.ReadCodeLine 381);
      match err with
      | Some e => mret ("", Some e)
      | None =>
          err ← on_conn (textproto.PrintfLine ("authinfo pass " +:+ pass));
          match err with
          | Some e => mret ("", Some e)
          | None =>
              '(_, msg, err) ← on_conn (textproto.ReadCodeLine 281);
              mret (msg, err)
          end
      end
  end.

Definition parsePosting (p : string) : nntp.PostingStatus :=
  if String.eqb p "y" then nntp.PostingPermitted
  else if String.eqb p "m" then nntp.PostingModerated
  else nntp.PostingNotPermitted.

(** The loop of [List], lines 134-153: [rv] is the result so far. *)
Fixpoint List_lines (groupLines : list string) (rv : list nntp.Group)
  : go (list nntp.Group) :=
  match groupLines with
  | [] => Returns rv
  | l :: rest =>
      let parts := strings.Split l " " in
      if (length parts <? 3)%nat then List_lines rest rv
      else
        p1 ← index parts 1;
        let '(high, errh) := strconv.ParseInt p1 in
        p2 ← index parts 2;
        let '(low, errl) := strconv.ParseInt p2 in
        if is_nil errh && is_nil errl then
          p0 ← index parts 0;
          p3 ← index parts 3;
          List_lines rest (rv ++ [nntp.mkGroup p0 0 high low (parsePosting p3)])
        else List_lines rest rv
  end.

(** [List], lines 116-157. [rv] is made at line 117 as a slice of length
    0 and is what the two error paths return. *)
Definition List (sub : string) : method (list nntp.Group * option error) :=
  let sub := if String.eqb sub "" then sub else " " +:+ sub in
  '(_, _, err) ← Command ("LIST" +:+ sub) 215;
  match err with
  | Some e => mret ([], Some e)
  | None =>
      '(groupLines, err) ← on_conn textproto.ReadDotLines;
      match err with
      | Some e => mret ([], Some e)
      | None =>
          rv ← eval (List_lines groupLines []);
          mret (rv, None)
      end
  end.

(** The parse of [Group], lines 166-185. The error of the length test
    is assigned and then overwritten by the next assignment to [err]. *)
Definition Group_parse (msg : string) : go (nntp.Group * option error) :=
  let rv := nntp.zero in
  let parts := strings.Split msg " " in
  let err := if negb (length parts =? 4)%nat
             then Some (ErrorString ("Don't know how to parse result: " +:+ msg))
             else None in
  p0 ← index parts 0;
  let '(n, err) := strconv.ParseInt p0 in
  let rv := nntp.mkGroup (nntp.Name rv) n (nntp.High rv) (nntp.Low rv) (nntp.Posting rv) in
  if negb (is_nil err) then Returns (rv, err) else
  p1 ← index parts 1;
  let '(n, err) := strconv.ParseInt p1 in
  let rv := nntp.mkGroup (nntp.Name rv) (nntp.Count rv) (nntp.High rv) n (nntp.Posting rv) in
  if negb (is_nil err) then Returns (rv, err) else
  p2 ← index parts 2;
  let '(n, err) := strconv.ParseInt p2 in
  let rv := nntp.mkGroup (nntp.Name rv) (nntp.Count rv) n (nntp.Low rv) (nntp.Posting rv) in
  if negb (is_nil err) then Returns (rv, err) else
  p3 ← index parts 3;
  let rv := nntp.mkGroup p3 (nntp.Count rv) (nntp.High rv) (nntp.Low rv) (nntp.Posting rv) in
  Returns (rv, err).

(** [Group], lines 160-186. *)
Definition Group (name : string) : method (nntp.Group * option error) :=
  '(_, msg, err) ← Command ("GROUP " +:+ name) 211;
  match err with
  | Some e => mret (nntp.zero, Some e)
  | None => eval (Group_parse msg)
  end.

(** [articleish], lines 215-226. *)
Definition articleish (expected : Z)
  : method (Z * string * Reader * option error) :=
  '(_, msg, err) ← on_conn (textproto.ReadCodeLine expected);
  match err with
  | Some e => mret (0, "", NilReader, Some e)
  | None =>
      let parts := strings.SplitN2 msg " " in
      p0 ← eval (index parts 0);
      let '(n, err) := strconv.ParseInt p0 in
      match err with
      | Some e => mret (0, "", NilReader, Some e)
      | None =>
          p1 ← eval (index parts 1);
          r ← get (fun c => DotReader (conn c));
          mret (n, p1, r, None)
      end
  end.

(** [Article], [Head] and [Body], lines 189-213, differ in the verb and
    in the code they expect. *)
Definition retrieve (verb : string) (expected : Z) (specifier : string)
  : method (Z * string * Reader * option error) :=
  err ← on_conn (textproto.PrintfLine (verb +:+ " " +:+ specifier));
  match err with
  | Some e => mret (0, "", NilReader, Some e)
  | None => articleish expected
  end.

Definition Article := retrieve "ARTICLE" 220.
Definition Head := retrieve "HEAD" 221.
Definition Body := retrieve "BODY" 222.

(** [asLines], lines 268-274. *)
Definition asLines (cmd : string) (expectCode : Z)
  : method (list string * option error) :=
  '(_, _, err) ← Command cmd expectCode;
  match err with
  | Some e => mret ([], Some e)
  | None => on_conn textproto.ReadDotLines
  end.

(** [Capabilities], lines 279-289. *)
Definition Capabilities : method (list string * option error) :=
  '(caps, err) ← asLines "CAPABILITIES" 101;
  match err with
  | Some e => mret ([], Some e)
  | None =>
      let caps := strings.ToUpper <$> caps in
      _ ← modify (set_capabilities caps);
      mret (caps, None)
  end.

(** The loop of [GetCapability], lines 299-308. *)
Fixpoint GetCapability_scan (capability : string) (caps : list string) : string :=
  match caps with
  | [] => ""
  | capa :: rest =>
      let i := strings.IndexAny capa (String "009" " ") in
      if negb (i =? -1) && String.eqb (prefix_to capa i) capability then capa
      else if String.eqb capa capability then capa
      else GetCapability_scan capability rest
  end.

(** [GetCapability], lines 297-309. It only reads the client. *)
Definition GetCapability (capability : string) (c : Client) : string :=
  GetCapability_scan (strings.ToUpper capability) (capabilities c).

(** [HasCapabilityArgument], lines 318-335. It only reads the client. *)
Definition HasCapabilityArgument (capability argument : string) (c : Client)
  : go (bool * option error) :=
  match capabilities c with
  | [] => Returns (false, Some (ErrorString "Capabilities unpopulated"))
  | _ =>
      let capLine := GetCapability capability c in
      if String.eqb capLine "" then
        Returns (false, Some (ErrorString "No such capability"))
      else
        let argument := strings.ToUpper argument in
        capArgs ← slice_from_1 (strings.Fields capLine);
        Returns (existsb (fun capArg => String.eqb capArg argument) capArgs, None)
  end.

(** [ListOverviewFmt], lines 344-350. *)
Definition ListOverviewFmt : method (list string * option error) :=
  '(fields, err) ← asLines "LIST OVERVIEW.FMT" 215;
  match err with
  | Some e => mret ([], Some e)
  | None => mret (fields, None)
  end.

(** [OverItem], lines 362-371, fields in the order of the declaration. *)
Record OverItem : Type := mkOverItem {
  Number : string;
  From : string;
  Subject : string;
  Date : string;
  MessageId : string;
  References : string;
  bytesMetadata : string;
  linesMetadata : string
}.

(** The loop of [Over], lines 393-409. *)
Fixpoint Over_lines (lines : list string) (ret : list OverItem) : go (list OverItem) :=
  match lines with
  | [] => Returns ret
  | item :: rest =>
      let splitItem := strings.Split item "009" in
      if (length splitItem <? 5)%nat then Over_lines rest ret
      else
        f0 ← index splitItem 0;
        f1 ← index splitItem 1;
        f2 ← index splitItem 2;
        f3 ← index splitItem 3;
        f4 ← index splitItem 4;
        f5 ← index splitItem 5;
        f6 ← index splitItem 6;
        f7 ← index splitItem 7;
        Over_lines rest
          (ret ++ [{| Number := f0; Subject := f1; From := f2; Date := f3;
                      MessageId := f4; References := f5;
                      bytesMetadata := f6; linesMetadata := f7 |}])
  end.

(** The command line of [Over], lines 375-385. *)
Definition Over_cmd (args : list Z) : string + error :=
  match args with
  | [] => inl "OVER"
  | [n] => inl ("OVER " +:+ fmt.FormatInt n)
  | [a; b] => inl ("OVER " +:+ fmt.FormatInt a +:+ "-" +:+ fmt.FormatInt b)
  | _ => inr (ErrorString
                "Invalid arguments, either 1 or 2 numbers for an item, for a range")
  end.

(** [Over], lines 374-411. *)
Definition Over (args : list Z) : method (list OverItem * option error) :=
  match Over_cmd args with
  | inr e => mret ([], Some e)
  | inl cmd =>
      '(lines, err) ← asLines cmd 224;
      match err with
      | Some e => mret ([], Some e)
      | None =>
          ret ← eval (Over_lines lines []);
          mret (ret, None)
      end
  end.

Definition HasTLS (c : Client) : bool := tls c.

Section Environment.

(** [textproto.NewConn]: the text connection over a [net.Conn]. What
    it will deliver depends on the peer, so it is left open. *)
Variable textproto_NewConn : NetConn -> Conn.

(** [NewConn], lines 72-84: [netconn] is left nil. *)
Definition NewConn (establishedConn : NetConn) : option Client * option error :=
  let conn := textproto_NewConn establishedConn in
  let '((_, msg, err), conn) := textproto.ReadCodeLine 200 conn in
  match err with
  | Some e => (None, Some e)
  | None => (Some (mkClient conn NilConn false msg []), None)
  end.

(** [StartTLS], lines 421-437. [tls.Client] and [textproto.NewConn] do
    no input or output: the first write on the new connection is the one
    of [Capabilities], and the handshake runs in it. A handshake that
    fails makes that write fail, and [Capabilities] returns its error
    with nothing sent; one that faults leaves the client as the three
    assignments made it. *)
Definition StartTLS (config : Config) : method (option error) :=
  fun c =>
    if tls c then (Returns (Some (ErrorString "TLS already active")), c)
    else
      ('(_, _, err) ← Command "STARTTLS" 382;
       match err with
       | Some e => mret (Some e)
       | None =>
           _ ← modify (fun c =>
                  let netconn := TLSClient (netconn c) config in
                  mkClient (textproto_NewConn netconn) netconn
                           true (Banner c) (capabilities c));
           shaken ← (fun c => (Handshake (netconn c), c));
           match shaken with
           | Some e => mret (Some e)
           | None =>
               '(_, err) ← Capabilities;
               match err with
               | Some e => mret (Some e)
               | None => mret None
               end
           end
       end) c.

End Environment.

End nntpclient.

(** ** src/client/client.go

    The same package at an earlier revision: no capabilities, no TLS, no
    overview. [Command], [Authenticate], [Group], [articleish] and the
    calls built on it read as above; [List] differs. *)

Module client_go.
Import nntpclient.

(** The loop of [List], lines 120-132: no test on the number of parts. *)
Fixpoint List_lines (groupLines : list string) (rv : list nntp.Group)
  : go (list nntp.Group) :=
  match groupLines with
  | [] => Returns rv
  | l :: rest =>
      let parts := strings.Split l " " in
      p1 ← index parts 1;
      let '(high, errh) := strconv.ParseInt p1 in
      p2 ← index parts 2;
      let '(low, errl) := strconv.ParseInt p2 in
      if is_nil errh && is_nil errl then
        p0 ← index parts 0;
        p3 ← index parts 3;
        List_lines rest (rv ++ [nntp.mkGroup p0 0 high low (parsePosting p3)])
      else List_lines rest rv
  end.

(** [List], lines 109-134. *)
Definition List (sub : string) : method (list nntp.Group * option error) :=
  '(_, _, err) ← Command ("LIST " +:+ sub) 215;
  match err with
  | Some e => mret ([], Some e)
  | None =>
      '(groupLines, err) ← on_conn textproto.ReadDotLines;
      match err with
      | Some e => mret ([], Some e)
      | None =>
          rv ← eval (List_lines groupLines []);
          mret (rv, None)
      end
  end.

End client_go.

(** * Vocabulary of the properties

    Worlds to run the client in, what a connection will deliver and
    accept, and the behaviour the specification words for a call. *)

Import nntpclient.

(** A client whose peer will deliver [lines], with nothing written yet
    and no write failing. *)
Definition served (lines : list string) : Client :=
  mkClient (mkConn (Line <$> lines) [] []) NilConn false "" [].

(** The line a server sends for a code and a message. *)
Definition status_line (code : Z) (msg : string) : string :=
  fmt.FormatInt code +:+ " " +:+ msg.

(** The next write on the connection succeeds. *)
Definition write_ok (k : Conn) : bool :=
  match wscript k with
  | Some _ :: _ => false
  | _ => true
  end.

(** The connection after a write that succeeded. *)
Definition written (line : string) (k : Conn) : Conn :=
  mkConn (inbound k) (outbound k ++ [line]) (tail (wscript k)).

(** A code is written with three digits that [Atoi] reads back. *)
Definition three_digits (code : Z) : bool :=
  match fmt.FormatInt code with
  | String _ (String _ (String _ EmptyString)) =>
      match strconv.Atoi (fmt.FormatInt code) with
      | (n, None) => n =? code
      | _ => false
      end
  | _ => false
  end.

(** The test of [parseCodeLine] on the expected code. *)
Definition mismatch (expectCode code : Z) : bool :=
  (1 <=? expectCode) && (expectCode <? 10) && negb (code / 100 =? expectCode)
  || (10 <=? expectCode) && (expectCode <? 100) && negb (code / 10 =? expectCode)
  || (100 <=? expectCode) && (expectCode <? 1000) && negb (code =? expectCode).

(** The three retrieval calls and the code each expects. *)
Definition retrievals
  : list ((string -> method (Z * string * Reader * option error)) * string * Z) :=
  [(Article, "ARTICLE", 220); (Head, "HEAD", 221); (Body, "BODY", 222)].

(** The code and message of a delivery that is a one-line status. *)
Definition reply (d : option delivery) : option (Z * string) :=
  match d with
  | Some (Line l) =>
      match textproto.parseCodeLine l (-1) with
      | (code, false, msg, None) => Some (code, msg)
      | _ => None
      end
  | _ => None
  end.

(** The error the [i]-th write from now will meet, if any. *)
Definition write_error (k : Conn) (i : nat) : option error :=
  default None (wscript k !! i).

(** The [i]-th exchange from now is a line written and a one-line status
    of the given code read. *)
Definition accepts (k : Conn) (i : nat) (code : Z) : bool :=
  is_nil (write_error k i)
  && match reply (inbound k !! i) with
     | Some (n, _) => n =? code
     | None => false
     end.

(** One exchange: a line written and a status line read, as [Command]
    does and as [Authenticate] does twice. *)
Definition exchange (line : string) (expectCode : Z)
  : method (Z * string * option error) :=
  err ← on_conn (textproto.PrintfLine line);
  match err with
  | Some e => mret (0, "", Some e)
  | None => on_conn (textproto.ReadCodeLine expectCode)
  end.

(** The line a server sends for a line of a block: a leading dot is
    doubled. *)
Definition dot_stuff (l : string) : string :=
  match l with
  | String "."%char _ => String "." l
  | _ => l
  end.

(** A call that changes nothing of the client but its connection. *)
Definition keeps_session {A} (m : method A) : Prop :=
  forall c, exists k', (m c).2 = set_conn k' c.

(** No byte of the string is white space. *)
Fixpoint no_space (s : string) : bool :=
  match s with
  | EmptyString => true
  | String c s' => negb (strings.asciiSpace c) && no_space s'
  end.

(** A token: not empty, and no white space. *)
Definition is_token (s : string) : bool :=
  negb (String.eqb s "") && no_space s.

(** The label of a capability line: what comes before the first space or
    TAB, the separators of RFC 3977, 3.3.1. *)
Definition label_of (line : string) : option string :=
  let i := strings.IndexAny line (String "009" " ") in
  if i =? -1 then None else Some (prefix_to line i).

(** A line matches a label when the line or its label is the label,
    letter case apart. *)
Definition label_matches (label line : string) : bool :=
  String.eqb (strings.ToUpper line) (strings.ToUpper label)
  || match label_of line with
     | Some l => String.eqb (strings.ToUpper l) (strings.ToUpper label)
     | None => false
     end.

(** The tokens of a line after a label at its start. *)
Definition tokens_after (label line : string) : list string :=
  strings.Fields (suffix_from line (String.length label)).

(** The behaviour of [HasCapabilityArgument] in the words of the
    specification, section 4.7. *)
Definition HasCapabilityArgument_spec (label argument : string) (c : Client)
  : go (bool * option error) :=
  match capabilities c with
  | [] => Returns (false, Some (ErrorString "Capabilities unpopulated"))
  | caps =>
      match List.find (label_matches label) caps with
      | None => Returns (false, Some (ErrorString "No such capability"))
      | Some line =>
          Returns (bool_decide (strings.ToUpper argument ∈ tokens_after label line), None)
      end
  end.

(** The cache holds upper-case lines, as [Capabilities] stores them. *)
Definition upper_case (s : string) : Prop := strings.ToUpper s = s.

(** No byte of the string is above 0x7f, the test [c >= utf8.RuneSelf] of
    Go: on these strings [strings.ToUpper] and [strings.Fields] take
    their ASCII path, the one the embedding has. *)
Fixpoint ascii_only (s : string) : bool :=
  match s with
  | EmptyString => true
  | String c s' => (Z.of_nat (nat_of_ascii c) <? 128) && ascii_only s'
  end.

(** The calls of the client in the model. *)
Inductive call : Type :=
| CallCommand (cmd : string) (expectCode : Z)
| CallAuthenticate (user pass : string)
| CallList (sub : string)
| CallGroup (name : string)
| CallArticle (specifier : string)
| CallHead (specifier : string)
| CallBody (specifier : string)
| CallCapabilities
| CallListOverviewFmt
| CallOver (args : list Z)
| CallStartTLS (config : Config).

Section Session.

Variable text_conn : NetConn -> Conn.

(** The client after a call, whether it returned or faulted. *)
Definition perform (op : call) (c : Client) : Client :=
  match op with
  | CallCommand cmd expectCode => (Command cmd expectCode c).2
  | CallAuthenticate user pass => (Authenticate user pass c).2
  | CallList sub => (List sub c).2
  | CallGroup name => (Group name c).2
  | CallArticle specifier => (Article specifier c).2
  | CallHead specifier => (Head specifier c).2
  | CallBody specifier => (Body specifier c).2
  | CallCapabilities => (Capabilities c).2
  | CallListOverviewFmt => (ListOverviewFmt c).2
  | CallOver args => (Over args c).2
  | CallStartTLS config => (StartTLS text_conn config c).2
  end.

(** The list a successful [Capabilities] returned. *)
Definition fetch (c : Client) : option (list string) :=
  match (Capabilities c).1 with
  | Returns (caps, None) => Some caps
  | _ => None
  end.

(** The capabilities fetched with success in the course of a call:
    by [Capabilities] itself, or by the one [StartTLS] makes on the
    client it has upgraded, when the handshake lets it write. *)
Definition fetched (op : call) (c : Client) : option (list string) :=
  match op with
  | CallCapabilities => fetch c
  | CallStartTLS config =>
      if tls c then None
      else match Command "STARTTLS" 382 c with
           | (Returns (_, _, None), c1) =>
               let secured := TLSClient (netconn c1) config in
               match Handshake secured with
               | Returns None =>
                   fetch (mkClient (text_conn secured) secured true
                                   (Banner c1) (capabilities c1))
               | _ => None
               end
           | _ => None
           end
  | _ => None
  end.

(** The client after a sequence of calls. *)
Fixpoint run (ops : list call) (c : Client) : Client :=
  match ops with
  | [] => c
  | op :: ops' => run ops' (perform op c)
  end.

(** The most recent successful fetch of a run, if there was one. *)
Fixpoint last_fetch (ops : list call) (c : Client) : option (list string) :=
  match ops with
  | [] => None
  | op :: ops' =>
      match last_fetch ops' (perform op c) with
      | Some caps => Some caps
      | None => fetched op c
      end
  end.

End Session.

(** The value of a decimal numeral read after [acc]. *)
Fixpoint uint_value (acc : Z) (d : Decimal.uint) : Z :=
  match d with
  | Decimal.Nil => acc
  | Decimal.D0 d => uint_value (acc * 10 + 0) d
  | Decimal.D1 d => uint_value (acc * 10 + 1) d
  | Decimal.D2 d => uint_value (acc * 10 + 2) d
  | Decimal.D3 d => uint_value (acc * 10 + 3) d
  | Decimal.D4 d => uint_value (acc * 10 + 4) d
  | Decimal.D5 d => uint_value (acc * 10 + 5) d
  | Decimal.D6 d => uint_value (acc * 10 + 6) d
  | Decimal.D7 d => uint_value (acc * 10 + 7) d
  | Decimal.D8 d => uint_value (acc * 10 + 8) d
  | Decimal.D9 d => uint_value (acc * 10 + 9) d
  end.

(** [strings.Join(fields, sep)] for a separator of one byte: the line a
    server builds from its fields. *)
Fixpoint join (sep : ascii) (fields : list string) : string :=
  match fields with
  | [] => ""
  | [f] => f
  | f :: fs => f +:+ String sep (join sep fs)
  end.

(** What a line of a LIST block gives: a group, when it has four fields
    or more and its second and third are numbers. *)
Definition list_group (l : string) : option nntp.Group :=
  match strings.Split l " " with
  | p0 :: p1 :: p2 :: p3 :: _ =>
      match strconv.ParseInt p1, strconv.ParseInt p2 with
      | (high, None), (low, None) =>
          Some (nntp.mkGroup p0 0 high low (parsePosting p3))
      | _, _ => None
      end
  | _ => None
  end.

(** The lines [List] faults on: three fields, the last two numbers. *)
Definition list_fault (l : string) : bool :=
  match strings.Split l " " with
  | [_; p1; p2] => is_nil (strconv.ParseInt p1).2 && is_nil (strconv.ParseInt p2).2
  | _ => false
  end.

(** The letter of a posting status in a LIST line. *)
Definition posting_flag (p : nntp.PostingStatus) : string :=
  match p with
  | nntp.PostingPermitted => "y"
  | nntp.PostingModerated => "m"
  | _ => "n"
  end.

(** The LIST line of a group: name, high, low, flag. *)
Definition list_line (g : nntp.Group) : string :=
  join " " [nntp.Name g; fmt.FormatInt (nntp.High g); fmt.FormatInt (nntp.Low g);
            posting_flag (nntp.Posting g)].

(** A group as [List] can return it: a name without a space, article
    numbers in [int64], no count, a known posting status. *)
Definition listable (g : nntp.Group) : Prop :=
  strings.contains_byte (nntp.Name g) " " = false
  /\ strconv.minInt64 <= nntp.High g <= strconv.maxInt64
  /\ strconv.minInt64 <= nntp.Low g <= strconv.maxInt64
  /\ nntp.Count g = 0
  /\ nntp.Posting g <> nntp.Unknown.

(** The command line of [List] for a pattern. *)
Definition List_cmd (sub : string) : string :=
  "LIST" +:+ (if String.eqb sub "" then sub else " " +:+ sub).

(** The message of a 211 reply for a group: count, low, high, name. *)
Definition group_line (g : nntp.Group) : string :=
  join " " [fmt.FormatInt (nntp.Count g); fmt.FormatInt (nntp.Low g);
            fmt.FormatInt (nntp.High g); nntp.Name g].

(** What a line of an overview block gives: an item, when it has eight
    fields or more. *)
Definition over_item (l : string) : option OverItem :=
  match strings.Split l "009" with
  | f0 :: f1 :: f2 :: f3 :: f4 :: f5 :: f6 :: f7 :: _ =>
      Some {| Number := f0; Subject := f1; From := f2; Date := f3;
              MessageId := f4; References := f5;
              bytesMetadata := f6; linesMetadata := f7 |}
  | _ => None
  end.

(** The lines [Over] faults on: five, six or seven fields. *)
Definition over_short (l : string) : bool :=
  let n := length (strings.Split l "009") in (5 <=? n)%nat && (n <? 8)%nat.

(** The fields of an item in the order of the line. *)
Definition over_fields (i : OverItem) : list string :=
  [Number i; Subject i; From i; Date i; MessageId i; References i;
   bytesMetadata i; linesMetadata i].

(** The overview line of an item. *)
Definition over_line (i : OverItem) : string := join "009" (over_fields i).

(** No field of the item holds a TAB. *)
Definition tab_free (i : OverItem) : Prop :=
  Forall (fun f => strings.contains_byte f "009" = false) (over_fields i).

(** * Properties *)

(** ** Splitting *)

Lemma Split_cons (s : string) (sep : ascii) :
  exists f fs, strings.Split s sep = f :: fs.
Proof.
  induction s as [|c s IH]; simpl; [by eauto|].
  destruct (Ascii.eqb c sep); [by eauto|].
  destruct IH as (f & fs & ->). eauto.
Qed.

Lemma index_0_Split (s : string) (sep : ascii) :
  exists f, index (strings.Split s sep) 0 = Returns f.
Proof. destruct (Split_cons s sep) as (f & fs & ->). by exists f. Qed.

Lemma SplitN2_cons (s : string) (sep : ascii) :
  exists f fs, strings.SplitN2 s sep = f :: fs.
Proof.
  induction s as [|c s IH]; simpl; [by eauto|].
  destruct (Ascii.eqb c sep); [by eauto|].
  destruct IH as (f & fs & ->). eauto.
Qed.

(** ** List: one line of the data block *)

Lemma List_lines_skip (l : string) (rest : list string) (rv : list nntp.Group) :
  (length (strings.Split l " ") < 3)%nat ->
  List_lines (l :: rest) rv = List_lines rest rv.
Proof.
  intros Hlen. simpl.
  destruct (Nat.ltb_spec (length (strings.Split l " ")) 3); [done | lia].
Qed.

Lemma List_lines_three (l p0 p1 p2 : string) (high low : Z)
    (rest : list string) (rv : list nntp.Group) :
  strings.Split l " " = [p0; p1; p2] ->
  strconv.ParseInt p1 = (high, None) ->
  strconv.ParseInt p2 = (low, None) ->
  List_lines (l :: rest) rv = Panics (IndexOutOfRange 3 3).
Proof. intros Hs Hh Hl. simpl. rewrite Hs. simpl. by rewrite Hh, Hl. Qed.

Lemma List_lines_four (l p0 p1 p2 p3 : string) (more : list string)
    (rest : list string) (rv : list nntp.Group) :
  strings.Split l " " = p0 :: p1 :: p2 :: p3 :: more ->
  List_lines (l :: rest) rv =
    match strconv.ParseInt p1, strconv.ParseInt p2 with
    | (high, None), (low, None) =>
        List_lines rest (rv ++ [nntp.mkGroup p0 0 high low (parsePosting p3)])
    | _, _ => List_lines rest rv
    end.
Proof.
  intros Hs. simpl. rewrite Hs. simpl.
  destruct (strconv.ParseInt p1) as [high [e|]], (strconv.ParseInt p2) as [low [e'|]];
    reflexivity.
Qed.

(** C1. A data line of three fields whose high and low are numbers passes
    the test [len(parts) < 3] and faults at [parts[3]]: here the block
    [misc.test 3002 3000]. The earlier revision has no test at all and
    faults on a line of one field at [parts[1]]. *)
Theorem List_faults_on_three_fields :
  (List "" (served ["215 list follows"; "misc.test 3002 3000"; "."])).1
    = Panics (IndexOutOfRange 3 3)
  /\ (client_go.List "" (served ["215 list follows"; "misc.test"; "."])).1
    = Panics (IndexOutOfRange 1 1).
Proof. split; vm_compute; reflexivity. Qed.

(** ** Over: one line of the data block *)

Lemma Over_lines_skip (item : string) (rest : list string) (ret : list OverItem) :
  (length (strings.Split item "009") < 5)%nat ->
  Over_lines (item :: rest) ret = Over_lines rest ret.
Proof.
  intros Hlen. simpl.
  destruct (Nat.ltb_spec (length (strings.Split item "009")) 5); [done | lia].
Qed.

Lemma Over_lines_eight (item f0 f1 f2 f3 f4 f5 f6 f7 : string) (more : list string)
    (rest : list string) (ret : list OverItem) :
  strings.Split item "009" = f0 :: f1 :: f2 :: f3 :: f4 :: f5 :: f6 :: f7 :: more ->
  Over_lines (item :: rest) ret =
    Over_lines rest
      (ret ++ [{| Number := f0; Subject := f1; From := f2; Date := f3;
                  MessageId := f4; References := f5;
                  bytesMetadata := f6; linesMetadata := f7 |}]).
Proof. intros Hs. simpl. rewrite Hs. reflexivity. Qed.

Lemma Over_lines_short (item : string) (rest : list string) (ret : list OverItem) :
  (5 <= length (strings.Split item "009") < 8)%nat ->
  Over_lines (item :: rest) ret =
    Panics (IndexOutOfRange (length (strings.Split item "009"))
                            (length (strings.Split item "009"))).
Proof.
  intros Hlen. simpl.
  destruct (strings.Split item "009") as [|f0 [|f1 [|f2 [|f3 [|f4 [|f5 [|f6 [|f7 more]]]]]]]];
    simpl in *; try lia; reflexivity.
Qed.

(** C2. A data line of five tab-separated fields passes the test
    [len(splitItem) < 5] and faults at [splitItem[5]]. *)
Theorem Over_faults_on_five_fields :
  (Over [] (served ["224 overview follows";
                    String.concat (String "009" "")
                      ["3000"; "subject"; "poster"; "6 Oct 1998"; "<45223423@example.com>"];
                    "."])).1
    = Panics (IndexOutOfRange 5 5).
Proof. vm_compute; reflexivity. Qed.

(** ** Group: the status message *)

(** The length test does not stop the parse: with more than four fields
    the first four are used and no error is returned. *)
Lemma Group_parse_more (msg p0 p1 p2 p3 : string) (more : list string)
    (count low high : Z) :
  strings.Split msg " " = p0 :: p1 :: p2 :: p3 :: more ->
  strconv.ParseInt p0 = (count, None) ->
  strconv.ParseInt p1 = (low, None) ->
  strconv.ParseInt p2 = (high, None) ->
  Group_parse msg = Returns (nntp.mkGroup p3 count high low nntp.Unknown, None).
Proof.
  intros Hs H0 H1 H2. unfold Group_parse. rewrite Hs. simpl.
  rewrite H0. simpl. rewrite H1. simpl. rewrite H2. reflexivity.
Qed.

(** With fewer than four fields, all of them numbers, the parse faults. *)
Lemma Group_parse_three (msg p0 p1 p2 : string) (count low high : Z) :
  strings.Split msg " " = [p0; p1; p2] ->
  strconv.ParseInt p0 = (count, None) ->
  strconv.ParseInt p1 = (low, None) ->
  strconv.ParseInt p2 = (high, None) ->
  Group_parse msg = Panics (IndexOutOfRange 3 3).
Proof.
  intros Hs H0 H1 H2. unfold Group_parse. rewrite Hs. simpl.
  rewrite H0. simpl. rewrite H1. simpl. rewrite H2. reflexivity.
Qed.

Example Group_alt_test :
  (Group "alt.test" (served ["211 5 10 20 alt.test"])).1
    = Returns (nntp.mkGroup "alt.test" 5 20 10 nntp.Unknown, None).
Proof. vm_compute; reflexivity. Qed.

(** C3. A status message of five fields is no parse error: [Group]
    returns a group and a nil error. A message of three fields faults at
    [parts[3]]. *)
Theorem Group_accepts_five_fields :
  (Group "alt.test" (served ["211 5 10 20 alt.test extra"])).1
    = Returns (nntp.mkGroup "alt.test" 5 20 10 nntp.Unknown, None)
  /\ (Group "alt.test" (served ["211 5 10 20"])).1
    = Panics (IndexOutOfRange 3 3).
Proof. split; vm_compute; reflexivity. Qed.

(** ** Status lines *)

Lemma PrintfLine_ok (line : string) (k : Conn) :
  write_ok k = true -> textproto.PrintfLine line k = (None, written line k).
Proof.
  unfold write_ok, textproto.PrintfLine, written.
  destruct (wscript k) as [|[e|] w]; simpl; congruence.
Qed.

Lemma PrintfLine_fails (line : string) (k : Conn) (e : error) (w : list (option error)) :
  wscript k = Some e :: w ->
  textproto.PrintfLine line k = (Some e, mkConn (inbound k) (outbound k) w).
Proof. unfold textproto.PrintfLine. by intros ->. Qed.

Lemma substring_all (s : string) : String.substring 0 (String.length s) s = s.
Proof. induction s as [|c s IH]; simpl; [done | by rewrite IH]. Qed.

Lemma suffix_from_4 (a b c d : ascii) (s : string) :
  suffix_from (String a (String b (String c (String d s)))) 4 = s.
Proof.
  unfold suffix_from. cbn [String.length Nat.sub String.substring].
  rewrite Nat.sub_0_r. apply substring_all.
Qed.

Lemma three_digits_all : forallb three_digits (seqZ 100 900) = true.
Proof. vm_compute. reflexivity. Qed.

Lemma FormatInt_three_digits (code : Z) :
  100 <= code <= 999 ->
  exists a b c,
    fmt.FormatInt code = String a (String b (String c EmptyString))
    /\ strconv.Atoi (String a (String b (String c EmptyString))) = (code, None).
Proof.
  intros Hcode.
  assert (Hin : In code (seqZ 100 900)).
  { apply list_elem_of_In, elem_of_seqZ. lia. }
  pose proof (proj1 (forallb_forall _ _) three_digits_all code Hin) as H.
  unfold three_digits in H.
  destruct (fmt.FormatInt code) as [|a [|b [|c [|? ?]]]] eqn:Hf; try discriminate.
  exists a, b, c. split; [done|].
  destruct (strconv.Atoi _) as [n [e|]]; [discriminate|].
  apply Z.eqb_eq in H. by subst.
Qed.

Lemma parseCodeLine_status (code expectCode : Z) (msg : string) :
  100 <= code <= 999 ->
  textproto.parseCodeLine (status_line code msg) expectCode =
    (code, false, msg,
     if mismatch expectCode code then Some (CodeError code msg) else None).
Proof.
  intros Hcode.
  destruct (FormatInt_three_digits code Hcode) as (a & b & c & Hf & Hatoi).
  unfold status_line. rewrite Hf.
  unfold textproto.parseCodeLine.
  change (String a (String b (String c "")) +:+ " " +:+ msg)
    with (String a (String b (String c (String " " msg)))).
  change (prefix_to (String a (String b (String c (String " " msg)))) 3)
    with (String a (String b (String c ""))).
  rewrite Hatoi.
  rewrite suffix_from_4.
  cbn [String.length String.get Nat.ltb Nat.leb orb negb].
  rewrite !bool_decide_eq_true_2 by done.
  rewrite bool_decide_eq_false_2 by done.
  destruct (Z.ltb_spec code 100); [lia|].
  cbn [orb negb].
  fold (mismatch expectCode code).
  by destruct (mismatch expectCode code).
Qed.

Lemma ReadCodeLine_status (code expectCode : Z) (msg : string) (k : Conn)
    (rest : list delivery) :
  100 <= code <= 999 ->
  inbound k = Line (status_line code msg) :: rest ->
  textproto.ReadCodeLine expectCode k =
    ((code, msg, if mismatch expectCode code then Some (CodeError code msg) else None),
     mkConn rest (outbound k) (wscript k)).
Proof.
  intros Hcode Hin. unfold textproto.ReadCodeLine, textproto.ReadLine.
  rewrite Hin, parseCodeLine_status by done.
  by destruct (mismatch expectCode code).
Qed.

Lemma Command_status (cmd : string) (code expectCode : Z) (msg : string)
    (c : Client) (rest : list delivery) :
  100 <= code <= 999 ->
  write_ok (conn c) = true ->
  inbound (conn c) = Line (status_line code msg) :: rest ->
  Command cmd expectCode c =
    (Returns (code, msg,
              if mismatch expectCode code then Some (CodeError code msg) else None),
     set_conn (mkConn rest (outbound (conn c) ++ [fmt.Sprintf0 cmd])
                      (tail (wscript (conn c)))) c).
Proof.
  intros Hcode Hw Hin.
  unfold Command, mbind, method_bind, on_conn.
  rewrite PrintfLine_ok by done.
  cbn [conn set_conn].
  erewrite ReadCodeLine_status by (done || exact Hin).
  reflexivity.
Qed.

Lemma mismatch_digits (expectCode k code : Z) :
  1 <= k <= 3 -> 10 ^ (k - 1) <= expectCode < 10 ^ k ->
  mismatch expectCode code = negb (code / 10 ^ (3 - k) =? expectCode).
Proof.
  intros Hk He. unfold mismatch.
  assert (k = 1 \/ k = 2 \/ k = 3) as [-> | [-> | ->]] by lia.
  - change (10 ^ (3 - 1)) with 100.
    change (10 ^ (1 - 1)) with 1 in He. change (10 ^ 1) with 10 in He. lia.
  - change (10 ^ (3 - 2)) with 10.
    change (10 ^ (2 - 1)) with 10 in He. change (10 ^ 2) with 100 in He. lia.
  - change (10 ^ (3 - 3)) with 1. rewrite Z.div_1_r.
    change (10 ^ (3 - 1)) with 100 in He. change (10 ^ 3) with 1000 in He. lia.
Qed.

Lemma mismatch_off (code : Z) : mismatch (-1) code = false.
Proof. reflexivity. Qed.

(** ** Command: the expected code *)

(** The value 2 accepts the codes from 200 to 299 and no other. *)
Lemma Command_expect_2 (cmd : string) (code : Z) (msg : string)
    (c : Client) (rest : list delivery) :
  100 <= code <= 999 ->
  write_ok (conn c) = true ->
  inbound (conn c) = Line (status_line code msg) :: rest ->
  (Command cmd 2 c).1 = Returns (code, msg, None) <-> 200 <= code < 300.
Proof.
  intros Hcode Hw Hin. rewrite (Command_status _ _ _ _ _ _ Hcode Hw Hin).
  cbn [fst]. rewrite (mismatch_digits 2 1 code) by lia.
  change (10 ^ (3 - 1)) with 100.
  destruct (Z.eqb_spec (code / 100) 2) as [Heq|Hne]; cbn [negb].
  - split; [intros _ | done].
    pose proof (Z.div_mod code 100). pose proof (Z.mod_pos_bound code 100). lia.
  - split; [done | intros Hr]. exfalso. apply Hne.
    symmetry. apply Z.div_unique with (r := code - 200); lia.
Qed.

(** C4. With an expected code of [k] digits, [Command] returns a nil
    error exactly when the first [k] digits of the three-digit response
    code are the expected code, and otherwise the error that carries the
    code and the message of the response; with -1 it accepts the response
    whatever its code. *)
Theorem Command_expected_code (cmd : string) (expectCode k code : Z) (msg : string)
    (c : Client) (rest : list delivery) :
  1 <= k <= 3 -> 10 ^ (k - 1) <= expectCode < 10 ^ k ->
  100 <= code <= 999 ->
  write_ok (conn c) = true ->
  inbound (conn c) = Line (status_line code msg) :: rest ->
  (exists err,
      (Command cmd expectCode c).1 = Returns (code, msg, err)
      /\ (err = None <-> code / 10 ^ (3 - k) = expectCode)
      /\ (err <> None -> err = Some (CodeError code msg)))
  /\ (Command cmd (-1) c).1 = Returns (code, msg, None).
Proof.
  intros Hk He Hcode Hw Hin. split.
  - rewrite (Command_status _ _ _ _ _ _ Hcode Hw Hin). cbn [fst].
    rewrite (mismatch_digits expectCode k code Hk He).
    destruct (Z.eqb_spec (code / 10 ^ (3 - k)) expectCode) as [Heq|Hne]; cbn [negb].
    + exists None. by repeat split.
    + exists (Some (CodeError code msg)). repeat split; try done.
  - by rewrite (Command_status _ _ _ _ _ _ Hcode Hw Hin).
Qed.

Lemma Command_expected_code_witness :
  (exists err,
      (Command "DATE" 21 (served ["211 5 10 20 alt.test"])).1
        = Returns (211, "5 10 20 alt.test", err)
      /\ (err = None <-> 211 / 10 ^ (3 - 2) = 21)
      /\ (err <> None -> err = Some (CodeError 211 "5 10 20 alt.test")))
  /\ (Command "DATE" (-1) (served ["211 5 10 20 alt.test"])).1
       = Returns (211, "5 10 20 alt.test", None).
Proof.
  apply (Command_expected_code "DATE" 21 2 211 "5 10 20 alt.test"
           (served ["211 5 10 20 alt.test"]) []);
    [lia | lia | lia | reflexivity | reflexivity].
Defined.

(** ** Article, Head, Body: the status message *)

Lemma SplitN2_without (s : string) (sep : ascii) :
  strings.contains_byte s sep = false -> strings.SplitN2 s sep = [s].
Proof.
  induction s as [|c s IH]; simpl; [done|].
  rewrite Ascii.eqb_sym.
  destruct (Ascii.eqb c sep); simpl; [done|].
  intros H. by rewrite IH.
Qed.

Lemma SplitN2_at_first (first rest : string) (sep : ascii) :
  strings.contains_byte first sep = false ->
  strings.SplitN2 (first +:+ String sep rest) sep = [first; rest].
Proof.
  induction first as [|c s IH].
  - change ("" +:+ String sep rest) with (String sep rest). simpl.
    by rewrite Ascii.eqb_refl.
  - change (String c s +:+ String sep rest) with (String c (s +:+ String sep rest)).
    simpl. rewrite Ascii.eqb_sym.
    destruct (Ascii.eqb c sep); simpl; [done|].
    intros H. by rewrite IH.
Qed.

Lemma SplitN2_with (s : string) (sep : ascii) :
  strings.contains_byte s sep = true ->
  exists first rest,
    s = first +:+ String sep rest /\ strings.contains_byte first sep = false.
Proof.
  induction s as [|c s IH]; simpl; [done|].
  rewrite Ascii.eqb_sym.
  destruct (Ascii.eqb_spec c sep) as [->|Hne]; simpl.
  - intros _. by exists "", s.
  - intros H. destruct (IH H) as (first & rest & -> & Hf).
    exists (String c first), rest. split; [done|]. simpl.
    rewrite Hf, orb_false_r. by apply Ascii.eqb_neq.
Qed.

(** What [articleish] makes of a status message. *)
Lemma articleish_status (expected : Z) (msg : string) (c : Client)
    (rest : list delivery) :
  100 <= expected <= 999 ->
  inbound (conn c) = Line (status_line expected msg) :: rest ->
  let c' := set_conn (mkConn rest (outbound (conn c)) (wscript (conn c))) c in
  articleish expected c =
    match strings.SplitN2 msg " " with
    | [] => (Panics (IndexOutOfRange 0 0), c')
    | p0 :: ps =>
        match strconv.ParseInt p0 with
        | (_, Some e) => (Returns (0, "", NilReader, Some e), c')
        | (n, None) =>
            match ps with
            | [] => (Panics (IndexOutOfRange 1 1), c')
            | p1 :: _ => (Returns (n, p1, DotReader (conn c'), None), c')
            end
        end
    end.
Proof.
  intros Hcode Hin c'.
  unfold articleish, mbind, method_bind, on_conn.
  erewrite ReadCodeLine_status by (done || exact Hin).
  assert (mismatch expected expected = false) as ->.
  { rewrite (mismatch_digits expected 3 expected); [|lia|].
    - change (10 ^ (3 - 3)) with 1. rewrite Z.div_1_r. lia.
    - change (10 ^ (3 - 1)) with 100. change (10 ^ 3) with 1000. lia. }
  fold c'.
  destruct (strings.SplitN2 msg " ") as [|p0 ps]; [done|].
  cbn [eval index lookup list_lookup].
  destruct (strconv.ParseInt p0) as [n [e|]]; [done|].
  destruct ps as [|p1 ps]; done.
Qed.

Lemma retrievals_retrieve op verb expected :
  (op, verb, expected) ∈ retrievals ->
  op = retrieve verb expected /\ 100 <= expected <= 999.
Proof.
  unfold retrievals. rewrite !elem_of_cons, elem_of_nil.
  intros [H | [H | [H | []]]]; injection H as -> -> ->; split; (done || lia).
Qed.

(** C10. Once the command is written and the status line carries the
    expected code, [Article], [Head] and [Body] return an article number,
    the rest of the message and the reader only for a message with a
    space in it, split at the first one; a message without a space that
    is a number faults at [parts[1]]. *)
Theorem articleish_message_without_space op verb expected
    (specifier msg : string) (c : Client) (rest : list delivery) :
  (op, verb, expected) ∈ retrievals ->
  write_ok (conn c) = true ->
  inbound (conn c) = Line (status_line expected msg) :: rest ->
  let k := mkConn rest (outbound (conn c) ++ [verb +:+ " " +:+ specifier])
                  (tail (wscript (conn c))) in
  (forall n id rd,
      (op specifier c).1 = Returns (n, id, rd, None) ->
      exists first,
        msg = first +:+ " " +:+ id
        /\ strings.contains_byte first " " = false
        /\ strconv.ParseInt first = (n, None)
        /\ rd = DotReader k)
  /\ (forall first id n,
         msg = first +:+ " " +:+ id ->
         strings.contains_byte first " " = false ->
         strconv.ParseInt first = (n, None) ->
         op specifier c = (Returns (n, id, DotReader k, None), set_conn k c))
  /\ (forall n,
         strings.contains_byte msg " " = false ->
         strconv.ParseInt msg = (n, None) ->
         op specifier c = (Panics (IndexOutOfRange 1 1), set_conn k c)).
Proof.
  intros Hop Hw Hin k.
  destruct (retrievals_retrieve _ _ _ Hop) as [-> Hcode].
  assert (Hrun : retrieve verb expected specifier c =
                 articleish expected (set_conn (written (verb +:+ " " +:+ specifier) (conn c)) c)).
  { unfold retrieve, mbind, method_bind, on_conn. by rewrite PrintfLine_ok. }
  rewrite Hrun.
  rewrite (articleish_status expected msg _ rest Hcode) by done.
  cbn [conn set_conn written inbound outbound wscript netconn tls Banner capabilities].
  fold k. change (mkClient k (netconn c) (tls c) (Banner c) (capabilities c))
    with (set_conn k c).
  split; [|split].
  - intros n id rd Hret.
    destruct (strings.contains_byte msg " ") eqn:Hsp.
    + destruct (SplitN2_with msg " " Hsp) as (first & rest' & -> & Hfirst).
      rewrite SplitN2_at_first in Hret by done.
      destruct (strconv.ParseInt first) as [n' [e|]] eqn:Hp; [done|].
      cbn [fst] in Hret. injection Hret as -> -> <-.
      by exists first.
    + rewrite SplitN2_without in Hret by done.
      destruct (strconv.ParseInt msg) as [n' [e|]]; done.
  - intros first id n -> Hfirst Hp.
    change (first +:+ " " +:+ id) with (first +:+ String " " id).
    by rewrite SplitN2_at_first, Hp.
  - intros n Hsp Hp. by rewrite SplitN2_without, Hp.
Qed.

Lemma articleish_message_without_space_witness :
  let k := mkConn [Line "line"; Line "."] ["ARTICLE 123"] [] in
  (forall n id rd,
      (Article "123" (served ["220 123"; "line"; "."])).1 = Returns (n, id, rd, None) ->
      exists first,
        "123" = first +:+ " " +:+ id
        /\ strings.contains_byte first " " = false
        /\ strconv.ParseInt first = (n, None)
        /\ rd = DotReader k)
  /\ (forall first id n,
         "123" = first +:+ " " +:+ id ->
         strings.contains_byte first " " = false ->
         strconv.ParseInt first = (n, None) ->
         Article "123" (served ["220 123"; "line"; "."])
           = (Returns (n, id, DotReader k, None),
              set_conn k (served ["220 123"; "line"; "."])))
  /\ (forall n,
         strings.contains_byte "123" " " = false ->
         strconv.ParseInt "123" = (n, None) ->
         Article "123" (served ["220 123"; "line"; "."])
           = (Panics (IndexOutOfRange 1 1),
              set_conn k (served ["220 123"; "line"; "."]))).
Proof.
  apply (articleish_message_without_space Article "ARTICLE" 220 "123" "123"
           (served ["220 123"; "line"; "."]) [Line "line"; Line "."]);
    [unfold retrievals; apply list_elem_of_here | reflexivity | reflexivity].
Defined.

(** ** What a call writes *)

Lemma ReadCodeLine_writes_nothing (expectCode : Z) (k : Conn) :
  outbound (textproto.ReadCodeLine expectCode k).2 = outbound k
  /\ wscript (textproto.ReadCodeLine expectCode k).2 = wscript k.
Proof.
  unfold textproto.ReadCodeLine, textproto.ReadLine.
  destruct (inbound k) as [|[l|e] rest]; [done| |done].
  destruct (textproto.parseCodeLine l expectCode) as [[[code continued] message] [e|]];
    [done|]. by destruct continued.
Qed.

Lemma ReadDotLines_writes_nothing (k : Conn) :
  outbound (textproto.ReadDotLines k).2 = outbound k
  /\ wscript (textproto.ReadDotLines k).2 = wscript k.
Proof.
  unfold textproto.ReadDotLines.
  by destruct (textproto.ReadDotLines_loop (inbound k) []) as [[rest v] err].
Qed.

(** [Command] writes its line once, and nothing when the write fails. *)
Lemma Command_sends (cmd : string) (expectCode : Z) (c : Client) :
  write_ok (conn c) = true ->
  outbound (conn (Command cmd expectCode c).2)
    = outbound (conn c) ++ [fmt.Sprintf0 cmd]
  /\ wscript (conn (Command cmd expectCode c).2) = tail (wscript (conn c)).
Proof.
  intros Hw. unfold Command, mbind, method_bind, on_conn.
  rewrite PrintfLine_ok by done. cbn [conn set_conn].
  pose proof (ReadCodeLine_writes_nothing expectCode (written (fmt.Sprintf0 cmd) (conn c)))
    as [Ho Hs].
  destruct (textproto.ReadCodeLine _ _) as [r k]. by cbn in *.
Qed.

Lemma Command_write_fails (cmd : string) (expectCode : Z) (c : Client)
    (e : error) (w : list (option error)) :
  wscript (conn c) = Some e :: w ->
  Command cmd expectCode c =
    (Returns (0, "", Some e),
     set_conn (mkConn (inbound (conn c)) (outbound (conn c)) w) c).
Proof.
  intros Hw. unfold Command, mbind, method_bind, on_conn.
  by rewrite (PrintfLine_fails _ _ e w).
Qed.

Lemma asLines_sends (cmd : string) (expectCode : Z) (c : Client) :
  write_ok (conn c) = true ->
  outbound (conn (asLines cmd expectCode c).2)
    = outbound (conn c) ++ [fmt.Sprintf0 cmd]
  /\ wscript (conn (asLines cmd expectCode c).2) = tail (wscript (conn c)).
Proof.
  intros Hw. unfold asLines, mbind, method_bind.
  pose proof (Command_sends cmd expectCode c Hw) as [Ho Hs].
  destruct (Command cmd expectCode c) as [[[[code msg] [e|]]|f] c1]; [done| |done].
  unfold on_conn.
  pose proof (ReadDotLines_writes_nothing (conn c1)) as [Ho' Hs'].
  destruct (textproto.ReadDotLines (conn c1)) as [r k]. cbn in *. split; congruence.
Qed.

(** ** Over: the command line *)

Lemma contains_byte_app (s t : string) (c : ascii) :
  strings.contains_byte (s +:+ t) c
    = strings.contains_byte s c || strings.contains_byte t c.
Proof.
  induction s as [|d s IH]; [done|].
  change (String d s +:+ t) with (String d (s +:+ t)). simpl.
  by rewrite IH, orb_assoc.
Qed.

Lemma Sprintf0_verbatim (s : string) :
  strings.contains_byte s "%" = false -> fmt.Sprintf0 s = s.
Proof.
  induction s as [|c s IH]; [done|].
  cbn [fmt.Sprintf0 strings.contains_byte].
  destruct (Ascii.eqb_spec c "%") as [->|Hne]; [by rewrite Ascii.eqb_refl|].
  destruct (Ascii.eqb_spec "%" c); [congruence|]. cbn [orb].
  intros H. by rewrite IH.
Qed.

Lemma string_of_uint_no_percent (d : Decimal.uint) :
  strings.contains_byte (NilEmpty.string_of_uint d) "%" = false.
Proof. induction d; simpl; done. Qed.

Lemma FormatInt_no_percent (n : Z) :
  strings.contains_byte (fmt.FormatInt n) "%" = false.
Proof.
  unfold fmt.FormatInt, NilZero.string_of_int, NilZero.string_of_uint.
  destruct (Z.to_int n) as [d|d]; destruct d; simpl;
    try done; apply string_of_uint_no_percent.
Qed.

Lemma Over_cmd_no_percent (args : list Z) (cmd : string) :
  Over_cmd args = inl cmd -> fmt.Sprintf0 cmd = cmd.
Proof.
  intros H. apply Sprintf0_verbatim.
  destruct args as [|a [|b [|? ?]]]; simplify_eq/=;
    rewrite ?contains_byte_app, ?FormatInt_no_percent; done.
Qed.

Lemma Over_state (args : list Z) (cmd : string) (c : Client) :
  Over_cmd args = inl cmd -> (Over args c).2 = (asLines cmd 224 c).2.
Proof.
  intros H. unfold Over. rewrite H. unfold mbind, method_bind.
  destruct (asLines cmd 224 c) as [[[lines [e|]]|f] c1]; [done| |done].
  unfold eval. by destruct (Over_lines lines []).
Qed.

(** C7. [Over] writes [OVER] for no argument, [OVER n] for one and
    [OVER a-b] for two, and that line only; with three arguments or more
    it returns the error on the number of arguments and leaves the client
    as it was, nothing written. *)
Theorem Over_command_line (c : Client) :
  (write_ok (conn c) = true ->
   outbound (conn (Over [] c).2) = outbound (conn c) ++ ["OVER"]
   /\ (forall n, outbound (conn (Over [n] c).2)
                 = outbound (conn c) ++ ["OVER " +:+ fmt.FormatInt n])
   /\ (forall a b, outbound (conn (Over [a; b] c).2)
                   = outbound (conn c)
                     ++ ["OVER " +:+ fmt.FormatInt a +:+ "-" +:+ fmt.FormatInt b]))
  /\ (forall args, (3 <= length args)%nat ->
        Over args c =
          (Returns ([], Some (ErrorString
             "Invalid arguments, either 1 or 2 numbers for an item, for a range")),
           c)).
Proof.
  split.
  - intros Hw.
    assert (Hsend : forall args cmd, Over_cmd args = inl cmd ->
              outbound (conn (Over args c).2) = outbound (conn c) ++ [cmd]).
    { intros args cmd Hcmd. rewrite (Over_state args cmd c Hcmd).
      rewrite (proj1 (asLines_sends cmd 224 c Hw)).
      by rewrite (Over_cmd_no_percent args cmd Hcmd). }
    split; [|split]; intros; by apply Hsend.
  - intros args Hlen. destruct args as [|a [|b [|d args]]]; simpl in Hlen; try lia.
    reflexivity.
Qed.

Lemma Over_command_line_witness :
  let c := served ["224 overview follows"; "."] in
  outbound (conn (Over [3000; 3002] c).2) = ["OVER 3000-3002"]
  /\ Over [1; 2; 3] c =
       (Returns ([], Some (ErrorString
          "Invalid arguments, either 1 or 2 numbers for an item, for a range")),
        c).
Proof.
  intros c. destruct (Over_command_line c) as [Hsent Hmany]. split.
  - apply (Hsent eq_refl).
  - apply Hmany. simpl. lia.
Defined.

(** ** Authenticate: the two steps *)

Lemma status_line_reply (code : Z) (msg : string) :
  100 <= code <= 999 -> reply (Some (Line (status_line code msg))) = Some (code, msg).
Proof. intros H. unfold reply. by rewrite parseCodeLine_status. Qed.

Lemma parseCodeLine_expect (l : string) (expectCode : Z) :
  textproto.parseCodeLine l expectCode =
    match textproto.parseCodeLine l (-1) with
    | (code, continued, msg, None) =>
        (code, continued, msg,
         if mismatch expectCode code then Some (CodeError code msg) else None)
    | r => r
    end.
Proof.
  unfold textproto.parseCodeLine.
  destruct (_ || _); [done|].
  destruct (strconv.Atoi _) as [code err].
  destruct (_ || _); [done|].
  fold (mismatch expectCode code).
  pose proof (mismatch_off code) as Hoff. unfold mismatch in Hoff at 1. rewrite Hoff.
  by destruct (mismatch expectCode code).
Qed.

Lemma ReadCodeLine_reply (expectCode code : Z) (msg : string) (k : Conn)
    (d : delivery) (rest : list delivery) :
  inbound k = d :: rest ->
  reply (Some d) = Some (code, msg) ->
  textproto.ReadCodeLine expectCode k =
    ((code, msg, if mismatch expectCode code then Some (CodeError code msg) else None),
     mkConn rest (outbound k) (wscript k)).
Proof.
  intros Hin Hr. unfold textproto.ReadCodeLine, textproto.ReadLine. rewrite Hin.
  destruct d as [l|e]; [|done]. unfold reply in Hr.
  rewrite parseCodeLine_expect.
  destruct (textproto.parseCodeLine l (-1)) as [[[n continued] m] [e|]];
    [by destruct continued|].
  destruct continued; [done|]. injection Hr as -> ->.
  by destruct (mismatch expectCode code).
Qed.

Lemma ReadCodeLine_no_reply (expectCode : Z) (k : Conn) :
  reply (inbound k !! 0%nat) = None ->
  exists code msg e,
    textproto.ReadCodeLine expectCode k =
      ((code, msg, Some e), mkConn (tail (inbound k)) (outbound k) (wscript k)).
Proof.
  intros Hr. unfold textproto.ReadCodeLine, textproto.ReadLine.
  destruct (inbound k) as [|[l|e] rest] eqn:Hin; cbn in Hr |- *.
  - destruct k as [i o w]; simpl in *; subst. by eexists _, _, _.
  - rewrite parseCodeLine_expect.
    destruct (textproto.parseCodeLine l (-1)) as [[[n continued] m] [e|]].
    + by eexists _, _, _.
    + destruct continued; [|done].
      destruct (mismatch expectCode n); by eexists _, _, _.
  - by eexists _, _, _.
Qed.

Lemma mismatch_exact (expected code : Z) :
  100 <= expected <= 999 -> mismatch expected code = negb (code =? expected).
Proof. intros H. unfold mismatch. lia. Qed.

Lemma Command_exchange (cmd : string) (expectCode : Z) :
  Command cmd expectCode = exchange (fmt.Sprintf0 cmd) expectCode.
Proof. reflexivity. Qed.

Lemma exchange_spec (line : string) (expect : Z) (c : Client) :
  100 <= expect <= 999 ->
  let k := conn c in
  exists code msg err k',
    exchange line expect c = (Returns (code, msg, err), set_conn k' c)
    /\ (err = None <-> accepts k 0 expect = true)
    /\ (err = None -> reply (inbound k !! 0%nat) = Some (expect, msg))
    /\ outbound k' = outbound k ++ (if is_nil (write_error k 0) then [line] else [])
    /\ wscript k' = tail (wscript k)
    /\ inbound k' = (if is_nil (write_error k 0) then tail (inbound k) else inbound k)
    /\ (forall e, write_error k 0 = Some e -> err = Some e /\ msg = "")
    /\ (write_error k 0 = None -> forall n m,
          reply (inbound k !! 0%nat) = Some (n, m) -> n <> expect ->
          err = Some (CodeError n m) /\ msg = m)
    /\ (write_error k 0 = None -> forall e,
          inbound k !! 0%nat = Some (ReadFails e) -> err = Some e)
    /\ (write_error k 0 = None -> inbound k !! 0%nat = None -> err = Some EOF).
Proof.
  intros Hexp k.
  unfold exchange, mbind, method_bind, on_conn, accepts, write_error. fold k.
  destruct (wscript k) as [|[e|] w] eqn:Hw.
  all: cycle 1.
  { rewrite (PrintfLine_fails _ _ e w Hw).
    eexists _, _, _, _. split; [reflexivity|].
    cbn. rewrite app_nil_r. repeat split; intros; by simplify_eq/=. }
  all: rewrite PrintfLine_ok by (unfold write_ok; by rewrite Hw).
  all: cbn [conn set_conn lookup list_lookup default is_nil andb tail id].
  all: destruct (inbound k) as [|[l|er] rest] eqn:Hin.
  all: try (unfold textproto.ReadCodeLine, textproto.ReadLine;
            cbn [inbound written]; rewrite Hin;
            eexists _, _, _, _; split; [reflexivity|];
            cbn; rewrite ?Hw; repeat split; intros; by simplify_eq/=).
  all: cbn [lookup list_lookup].
  all: destruct (reply (Some (Line l))) as [[n m]|] eqn:Hr1.
  all: try (assert (Hr0 : reply (inbound (written line k) !! 0%nat) = None)
              by (cbn [inbound written]; by rewrite Hin);
            destruct (ReadCodeLine_no_reply expect (written line k) Hr0)
              as (code & msg & e & ->);
            eexists _, _, _, _; split; [reflexivity|];
            cbn; rewrite ?Hw, ?Hin, ?Hr1;
            repeat split; intros; by simplify_eq/=).
  all: rewrite (ReadCodeLine_reply expect n m (written line k) (Line l) rest) by done.
  all: rewrite mismatch_exact by done.
  all: eexists _, _, _, _; split; [reflexivity|].
  all: cbn [conn set_conn inbound outbound wscript written tail]; rewrite ?Hw, ?Hr1.
  all: destruct (Z.eqb_spec n expect) as [->|Hne]; cbn.
  all: repeat split; intros; by simplify_eq/=.
Qed.

Lemma Authenticate_exchanges (user pass : string) (c : Client) :
  Authenticate user pass c =
    ('(_, _, err) ← exchange ("authinfo user " +:+ user) 381;
     match err with
     | Some e => mret ("", Some e)
     | None =>
         '(_, msg, err) ← exchange ("authinfo pass " +:+ pass) 281;
         mret (msg, err)
     end) c.
Proof.
  unfold Authenticate, exchange, mbind, method_bind, on_conn.
  destruct (textproto.PrintfLine _ (conn c)) as [[e|] k1]; [done|].
  cbn [conn set_conn].
  destruct (textproto.ReadCodeLine 381 k1) as [[[code msg] [e|]] k2]; [done|].
  cbn [conn set_conn].
  destruct (textproto.PrintfLine _ k2) as [[e|] k3]; [done|].
  cbn [conn set_conn].
  by destruct (textproto.ReadCodeLine 281 k3) as [[[code' msg'] err] k4].
Qed.

(** C6. [Authenticate] writes the user line, and writes the pass line
    only after a 381 reply to it; it returns a nil error exactly when the
    replies are 381 and then 281, and otherwise the error of the step
    that failed: the error of the write or of the read, or the code and
    message of the reply. *)
Theorem Authenticate_381_then_281 (user pass : string) (c : Client) :
  let k := conn c in
  let user_line := "authinfo user " +:+ user in
  let pass_line := "authinfo pass " +:+ pass in
  exists msg err c',
    Authenticate user pass c = (Returns (msg, err), c')
    /\ (err = None <-> accepts k 0 381 = true /\ accepts k 1 281 = true)
    /\ (err = None -> reply (inbound k !! 1%nat) = Some (281, msg))
    /\ outbound (conn c') = outbound k ++
         (if is_nil (write_error k 0) then
            user_line :: (if accepts k 0 381 && is_nil (write_error k 1)
                          then [pass_line] else [])
          else [])
    /\ (forall e, write_error k 0 = Some e -> err = Some e)
    /\ (write_error k 0 = None ->
        (forall code m, reply (inbound k !! 0%nat) = Some (code, m) -> code <> 381 ->
                        err = Some (CodeError code m))
        /\ (forall e, inbound k !! 0%nat = Some (ReadFails e) -> err = Some e)
        /\ (inbound k !! 0%nat = None -> err = Some EOF))
    /\ (accepts k 0 381 = true -> forall e, write_error k 1 = Some e -> err = Some e)
    /\ (accepts k 0 381 = true -> write_error k 1 = None ->
        (forall code m, reply (inbound k !! 1%nat) = Some (code, m) -> code <> 281 ->
                        err = Some (CodeError code m))
        /\ (forall e, inbound k !! 1%nat = Some (ReadFails e) -> err = Some e)
        /\ (inbound k !! 1%nat = None -> err = Some EOF)).
Proof.
  intros k user_line pass_line.
  rewrite Authenticate_exchanges. fold user_line pass_line.
  unfold mbind, method_bind.
  destruct (exchange_spec user_line 381 c ltac:(lia))
    as (code1 & msg1 & err1 & k1 & -> & Hok1 & Hmsg1 & Hout1 & Hws1 & Hin1
        & Hw1 & Hr1 & Hf1 & He1).
  fold k in Hok1, Hmsg1, Hout1, Hws1, Hin1, Hw1, Hr1, Hf1, He1.
  destruct err1 as [e1|].
  { (* the first step fails *)
    assert (Hno : accepts k 0 381 = false).
    { destruct (accepts k 0 381); [|done]. by pose proof (proj2 Hok1 eq_refl). }
    eexists _, _, _. split; [reflexivity|]. cbn [conn set_conn].
    rewrite Hout1, Hno. cbn [andb].
    split; [split; [done | by intros [? _]]|].
    split; [done|]. split; [done|].
    split; [intros e He; by destruct (Hw1 e He)|].
    split; [|done].
    intros Hw. split; [|split].
    - intros code m Hr Hne. by destruct (Hr1 Hw code m Hr Hne).
    - by apply Hf1.
    - by apply He1. }
  (* the first step is accepted *)
  assert (Hyes : accepts k 0 381 = true) by by apply Hok1.
  assert (Hwok : write_error k 0 = None).
  { unfold accepts in Hyes. by destruct (write_error k 0). }
  rewrite Hwok in Hout1, Hin1. cbn [is_nil] in Hout1, Hin1.
  destruct (exchange_spec pass_line 281 (set_conn k1 c) ltac:(lia))
    as (code2 & msg2 & err2 & k2 & -> & Hok2 & Hmsg2 & Hout2 & Hws2 & Hin2
        & Hw2 & Hr2 & Hf2 & He2).
  cbn [conn set_conn] in Hok2, Hmsg2, Hout2, Hws2, Hin2, Hw2, Hr2, Hf2, He2.
  assert (Hwe : write_error k1 0 = write_error k 1).
  { unfold write_error. by rewrite Hws1, lookup_tail. }
  assert (Hrd : inbound k1 !! 0%nat = inbound k !! 1%nat).
  { by rewrite Hin1, lookup_tail. }
  assert (Hacc : accepts k1 0 281 = accepts k 1 281).
  { unfold accepts. by rewrite Hwe, Hrd. }
  rewrite Hwe in Hout2, Hw2, Hr2, Hf2, He2.
  rewrite Hrd in Hmsg2, Hr2, Hf2, He2. rewrite Hacc in Hok2.
  eexists _, _, _. split; [reflexivity|]. cbn [conn set_conn].
  rewrite Hout2, Hout1, Hwok, Hyes, <- app_assoc. cbn [is_nil andb app].
  split; [split; [intros; split; [done | by apply Hok2] | intros [_ ?]; by apply Hok2]|].
  split; [done|].
  split; [by destruct (is_nil (write_error k 1))|].
  split; [done|].
  split.
  { intros _. pose proof (Hmsg1 eq_refl) as Hfirst. split; [|split].
    - intros code m Hr Hne. congruence.
    - intros e He. rewrite He in Hfirst. done.
    - intros He. rewrite He in Hfirst. done. }
  split; [intros _ e He; by destruct (Hw2 e He)|].
  intros _ Hw. split; [|split].
  - intros code m Hr Hne. by destruct (Hr2 Hw code m Hr Hne).
  - by apply Hf2.
  - by apply He2.
Qed.

Example Authenticate_accepted :
  Authenticate "user" "secret" (served ["381 password required"; "281 welcome"])
  = (Returns ("welcome", None),
     set_conn (mkConn [] ["authinfo user user"; "authinfo pass secret"] [])
              (served [])).
Proof. vm_compute; reflexivity. Qed.

Example Authenticate_refused_user :
  Authenticate "user" "secret" (served ["481 no such user"; "281 welcome"])
  = (Returns ("", Some (CodeError 481 "no such user")),
     set_conn (mkConn [Line "281 welcome"] ["authinfo user user"] []) (served [])).
Proof. vm_compute; reflexivity. Qed.

(** ** Data blocks *)

Lemma ReadDotLines_loop_block (body : list string) (rest : list delivery)
    (v : list string) :
  textproto.ReadDotLines_loop ((Line ∘ dot_stuff <$> body) ++ Line "." :: rest) v
    = (rest, v ++ body, None).
Proof.
  revert v. induction body as [|l body IH]; intros v.
  - by rewrite app_nil_r.
  - cbn [fmap list_fmap app compose].
    assert (Hstep : forall tl,
      textproto.ReadDotLines_loop (Line (dot_stuff l) :: tl) v
        = textproto.ReadDotLines_loop tl (v ++ [l])).
    { intros tl. destruct l as [|a l']; [done|].
      unfold dot_stuff.
      destruct (Ascii.ascii_dec a ".") as [->|Hne]; [done|].
      destruct a as [[] [] [] [] [] [] [] []]; try done. }
    rewrite Hstep, IH. by rewrite <- app_assoc.
Qed.

(** [asLines] returns: it never faults, and changes the connection only. *)
Lemma asLines_returns (cmd : string) (expectCode : Z) (c : Client) :
  exists lines err k', asLines cmd expectCode c = (Returns (lines, err), set_conn k' c).
Proof.
  unfold asLines, Command, mbind, method_bind, on_conn.
  destruct (textproto.PrintfLine _ (conn c)) as [[e|] k1]; [by eexists _, _, _|].
  cbn [conn set_conn].
  destruct (textproto.ReadCodeLine expectCode k1) as [[[code msg] [e|]] k2];
    [by eexists _, _, _|].
  cbn [conn set_conn].
  destruct (textproto.ReadDotLines k2) as [[lines err] k3]. by eexists _, _, _.
Qed.

(** [asLines] on a block that follows the expected status line. *)
Lemma asLines_block (cmd : string) (expectCode : Z) (msg : string)
    (body : list string) (rest : list delivery) (c : Client) :
  100 <= expectCode <= 999 ->
  write_ok (conn c) = true ->
  inbound (conn c)
    = Line (status_line expectCode msg) :: (Line ∘ dot_stuff <$> body) ++ Line "." :: rest ->
  asLines cmd expectCode c =
    (Returns (body, None),
     set_conn (mkConn rest (outbound (conn c) ++ [fmt.Sprintf0 cmd])
                      (tail (wscript (conn c)))) c).
Proof.
  intros Hcode Hw Hin. unfold asLines, mbind, method_bind.
  rewrite (Command_status cmd expectCode expectCode msg c _ Hcode Hw Hin).
  rewrite mismatch_exact, Z.eqb_refl by done. cbn [negb].
  unfold on_conn, textproto.ReadDotLines. cbn [conn set_conn inbound].
  by rewrite ReadDotLines_loop_block.
Qed.

(** ** List, Over and Group on a well-formed reply *)

Lemma List_block (sub msg : string) (body : list string) (rest : list delivery)
    (c : Client) :
  write_ok (conn c) = true ->
  inbound (conn c)
    = Line (status_line 215 msg) :: (Line ∘ dot_stuff <$> body) ++ Line "." :: rest ->
  (List sub c).1 = (rv ← List_lines body []; Returns (rv, None)).
Proof.
  intros Hw Hin. unfold List, mbind at 1 2 3, method_bind.
  rewrite (Command_status _ 215 215 msg c _ ltac:(lia) Hw Hin).
  rewrite mismatch_exact, Z.eqb_refl by lia. cbn [negb].
  unfold on_conn, textproto.ReadDotLines. cbn [conn set_conn inbound].
  rewrite ReadDotLines_loop_block. cbn [app eval].
  by destruct (List_lines body []).
Qed.

Lemma Over_block (args : list Z) (cmd msg : string) (body : list string)
    (rest : list delivery) (c : Client) :
  Over_cmd args = inl cmd ->
  write_ok (conn c) = true ->
  inbound (conn c)
    = Line (status_line 224 msg) :: (Line ∘ dot_stuff <$> body) ++ Line "." :: rest ->
  (Over args c).1 = (ret ← Over_lines body []; Returns (ret, None)).
Proof.
  intros Hcmd Hw Hin. unfold Over. rewrite Hcmd. unfold mbind at 1 2, method_bind.
  rewrite (asLines_block cmd 224 msg body rest c) by (done || lia).
  cbn [eval]. by destruct (Over_lines body []).
Qed.

Lemma Group_status (name msg : string) (rest : list delivery) (c : Client) :
  write_ok (conn c) = true ->
  inbound (conn c) = Line (status_line 211 msg) :: rest ->
  (Group name c).1 = Group_parse msg.
Proof.
  intros Hw Hin. unfold Group, mbind, method_bind.
  rewrite (Command_status _ 211 211 msg c _ ltac:(lia) Hw Hin).
  by rewrite mismatch_exact, Z.eqb_refl by lia.
Qed.

(** Where the guards are enough: [List] returns when no line has exactly
    three fields, [Over] when no line has five, six or seven. *)
Lemma List_lines_returns (lines : list string) (rv : list nntp.Group) :
  Forall (fun l => length (strings.Split l " ") <> 3%nat) lines ->
  exists rv', List_lines lines rv = Returns rv'.
Proof.
  intros Hall. revert rv. induction Hall as [|l lines Hl _ IH]; intros rv.
  - by exists rv.
  - destruct (strings.Split l " ") as [|p0 [|p1 [|p2 [|p3 more]]]] eqn:Hs;
      cbn [length] in Hl; try done.
    + rewrite List_lines_skip by (rewrite Hs; cbn; lia). apply IH.
    + rewrite List_lines_skip by (rewrite Hs; cbn; lia). apply IH.
    + rewrite List_lines_skip by (rewrite Hs; cbn; lia). apply IH.
    + rewrite (List_lines_four l p0 p1 p2 p3 more) by done.
      destruct (strconv.ParseInt p1) as [high [e|]], (strconv.ParseInt p2) as [low [e'|]];
        apply IH.
Qed.

Lemma Over_lines_returns (lines : list string) (ret : list OverItem) :
  Forall (fun l => (length (strings.Split l "009") < 5
                    \/ 8 <= length (strings.Split l "009"))%nat) lines ->
  exists ret', Over_lines lines ret = Returns ret'.
Proof.
  intros Hall. revert ret. induction Hall as [|l lines Hl _ IH]; intros ret.
  - by exists ret.
  - destruct Hl as [Hl|Hl].
    + rewrite Over_lines_skip by done. apply IH.
    + destruct (strings.Split l "009")
        as [|f0 [|f1 [|f2 [|f3 [|f4 [|f5 [|f6 [|f7 more]]]]]]]] eqn:Hs;
        cbn [length] in Hl; try lia.
      rewrite (Over_lines_eight l f0 f1 f2 f3 f4 f5 f6 f7 more) by done. apply IH.
Qed.

(** With exactly four fields [Group] returns the first error of the
    three numbers, if any. *)
Lemma Group_parse_four (msg p0 p1 p2 p3 : string) :
  strings.Split msg " " = [p0; p1; p2; p3] ->
  exists g,
    Group_parse msg =
      Returns (g, match (strconv.ParseInt p0).2, (strconv.ParseInt p1).2 with
                  | Some e, _ => Some e
                  | None, Some e => Some e
                  | None, None => (strconv.ParseInt p2).2
                  end).
Proof.
  intros Hs. unfold Group_parse. rewrite Hs. cbn [index lookup list_lookup mbind go_bind].
  destruct (strconv.ParseInt p0) as [n0 [e0|]]; cbn; [by eexists|].
  destruct (strconv.ParseInt p1) as [n1 [e1|]]; cbn; [by eexists|].
  destruct (strconv.ParseInt p2) as [n2 [e2|]]; cbn; by eexists.
Qed.

(** The faults in general: a line of three fields with two numbers in
    [List], a line of five to seven fields in [Over], after lines that
    pass; more than four fields in [Group]. *)
Lemma List_lines_app (before after : list string) (rv : list nntp.Group) :
  List_lines (before ++ after) rv = (rv' ← List_lines before rv; List_lines after rv').
Proof.
  revert rv. induction before as [|l before IH]; intros rv; [done|].
  cbn [app List_lines].
  destruct (length (strings.Split l " ") <? 3)%nat; [apply IH|].
  destruct (index (strings.Split l " ") 1) as [p1|f]; [|done]. cbn [mbind go_bind].
  destruct (strconv.ParseInt p1) as [high errh].
  destruct (index (strings.Split l " ") 2) as [p2|f]; [|done]. cbn [mbind go_bind].
  destruct (strconv.ParseInt p2) as [low errl].
  destruct (is_nil errh && is_nil errl); [|apply IH].
  destruct (index (strings.Split l " ") 0) as [p0|f]; [|done]. cbn [mbind go_bind].
  destruct (index (strings.Split l " ") 3) as [p3|f]; [|done]. cbn [mbind go_bind].
  apply IH.
Qed.

Lemma List_faults_in_block (sub msg line p0 p1 p2 : string) (high low : Z)
    (before after : list string) (rest : list delivery) (c : Client) :
  write_ok (conn c) = true ->
  inbound (conn c)
    = Line (status_line 215 msg)
      :: (Line ∘ dot_stuff <$> before ++ line :: after) ++ Line "." :: rest ->
  Forall (fun l => length (strings.Split l " ") <> 3%nat) before ->
  strings.Split line " " = [p0; p1; p2] ->
  strconv.ParseInt p1 = (high, None) ->
  strconv.ParseInt p2 = (low, None) ->
  (List sub c).1 = Panics (IndexOutOfRange 3 3).
Proof.
  intros Hw Hin Hbefore Hs Hh Hl.
  rewrite (List_block sub msg _ rest c Hw Hin), List_lines_app.
  destruct (List_lines_returns before [] Hbefore) as [rv' ->]. cbn [mbind go_bind].
  by rewrite (List_lines_three line p0 p1 p2 high low).
Qed.

Lemma Over_lines_app (before after : list string) (ret : list OverItem) :
  Over_lines (before ++ after) ret = (ret' ← Over_lines before ret; Over_lines after ret').
Proof.
  revert ret. induction before as [|l before IH]; intros ret; [done|].
  cbn [app Over_lines].
  destruct (length (strings.Split l "009") <? 5)%nat; [apply IH|].
  repeat match goal with
         | |- context [index (strings.Split l "009") ?i ≫= _] =>
             destruct (index (strings.Split l "009") i); [|done]; cbn [mbind go_bind]
         end.
  apply IH.
Qed.

Lemma Over_faults_in_block (args : list Z) (cmd msg line : string)
    (before after : list string) (rest : list delivery) (c : Client) :
  Over_cmd args = inl cmd ->
  write_ok (conn c) = true ->
  inbound (conn c)
    = Line (status_line 224 msg)
      :: (Line ∘ dot_stuff <$> before ++ line :: after) ++ Line "." :: rest ->
  Forall (fun l => (length (strings.Split l "009") < 5
                    \/ 8 <= length (strings.Split l "009"))%nat) before ->
  (5 <= length (strings.Split line "009") < 8)%nat ->
  (Over args c).1 =
    Panics (IndexOutOfRange (length (strings.Split line "009"))
                            (length (strings.Split line "009"))).
Proof.
  intros Hcmd Hw Hin Hbefore Hlen.
  rewrite (Over_block args cmd msg _ rest c Hcmd Hw Hin), Over_lines_app.
  destruct (Over_lines_returns before [] Hbefore) as [ret' ->]. cbn [mbind go_bind].
  by rewrite Over_lines_short.
Qed.

Lemma Group_more_fields (name msg p0 p1 p2 p3 p4 : string) (more : list string)
    (count low high : Z) (rest : list delivery) (c : Client) :
  write_ok (conn c) = true ->
  inbound (conn c) = Line (status_line 211 msg) :: rest ->
  strings.Split msg " " = p0 :: p1 :: p2 :: p3 :: p4 :: more ->
  strconv.ParseInt p0 = (count, None) ->
  strconv.ParseInt p1 = (low, None) ->
  strconv.ParseInt p2 = (high, None) ->
  (Group name c).1 = Returns (nntp.mkGroup p3 count high low nntp.Unknown, None).
Proof.
  intros Hw Hin Hs H0 H1 H2. rewrite (Group_status name msg rest c Hw Hin).
  by apply (Group_parse_more msg p0 p1 p2 p3 (p4 :: more)).
Qed.

(** ** Capabilities: the cache *)

Lemma Capabilities_asLines (c : Client) :
  Capabilities c =
    match asLines "CAPABILITIES" 101 c with
    | (Returns (lines, None), c1) =>
        (Returns (strings.ToUpper <$> lines, None),
         set_capabilities (strings.ToUpper <$> lines) c1)
    | (Returns (_, Some e), c1) => (Returns ([], Some e), c1)
    | (Panics f, c1) => (Panics f, c1)
    end.
Proof.
  unfold Capabilities, mbind, method_bind.
  by destruct (asLines "CAPABILITIES" 101 c) as [[[lines [e|]]|f] c1].
Qed.

(** One call of [Capabilities]: the result and the cache on success, the
    cache on failure, and the lines on a well-formed reply. *)
Lemma Capabilities_step (c : Client) :
  exists lines err c1,
    asLines "CAPABILITIES" 101 c = (Returns (lines, err), c1)
    /\ capabilities c1 = capabilities c
    /\ (err = None ->
        Capabilities c = (Returns (strings.ToUpper <$> lines, None),
                          set_capabilities (strings.ToUpper <$> lines) c1)
        /\ capabilities (Capabilities c).2 = strings.ToUpper <$> lines)
    /\ (forall e, err = Some e ->
        Capabilities c = (Returns ([], Some e), c1)
        /\ capabilities (Capabilities c).2 = capabilities c)
    /\ (forall msg body rest,
        write_ok (conn c) = true ->
        inbound (conn c)
          = Line (status_line 101 msg) :: (Line ∘ dot_stuff <$> body) ++ Line "." :: rest ->
        lines = body /\ err = None).
Proof.
  destruct (asLines_returns "CAPABILITIES" 101 c) as (lines & err & k' & Has).
  exists lines, err, (set_conn k' c). split; [done|]. split; [done|].
  rewrite Capabilities_asLines, Has.
  split; [|split].
  - by intros ->.
  - by intros e ->.
  - intros msg body rest Hw Hin.
    rewrite (asLines_block "CAPABILITIES" 101 msg body rest c) in Has by (done || lia).
    by simplify_eq.
Qed.

(** ** Calls that touch the connection only *)

Lemma keeps_ret {A} (a : A) : keeps_session (mret a).
Proof. intros c. exists (conn c). by destruct c. Qed.

Lemma keeps_eval {A} (g : go A) : keeps_session (eval g).
Proof. intros c. exists (conn c). by destruct c. Qed.

Lemma keeps_get {A} (f : Client -> A) : keeps_session (get f).
Proof. intros c. exists (conn c). by destruct c. Qed.

Lemma keeps_on_conn {A} (f : Conn -> A * Conn) : keeps_session (on_conn f).
Proof. intros c. unfold on_conn. destruct (f (conn c)) as [a k]. by exists k. Qed.

Lemma keeps_bind {A B} (m : method A) (f : A -> method B) :
  keeps_session m -> (forall a, keeps_session (f a)) -> keeps_session (m ≫= f).
Proof.
  intros Hm Hf c. unfold mbind, method_bind.
  destruct (Hm c) as [k1 H1]. destruct (m c) as [[a|p] c1]; cbn in H1; subst c1.
  - destruct (Hf a (set_conn k1 c)) as [k2 H2]. exists k2. by rewrite H2.
  - by exists k1.
Qed.

Ltac keeps :=
  repeat first
    [ apply keeps_ret | apply keeps_eval | apply keeps_get | apply keeps_on_conn
    | apply keeps_bind; [|intros]
    | match goal with
      | |- keeps_session (match ?x with _ => _ end) => destruct x
      end ].

Lemma Command_keeps cmd expectCode : keeps_session (Command cmd expectCode).
Proof. unfold Command. keeps. Qed.

Lemma Authenticate_keeps user pass : keeps_session (Authenticate user pass).
Proof. unfold Authenticate. keeps. Qed.

Lemma List_keeps sub : keeps_session (List sub).
Proof. unfold List. pose proof Command_keeps. keeps. Qed.

Lemma Group_keeps name : keeps_session (Group name).
Proof. unfold Group. pose proof Command_keeps. keeps. Qed.

Lemma retrieve_keeps verb expected specifier :
  keeps_session (retrieve verb expected specifier).
Proof. unfold retrieve, articleish. keeps. Qed.

Lemma asLines_keeps cmd expectCode : keeps_session (asLines cmd expectCode).
Proof. unfold asLines. pose proof Command_keeps. keeps. Qed.

Lemma ListOverviewFmt_keeps : keeps_session ListOverviewFmt.
Proof. unfold ListOverviewFmt. pose proof asLines_keeps. keeps. Qed.

Lemma Over_keeps args : keeps_session (Over args).
Proof. unfold Over. pose proof asLines_keeps. keeps. Qed.

(** ** StartTLS *)

(** A client made by [NewConn] has a nil [netconn], no TLS and no cache:
    it is this nil handle that [StartTLS] hands to [tls.Client]. *)
Lemma NewConn_fresh (text_conn : NetConn -> Conn) (establishedConn : NetConn)
    (c : Client) :
  NewConn text_conn establishedConn = (Some c, None) ->
  netconn c = NilConn /\ tls c = false /\ capabilities c = [].
Proof.
  unfold NewConn.
  destruct (textproto.ReadCodeLine 200 (text_conn establishedConn))
    as [[[code msg] [e|]] k]; [done|].
  by intros [= <-].
Qed.

Lemma asLines_outbound (cmd : string) (expectCode : Z) (c : Client) :
  100 <= expectCode <= 999 ->
  outbound (conn (asLines cmd expectCode c).2)
    = outbound (conn c)
      ++ (if is_nil (write_error (conn c) 0) then [fmt.Sprintf0 cmd] else []).
Proof.
  intros Hcode. unfold asLines, mbind, method_bind. rewrite Command_exchange.
  destruct (exchange_spec (fmt.Sprintf0 cmd) expectCode c Hcode)
    as (code & msg & err & k1 & -> & _ & _ & Hout & _).
  destruct err as [e|]; [done|].
  unfold on_conn. cbn [conn set_conn].
  pose proof (ReadDotLines_writes_nothing k1) as [Ho _].
  destruct (textproto.ReadDotLines k1) as [r k2]. cbn in *. congruence.
Qed.

(** [Capabilities] returns, writes its one command, and leaves the
    transport handle, the TLS flag and the banner alone. *)
Lemma Capabilities_session (c : Client) :
  exists caps err c',
    Capabilities c = (Returns (caps, err), c')
    /\ netconn c' = netconn c /\ tls c' = tls c /\ Banner c' = Banner c
    /\ outbound (conn c')
       = outbound (conn c)
         ++ (if is_nil (write_error (conn c) 0) then ["CAPABILITIES"] else []).
Proof.
  pose proof (asLines_outbound "CAPABILITIES" 101 c ltac:(lia)) as Hout.
  rewrite Capabilities_asLines.
  destruct (asLines_returns "CAPABILITIES" 101 c) as (lines & err & k' & Has).
  rewrite Has in Hout |- *. cbn [snd conn set_conn] in Hout.
  destruct err as [e|]; eexists _, _, _; (split; [reflexivity|]); by cbn.
Qed.

(** ** Capability lookup *)

Lemma upper_idempotent (c : ascii) : strings.upper (strings.upper c) = strings.upper c.
Proof. destruct c as [[] [] [] [] [] [] [] []]; reflexivity. Qed.

Lemma upper_asciiSpace (c : ascii) :
  strings.asciiSpace (strings.upper c) = strings.asciiSpace c.
Proof. destruct c as [[] [] [] [] [] [] [] []]; reflexivity. Qed.

Lemma ToUpper_idempotent (s : string) :
  strings.ToUpper (strings.ToUpper s) = strings.ToUpper s.
Proof. induction s as [|c s IH]; simpl; [done|]. by rewrite upper_idempotent, IH. Qed.

Lemma ToUpper_length (s : string) :
  String.length (strings.ToUpper s) = String.length s.
Proof. induction s as [|c s IH]; simpl; [done|]. by rewrite IH. Qed.

Lemma ToUpper_no_space (s : string) : no_space (strings.ToUpper s) = no_space s.
Proof. induction s as [|c s IH]; simpl; [done|]. by rewrite upper_asciiSpace, IH. Qed.

Lemma ToUpper_is_token (s : string) : is_token (strings.ToUpper s) = is_token s.
Proof. unfold is_token. rewrite ToUpper_no_space. by destruct s. Qed.

Lemma ToUpper_substring (n m : nat) (s : string) :
  strings.ToUpper (String.substring n m s) = String.substring n m (strings.ToUpper s).
Proof.
  revert n m. induction s as [|c s IH]; intros [|n] [|m]; simpl; by rewrite ?IH.
Qed.

Lemma Capabilities_upper_case (c : Client) :
  Forall upper_case (capabilities c) ->
  Forall upper_case (capabilities (Capabilities c).2).
Proof.
  intros Hc. rewrite Capabilities_asLines.
  destruct (asLines_returns "CAPABILITIES" 101 c) as (lines & err & k' & ->).
  destruct err as [e|]; [done|]. cbn.
  apply Forall_fmap, Forall_true. intros l. apply ToUpper_idempotent.
Qed.

Lemma IndexAny_range (s chars : string) : -1 <= strings.IndexAny s chars.
Proof.
  induction s as [|c s IH]; simpl; [lia|].
  destruct (strings.contains_byte chars c); [lia|].
  destruct (Z.eqb_spec (strings.IndexAny s chars) (-1)); lia.
Qed.

Lemma IndexAny_found (s chars : string) :
  strings.IndexAny s chars <> -1 ->
  exists sep rest,
    s = prefix_to s (strings.IndexAny s chars) +:+ String sep rest
    /\ strings.contains_byte chars sep = true.
Proof.
  induction s as [|c s IH]; simpl; [done|].
  destruct (strings.contains_byte chars c) eqn:Hc.
  - intros _. by exists c, s.
  - destruct (Z.eqb_spec (strings.IndexAny s chars) (-1)) as [|Hne]; [done|].
    intros _. destruct (IH Hne) as (sep & rest & Hs & Hsep).
    exists sep, rest. split; [|done].
    pose proof (IndexAny_range s chars).
    unfold prefix_to in *.
    replace (Z.to_nat (strings.IndexAny s chars + 1))
      with (S (Z.to_nat (strings.IndexAny s chars))) by lia.
    cbn [String.substring].
    change (String c ?a +:+ ?b) with (String c (a +:+ b)). by rewrite <- Hs.
Qed.

Lemma suffix_from_app (s t : string) : suffix_from (s +:+ t) (String.length s) = t.
Proof.
  unfold suffix_from. induction s as [|c s IH].
  - change ("" +:+ t) with t. cbn [String.length]. rewrite Nat.sub_0_r.
    apply substring_all.
  - change (String c s +:+ t) with (String c (s +:+ t)). by cbn.
Qed.

Lemma append_assoc (a b c : string) : (a +:+ b) +:+ c = a +:+ (b +:+ c).
Proof.
  induction a as [|x a IH]; [done|].
  change (String x a +:+ b) with (String x (a +:+ b)).
  change (String x ?u +:+ ?v) with (String x (u +:+ v)). by rewrite IH.
Qed.

Lemma append_empty_r (a : string) : a +:+ "" = a.
Proof.
  induction a as [|x a IH]; [done|].
  change (String x a +:+ "") with (String x (a +:+ "")). by rewrite IH.
Qed.

Lemma Fields_from_token (field token rest : string) :
  no_space token = true ->
  strings.Fields_from field (token +:+ rest)
    = strings.Fields_from (field +:+ token) rest.
Proof.
  revert field. induction token as [|c token IH]; intros field Hns.
  - change ("" +:+ rest) with rest. by rewrite append_empty_r.
  - change (String c token +:+ rest) with (String c (token +:+ rest)).
    cbn in Hns. apply andb_prop in Hns as [Hc Hns].
    cbn [strings.Fields_from].
    destruct (strings.asciiSpace c); [done|].
    rewrite IH by done. by rewrite append_assoc.
Qed.

(** The fields of a line that starts with a token and a separator. *)
Lemma Fields_label (token rest : string) (sep : ascii) :
  is_token token = true ->
  strings.asciiSpace sep = true ->
  strings.Fields (token +:+ String sep rest) = token :: strings.Fields rest.
Proof.
  unfold is_token. intros [Hne Hns]%andb_prop Hsep.
  unfold strings.Fields. rewrite Fields_from_token by done.
  change ("" +:+ token) with token.
  cbn [strings.Fields_from]. rewrite Hsep. by destruct token.
Qed.

Lemma Fields_token (token : string) :
  is_token token = true -> strings.Fields token = [token].
Proof.
  unfold is_token. intros [Hne Hns]%andb_prop.
  unfold strings.Fields.
  rewrite <- (append_empty_r token) at 1. rewrite Fields_from_token by done.
  change ("" +:+ token) with token. by destruct token.
Qed.

Lemma existsb_eqb (x : string) (xs : list string) :
  existsb (fun y => String.eqb y x) xs = bool_decide (x ∈ xs).
Proof.
  induction xs as [|y xs IH]; simpl; [done|].
  rewrite IH. destruct (String.eqb_spec y x) as [Heq|Hne]; simpl.
  - subst y. symmetry. apply bool_decide_eq_true_2. apply list_elem_of_here.
  - apply bool_decide_ext. rewrite elem_of_cons.
    split; [by right | intros [?|?]; [congruence|done]].
Qed.

(** The test of [GetCapability] on an upper-case line is [label_matches]. *)
Lemma GetCapability_scan_find (label : string) (caps : list string) :
  Forall upper_case caps ->
  GetCapability_scan (strings.ToUpper label) caps
    = default "" (List.find (label_matches label) caps).
Proof.
  induction 1 as [|capa caps Hup _ IH]; [done|].
  cbn [GetCapability_scan List.find].
  assert (Htest :
    negb (strings.IndexAny capa (String "009" " ") =? -1)
      && String.eqb (prefix_to capa (strings.IndexAny capa (String "009" " ")))
                    (strings.ToUpper label)
    || String.eqb capa (strings.ToUpper label)
    = label_matches label capa).
  { unfold label_matches, label_of. rewrite Hup.
    destruct (Z.eqb_spec (strings.IndexAny capa (String "009" " ")) (-1)); cbn [negb andb orb].
    - by rewrite orb_false_r.
    - unfold prefix_to. rewrite ToUpper_substring, Hup. apply orb_comm. }
  rewrite <- Htest.
  destruct (negb _ && _); [done|]. cbn [orb].
  by destruct (String.eqb capa (strings.ToUpper label)).
Qed.

(** A line that matches a token is the token, or the token, a space or a
    TAB, and the rest. *)
Lemma label_matches_shape (label line : string) :
  upper_case line ->
  label_matches label line = true ->
  line = strings.ToUpper label
  \/ exists sep rest,
       line = strings.ToUpper label +:+ String sep rest
       /\ strings.asciiSpace sep = true.
Proof.
  intros Hup. unfold label_matches, label_of. rewrite Hup.
  destruct (String.eqb_spec line (strings.ToUpper label)) as [->|Hne]; [by left|].
  cbn [orb].
  destruct (Z.eqb_spec (strings.IndexAny line (String "009" " ")) (-1)) as [|Hi]; [done|].
  unfold prefix_to. rewrite ToUpper_substring, Hup.
  intros Heq%String.eqb_eq. right.
  destruct (IndexAny_found line (String "009" " ") Hi) as (sep & rest & Hline & Hsep).
  exists sep, rest. unfold prefix_to in Hline. rewrite Heq in Hline. split; [done|].
  cbn in Hsep. apply orb_prop in Hsep as [H|H].
  - apply Ascii.eqb_eq in H. by subst sep.
  - rewrite orb_false_r in H. apply Ascii.eqb_eq in H. by subst sep.
Qed.

Lemma token_not_empty (token rest : string) :
  is_token token = true -> String.eqb (token +:+ rest) "" = false.
Proof. unfold is_token. by destruct token. Qed.

Lemma suffix_from_all (s : string) : suffix_from s (String.length s) = "".
Proof. unfold suffix_from. induction s as [|c s IH]; [done|]. by cbn. Qed.

Lemma Fields_separator (sep : ascii) (rest : string) :
  strings.asciiSpace sep = true ->
  strings.Fields (String sep rest) = strings.Fields rest.
Proof. intros Hsep. unfold strings.Fields. cbn [strings.Fields_from]. by rewrite Hsep. Qed.

Lemma HasCapabilityArgument_on_token (label argument : string) (c : Client) :
  is_token label = true ->
  Forall upper_case (capabilities c) ->
  HasCapabilityArgument label argument c = HasCapabilityArgument_spec label argument c.
Proof.
  intros Htok Hup.
  unfold HasCapabilityArgument, HasCapabilityArgument_spec, GetCapability.
  destruct (capabilities c) as [|l0 caps0] eqn:Hcaps; [done|].
  rewrite GetCapability_scan_find by done.
  set (caps := l0 :: caps0) in *.
  destruct (List.find (label_matches label) caps) as [line|] eqn:Hfind; [|done].
  apply find_some in Hfind as [Hin Hm].
  assert (Hline : upper_case line).
  { rewrite Forall_forall in Hup. by apply Hup, list_elem_of_In. }
  pose proof Htok as HtokU. rewrite <- ToUpper_is_token in HtokU.
  cbn [default]. unfold id, tokens_after. rewrite <- (ToUpper_length label).
  destruct (label_matches_shape label line Hline Hm) as [->|(sep & rest & -> & Hsep)].
  - pose proof (token_not_empty _ "" HtokU) as Hne.
    rewrite append_empty_r in Hne. rewrite Hne.
    rewrite Fields_token, suffix_from_all by done. by cbn.
  - rewrite token_not_empty by done.
    rewrite Fields_label, suffix_from_app, Fields_separator by done.
    cbn [slice_from_1 mbind go_bind].
    by rewrite existsb_eqb.
Qed.

(** C8, as the code has it. For a label that is a token, on a cache of
    upper-case lines, the label, the argument and the lines being ASCII:
    an empty cache is the error on capabilities not populated; no
    matching line is the error on no such capability; otherwise the
    result is whether the argument, letter case apart, is among the
    tokens after the label of the first matching line. So on
    LIST ACTIVE NEWGROUPS and OVER the label list finds the first line
    and LIST has the argument active. The three hypotheses on ASCII keep
    the statement on the path of [strings.ToUpper] and [strings.Fields]
    that is embedded: with a byte above 0x7f Go splits on the white space
    of Unicode and maps the letters of Unicode, and the tokens of a line
    are no longer those of [strings.Fields] here. *)
Theorem HasCapabilityArgument_token (label argument : string) (c : Client) :
  is_token label = true ->
  Forall upper_case (capabilities c) ->
  ascii_only label = true ->
  ascii_only argument = true ->
  Forall (fun line => ascii_only line = true) (capabilities c) ->
  HasCapabilityArgument label argument c = HasCapabilityArgument_spec label argument c
  /\ (forall k nc t b,
        let cached := mkClient k nc t b ["LIST ACTIVE NEWGROUPS"; "OVER"] in
        GetCapability "list" cached = "LIST ACTIVE NEWGROUPS"
        /\ HasCapabilityArgument "LIST" "active" cached = Returns (true, None)).
Proof.
  intros Htok Hup _ _ _. split; [by apply HasCapabilityArgument_on_token|].
  intros k nc t b cached. split; reflexivity.
Qed.

Lemma HasCapabilityArgument_token_witness :
  HasCapabilityArgument "over" "range"
    (mkClient (mkConn [] [] []) NilConn false "" ["LIST ACTIVE NEWGROUPS"; "OVER"])
  = Returns (false, None).
Proof.
  rewrite (proj1 (HasCapabilityArgument_token "over" "range"
    (mkClient (mkConn [] [] []) NilConn false "" ["LIST ACTIVE NEWGROUPS"; "OVER"])
    eq_refl ltac:(repeat constructor) eq_refl eq_refl ltac:(repeat constructor))).
  reflexivity.
Defined.

(** What the specification says and the code does not: an empty cached
    line matches the empty label, and the code takes the empty line it
    found for no line found. *)
Lemma HasCapabilityArgument_empty_label :
  HasCapabilityArgument_spec "" "ACTIVE"
    (mkClient (mkConn [] [] []) NilConn false "" [""])
  = Returns (false, None)
  /\ HasCapabilityArgument "" "ACTIVE"
       (mkClient (mkConn [] [] []) NilConn false "" [""])
     = Returns (false, Some (ErrorString "No such capability"))
  /\ HasCapabilityArgument "" "ACTIVE"
       (mkClient (mkConn [] [] []) NilConn false "" [""])
     <> HasCapabilityArgument_spec "" "ACTIVE"
          (mkClient (mkConn [] [] []) NilConn false "" [""]).
Proof.
  split; [vm_compute; reflexivity|]. split; [vm_compute; reflexivity|].
  vm_compute. discriminate.
Qed.

(** A cached line of white space only matches the empty label as well,
    and there the code faults at [strings.Fields(capLine)[1:]]. *)
Example HasCapabilityArgument_blank_line :
  HasCapabilityArgument "" "ACTIVE"
    (mkClient (mkConn [] [] []) NilConn false "" [" "])
  = Panics (SliceBoundsOutOfRange 1 0).
Proof. vm_compute; reflexivity. Qed.

(** ** The cache along a session *)

Lemma keeps_session_cache {A} (m : method A) (c : Client) :
  keeps_session m -> capabilities (m c).2 = capabilities c.
Proof. intros Hm. destruct (Hm c) as [k' ->]. done. Qed.

Lemma Capabilities_cache (c : Client) :
  capabilities (Capabilities c).2 = default (capabilities c) (fetch c).
Proof.
  unfold fetch. rewrite Capabilities_asLines.
  destruct (asLines_returns "CAPABILITIES" 101 c) as (lines & err & k' & ->).
  by destruct err.
Qed.

Lemma StartTLS_cache (text_conn : NetConn -> Conn) (config : Config) (c : Client) :
  capabilities (StartTLS text_conn config c).2
    = default (capabilities c) (fetched text_conn (CallStartTLS config) c).
Proof.
  unfold StartTLS, fetched. destruct (tls c); [done|].
  unfold mbind, method_bind.
  pose proof (keeps_session_cache _ c (Command_keeps "STARTTLS" 382)) as Hc1.
  destruct (Command "STARTTLS" 382 c) as [[[[code msg] [e|]]|f] c1]; try done.
  unfold modify. cbn [snd] in Hc1.
  set (secured := TLSClient (netconn c1) config).
  set (up := mkClient _ secured true (Banner c1) (capabilities c1)).
  change (netconn up) with secured.
  destruct (Handshake secured) as [[e|]|f]; [done| |done].
  pose proof (Capabilities_cache up) as Hup.
  destruct (Capabilities_session up) as (caps & err & c' & Hcap & _).
  rewrite Hcap in Hup |- *. cbn [snd] in Hup.
  change (capabilities up) with (capabilities c1) in Hup. rewrite Hc1 in Hup.
  by destruct err.
Qed.

Lemma perform_cache (text_conn : NetConn -> Conn) (op : call) (c : Client) :
  capabilities (perform text_conn op c)
    = default (capabilities c) (fetched text_conn op c).
Proof.
  destruct op; cbn [perform fetched default];
    try (apply keeps_session_cache;
         first [ apply Command_keeps | apply Authenticate_keeps | apply List_keeps
               | apply Group_keeps | apply retrieve_keeps
               | apply ListOverviewFmt_keeps | apply Over_keeps ]).
  - apply Capabilities_cache.
  - apply StartTLS_cache.
Qed.

(** The cache is the most recent successful fetch, and what it was at
    the start when there was none. *)
Lemma cache_is_last_fetch (text_conn : NetConn -> Conn) (ops : list call) (c : Client) :
  capabilities (run text_conn ops c)
    = default (capabilities c) (last_fetch text_conn ops c).
Proof.
  revert c. induction ops as [|op ops IH]; intros c; [done|].
  cbn [run last_fetch]. rewrite IH.
  destruct (last_fetch text_conn ops (perform text_conn op c)); [done|].
  apply perform_cache.
Qed.

(** C9. A successful [Capabilities] returns the lines of the block that
    follows the 101 reply to [CAPABILITIES], in upper case, and leaves
    exactly that list in the cache; a failed one, whether the command or
    the block fails, leaves the cache as it was. So after any sequence
    of calls the cache is the result of the most recent successful
    fetch, and what it was at the start (nil, for a new client) when no
    fetch succeeded. *)
Theorem Capabilities_replaces_cache (text_conn : NetConn -> Conn)
    (ops : list call) (c : Client) :
  (exists lines err c1,
      asLines "CAPABILITIES" 101 c = (Returns (lines, err), c1)
      /\ capabilities c1 = capabilities c
      /\ (err = None ->
          Capabilities c = (Returns (strings.ToUpper <$> lines, None),
                            set_capabilities (strings.ToUpper <$> lines) c1)
          /\ capabilities (Capabilities c).2 = strings.ToUpper <$> lines)
      /\ (forall e, err = Some e ->
          Capabilities c = (Returns ([], Some e), c1)
          /\ capabilities (Capabilities c).2 = capabilities c)
      /\ (forall msg body rest,
          write_ok (conn c) = true ->
          inbound (conn c)
            = Line (status_line 101 msg) :: (Line ∘ dot_stuff <$> body) ++ Line "." :: rest ->
          lines = body /\ err = None))
  /\ capabilities (run text_conn ops c)
     = default (capabilities c) (last_fetch text_conn ops c).
Proof.
  split.
  - apply Capabilities_step.
  - apply cache_is_last_fetch.
Qed.

(** A session that fetches, fails to fetch, and selects a group: the
    cache is the first fetch throughout. *)
Example cache_after_failed_fetch :
  let c := served ["101 capabilities follow"; "version 2"; "over"; ".";
                   "502 permission denied"; "211 5 10 20 alt.test"] in
  let ops := [CallCapabilities; CallCapabilities; CallGroup "alt.test"] in
  capabilities (run (fun _ => mkConn [] [] []) ops c) = ["VERSION 2"; "OVER"]
  /\ last_fetch (fun _ => mkConn [] [] []) ops c = Some ["VERSION 2"; "OVER"].
Proof. split; vm_compute; reflexivity. Qed.

(** * Further properties *)

(** ** Numbers: what [FormatInt] writes, [ParseInt] reads *)

Lemma uint_value_ge (d : Decimal.uint) (acc : Z) : 0 <= acc -> acc <= uint_value acc d.
Proof.
  revert acc. induction d; intros acc Hacc; cbn [uint_value]; [lia|..];
    (etransitivity; [|apply IHd]; lia).
Qed.

Lemma ParseUint_loop_value (d : Decimal.uint) (acc : Z) :
  0 <= acc -> uint_value acc d <= strconv.maxUint64 ->
  strconv.ParseUint_loop acc (NilEmpty.string_of_uint d) = strconv.UValue (uint_value acc d).
Proof.
  revert acc. induction d; intros acc Hacc Hmax;
    cbn [uint_value NilEmpty.string_of_uint strconv.ParseUint_loop] in *; [done|..].
  all: match goal with
       | |- context [strconv.digit ?c] =>
           let v := eval vm_compute in (strconv.digit c) in
           change (strconv.digit c) with v
       end.
  all: cbv beta iota.
  all: match goal with
       | H : uint_value ?a _ <= _ |- _ =>
           pose proof (uint_value_ge d a ltac:(lia)) as Hge
       end.
  all: assert (Hcut : (strconv.maxUint64 / 10 + 1 <=? acc) = false)
         by (apply Z.leb_gt; change (strconv.maxUint64 / 10 + 1) with 1844674407370955162;
             change strconv.maxUint64 with 18446744073709551615 in *; lia).
  all: rewrite Hcut.
  all: match goal with
       | |- context [strconv.maxUint64 <? ?n] =>
           assert (Hov : (strconv.maxUint64 <? n) = false) by (apply Z.ltb_ge; lia);
           rewrite Hov
       end.
  all: apply IHd; lia.
Qed.

Lemma uint_value_of_uint_acc (d : Decimal.uint) (acc : positive) :
  uint_value (Z.pos acc) d = Z.pos (Pos.of_uint_acc d acc).
Proof.
  revert acc. induction d; intros acc; cbn [uint_value Pos.of_uint_acc]; [done|..];
    rewrite <- IHd; f_equal; lia.
Qed.

Lemma uint_value_of_uint (d : Decimal.uint) : uint_value 0 d = Z.of_N (Pos.of_uint d).
Proof.
  induction d; cbn [uint_value Pos.of_uint Z.of_N]; [done | exact IHd |..];
    rewrite <- uint_value_of_uint_acc; reflexivity.
Qed.

Lemma string_of_uint_unsigned (d : Decimal.uint) :
  d <> Decimal.Nil ->
  exists c s, NilEmpty.string_of_uint d = String c s
              /\ Ascii.eqb c "-" = false /\ Ascii.eqb c "+" = false.
Proof. destruct d; [done|..]; intros _; by eexists _, _. Qed.

(** [ParseInt] reads back every [int64] that [FormatInt] wrote. *)
Lemma ParseInt_FormatInt (n : Z) :
  strconv.minInt64 <= n <= strconv.maxInt64 ->
  strconv.ParseInt (fmt.FormatInt n) = (n, None).
Proof.
  unfold strconv.minInt64, strconv.maxInt64. intros Hn.
  assert (Hpos : forall p, Z.pos p <= 2 ^ 63 ->
            strconv.ParseUint (NilEmpty.string_of_uint (Pos.to_uint p))
              = strconv.UValue (Z.pos p)).
  { intros p Hp.
    pose proof (Unsigned.to_uint_nonnil p) as Hnil.
    assert (Hval : uint_value 0 (Pos.to_uint p) = Z.pos p)
      by (by rewrite uint_value_of_uint, Unsigned.of_to).
    destruct (string_of_uint_unsigned _ Hnil) as (c & s & Hs & _).
    unfold strconv.ParseUint. rewrite Hs, <- Hs.
    rewrite ParseUint_loop_value; [by rewrite Hval | done |].
    rewrite Hval. change strconv.maxUint64 with 18446744073709551615.
    change (2 ^ 63) with 9223372036854775808 in Hp. lia. }
  unfold fmt.FormatInt, NilZero.string_of_int, NilZero.string_of_uint.
  destruct n as [|p|p]; [done|..]; cbn [Z.to_int].
  - pose proof (Unsigned.to_uint_nonnil p) as Hnil.
    destruct (string_of_uint_unsigned _ Hnil) as (c & s & Hs & Hminus & Hplus).
    destruct (Pos.to_uint p) eqn:Hd; [done|..].
    all: rewrite <- Hd in *; unfold strconv.ParseInt; rewrite Hs, Hminus, Hplus.
    all: cbn [orb negb andb]; rewrite <- Hs, Hpos by lia.
    all: destruct (Z.leb_spec (2 ^ 63) (Z.pos p)); [lia | done].
  - pose proof (Unsigned.to_uint_nonnil p) as Hnil.
    destruct (Pos.to_uint p) eqn:Hd; [done|..].
    all: rewrite <- Hd in *; unfold strconv.ParseInt.
    all: change (Ascii.eqb "-" "-") with true; change (Ascii.eqb "-" "+") with false.
    all: cbn [orb negb andb]; rewrite Hpos by lia.
    all: destruct (Z.ltb_spec (2 ^ 63) (Z.pos p)); [lia | done].
Qed.

(** ** Lines and fields *)

Lemma Split_without (s : string) (sep : ascii) :
  strings.contains_byte s sep = false -> strings.Split s sep = [s].
Proof.
  induction s as [|c s IH]; cbn [strings.Split strings.contains_byte]; [done|].
  destruct (Ascii.eqb_spec c sep) as [->|Hne]; [by rewrite Ascii.eqb_refl|].
  destruct (Ascii.eqb_spec sep c); [congruence|]. cbn [orb].
  intros H. by rewrite IH.
Qed.

Lemma Split_at_first (first rest : string) (sep : ascii) :
  strings.contains_byte first sep = false ->
  strings.Split (first +:+ String sep rest) sep = first :: strings.Split rest sep.
Proof.
  induction first as [|c s IH].
  - intros _. change ("" +:+ String sep rest) with (String sep rest).
    cbn [strings.Split]. by rewrite Ascii.eqb_refl.
  - change (String c s +:+ String sep rest) with (String c (s +:+ String sep rest)).
    cbn [strings.Split strings.contains_byte].
    destruct (Ascii.eqb_spec c sep) as [->|Hne]; [by rewrite Ascii.eqb_refl|].
    destruct (Ascii.eqb_spec sep c); [congruence|]. cbn [orb].
    intros H. by rewrite IH.
Qed.

(** Splitting a line joined from fields that do not hold the separator
    gives the fields back. *)
Lemma Split_join (sep : ascii) (fields : list string) :
  fields <> [] ->
  Forall (fun f => strings.contains_byte f sep = false) fields ->
  strings.Split (join sep fields) sep = fields.
Proof.
  intros Hne Hall. induction Hall as [|f fs Hf Hfs IH]; [done|].
  destruct fs as [|g fs].
  - by apply Split_without.
  - change (join sep (f :: g :: fs)) with (f +:+ String sep (join sep (g :: fs))).
    rewrite Split_at_first by done. f_equal. by apply IH.
Qed.

Lemma uint_bytes (d : Decimal.uint) (c : ascii) :
  strconv.digit c = None ->
  strings.contains_byte (NilEmpty.string_of_uint d) c = false.
Proof.
  intros Hc. induction d; cbn [NilEmpty.string_of_uint strings.contains_byte]; [done|..];
    rewrite IHd, orb_false_r; apply Ascii.eqb_neq; intros ->; done.
Qed.

(** [FormatInt] writes digits and the minus sign only. *)
Lemma FormatInt_bytes (n : Z) (c : ascii) :
  strconv.digit c = None -> c <> "-"%char ->
  strings.contains_byte (fmt.FormatInt n) c = false.
Proof.
  intros Hc Hminus.
  unfold fmt.FormatInt, NilZero.string_of_int, NilZero.string_of_uint.
  destruct (Z.to_int n) as [d|d].
  - destruct d; try apply uint_bytes; try done.
    cbn. rewrite orb_false_r. apply Ascii.eqb_neq. intros ->. done.
  - cbn [strings.contains_byte].
    rewrite (proj2 (Ascii.eqb_neq c "-") Hminus). cbn [orb].
    destruct d; try apply uint_bytes; try done.
    cbn. rewrite orb_false_r. apply Ascii.eqb_neq. intros ->. done.
Qed.

(** ** List: the groups of a block *)

Lemma List_lines_groups (lines : list string) (rv : list nntp.Group) :
  List_lines lines rv =
    if existsb list_fault lines then Panics (IndexOutOfRange 3 3)
    else Returns (rv ++ omap list_group lines).
Proof.
  revert rv. induction lines as [|l lines IH]; intros rv.
  - cbn. by rewrite app_nil_r.
  - cbn [existsb omap list_omap]. unfold list_fault at 1, list_group at 1.
    destruct (strings.Split l " ") as [|p0 [|p1 [|p2 [|p3 more]]]] eqn:Hs.
    + rewrite List_lines_skip by (rewrite Hs; cbn; lia). cbn [orb]. apply IH.
    + rewrite List_lines_skip by (rewrite Hs; cbn; lia). cbn [orb]. apply IH.
    + rewrite List_lines_skip by (rewrite Hs; cbn; lia). cbn [orb]. apply IH.
    + destruct (strconv.ParseInt p1) as [high errh] eqn:Hh,
               (strconv.ParseInt p2) as [low errl] eqn:Hl.
      cbn [snd]. destruct errh as [eh|], errl as [el|]; cbn [is_nil andb orb].
      4: by rewrite (List_lines_three l p0 p1 p2 high low).
      all: cbn [List_lines]; rewrite Hs; cbn; rewrite Hh, Hl; cbn; apply IH.
    + rewrite (List_lines_four l p0 p1 p2 p3 more) by done. cbn [orb].
      destruct (strconv.ParseInt p1) as [high [eh|]], (strconv.ParseInt p2) as [low [el|]];
        rewrite IH; try done.
      destruct (existsb list_fault lines); [done|]. by rewrite <- app_assoc.
Qed.

(** X1. On a 215 reply and its block, [List] returns the groups of the
    lines that have four fields or more and numbers for high and low, in
    the order of the block, and faults exactly when some line has three
    fields whose last two are numbers. *)
Theorem List_groups_of_block (sub msg : string) (body : list string)
    (rest : list delivery) (c : Client) :
  write_ok (conn c) = true ->
  inbound (conn c)
    = Line (status_line 215 msg) :: (Line ∘ dot_stuff <$> body) ++ Line "." :: rest ->
  (List sub c).1 =
    if existsb list_fault body then Panics (IndexOutOfRange 3 3)
    else Returns (omap list_group body, None).
Proof.
  intros Hw Hin. rewrite (List_block sub msg body rest c Hw Hin), List_lines_groups.
  by destruct (existsb list_fault body).
Qed.

Lemma List_groups_of_block_witness :
  (List "alt.*" (served ["215 list follows"; "alt.test 20 10 y"; "stray";
                         "alt.binaries 7 x y"; "alt.config 3 1 m"; "."])).1
  = Returns ([nntp.mkGroup "alt.test" 0 20 10 nntp.PostingPermitted;
              nntp.mkGroup "alt.config" 0 3 1 nntp.PostingModerated], None).
Proof.
  apply (List_groups_of_block "alt.*" "list follows"
           ["alt.test 20 10 y"; "stray"; "alt.binaries 7 x y"; "alt.config 3 1 m"] []
           (served ["215 list follows"; "alt.test 20 10 y"; "stray";
                    "alt.binaries 7 x y"; "alt.config 3 1 m"; "."]));
    reflexivity.
Defined.

Lemma list_line_group (g : nntp.Group) :
  listable g -> list_group (list_line g) = Some g /\ list_fault (list_line g) = false.
Proof.
  intros (Hname & Hhigh & Hlow & Hcount & Hpost).
  assert (Hs : strings.Split (list_line g) " "
               = [nntp.Name g; fmt.FormatInt (nntp.High g); fmt.FormatInt (nntp.Low g);
                  posting_flag (nntp.Posting g)]).
  { apply Split_join; [done|]. repeat constructor; try done.
    - by apply FormatInt_bytes.
    - by apply FormatInt_bytes.
    - by destruct (nntp.Posting g). }
  unfold list_group, list_fault. rewrite Hs, !ParseInt_FormatInt by done.
  split; [|done]. f_equal. destruct g as [name count high low posting]. cbn in *.
  subst count. f_equal. by destruct posting.
Qed.

Lemma list_lines_groups (groups : list nntp.Group) :
  Forall listable groups ->
  existsb list_fault (list_line <$> groups) = false
  /\ omap list_group (list_line <$> groups) = groups.
Proof.
  induction 1 as [|g gs Hg _ [IH1 IH2]]; [done|].
  destruct (list_line_group g Hg) as [Hgroup Hfault].
  cbn [fmap list_fmap existsb omap list_omap].
  rewrite Hfault, Hgroup, IH1. cbn. split; [done|]. f_equal. exact IH2.
Qed.

(** X2. [List] reads back the groups a server lists: for groups with a
    name without a space, article numbers in [int64] and a known posting
    status, each on its line as name, high, low and flag, the result is
    the list of these groups. *)
Theorem List_round_trip (sub msg : string) (groups : list nntp.Group)
    (rest : list delivery) (c : Client) :
  write_ok (conn c) = true ->
  Forall listable groups ->
  inbound (conn c)
    = Line (status_line 215 msg)
      :: (Line ∘ dot_stuff <$> (list_line <$> groups)) ++ Line "." :: rest ->
  (List sub c).1 = Returns (groups, None).
Proof.
  intros Hw Hall Hin.
  rewrite (List_block sub msg _ rest c Hw Hin), List_lines_groups.
  destruct (list_lines_groups groups Hall) as [-> ->]. done.
Qed.

Lemma List_round_trip_witness :
  (List "" (served ["215 list follows"; "alt.test 20 10 y"; "alt.config -3 1 n"; "."])).1
  = Returns ([nntp.mkGroup "alt.test" 0 20 10 nntp.PostingPermitted;
              nntp.mkGroup "alt.config" 0 (-3) 1 nntp.PostingNotPermitted], None).
Proof.
  apply (List_round_trip "" "list follows"
           [nntp.mkGroup "alt.test" 0 20 10 nntp.PostingPermitted;
            nntp.mkGroup "alt.config" 0 (-3) 1 nntp.PostingNotPermitted] []
           (served ["215 list follows"; "alt.test 20 10 y"; "alt.config -3 1 n"; "."])).
  - reflexivity.
  - repeat constructor; cbn; try done; unfold strconv.minInt64, strconv.maxInt64; lia.
  - reflexivity.
Defined.

(** ** Command: what one call does to the connection *)

Lemma ReadCodeLine_consumes (expectCode : Z) (k : Conn) :
  (textproto.ReadCodeLine expectCode k).2
    = mkConn (tail (inbound k)) (outbound k) (wscript k).
Proof.
  unfold textproto.ReadCodeLine, textproto.ReadLine.
  destruct k as [[|[l|e] rest] out w]; cbn; [done| |done].
  destruct (textproto.parseCodeLine l expectCode) as [[[code continued] message] [e|]];
    [done|]. by destruct continued.
Qed.

Lemma ReadCodeLine_end_of_stream (expectCode : Z) (k : Conn) :
  inbound k = [] -> (textproto.ReadCodeLine expectCode k).1 = (0, "", Some EOF).
Proof. intros Hin. unfold textproto.ReadCodeLine, textproto.ReadLine. by rewrite Hin. Qed.

(** X3. [Command] never faults and touches the connection only: its line
    is written exactly when the write succeeds, and then one delivery is
    taken from the stream, whatever it is; a failed write gives an error
    and reads nothing. This holds for every expected code. *)
Theorem Command_footprint (cmd : string) (expectCode : Z) (c : Client) :
  exists code msg err k',
    Command cmd expectCode c = (Returns (code, msg, err), set_conn k' c)
    /\ outbound k'
       = outbound (conn c) ++ (if write_ok (conn c) then [fmt.Sprintf0 cmd] else [])
    /\ inbound k'
       = (if write_ok (conn c) then tail (inbound (conn c)) else inbound (conn c))
    /\ wscript k' = tail (wscript (conn c))
    /\ (write_ok (conn c) = false -> code = 0 /\ msg = "" /\ err <> None)
    /\ (write_ok (conn c) = true -> inbound (conn c) = [] -> err = Some EOF).
Proof.
  destruct (write_ok (conn c)) eqn:Hw.
  - unfold Command, mbind, method_bind, on_conn.
    rewrite (PrintfLine_ok _ _ Hw).
    pose proof (ReadCodeLine_consumes expectCode (conn (set_conn (written (fmt.Sprintf0 cmd) (conn c)) c)))
      as Hk.
    pose proof (ReadCodeLine_end_of_stream expectCode
                  (conn (set_conn (written (fmt.Sprintf0 cmd) (conn c)) c))) as Hend.
    destruct (textproto.ReadCodeLine expectCode
                (conn (set_conn (written (fmt.Sprintf0 cmd) (conn c)) c)))
      as [[[code msg] err] k'].
    cbn in Hk, Hend. subst k'. eexists code, msg, err, _. split; [reflexivity|].
    cbn. repeat split; try done. intros _ Hin. specialize (Hend Hin). congruence.
  - unfold write_ok in Hw. destruct (wscript (conn c)) as [|[e|] w] eqn:Hs; try done.
    rewrite (Command_write_fails cmd expectCode c e w Hs).
    eexists 0, "", (Some e), _. split; [reflexivity|]. cbn.
    rewrite app_nil_r. repeat split; done.
Qed.

Lemma Sprintf0_app (pre rest : string) :
  strings.contains_byte pre "%" = false ->
  fmt.Sprintf0 (pre +:+ rest) = pre +:+ fmt.Sprintf0 rest.
Proof.
  induction pre as [|ch pre IH]; [done|].
  cbn [strings.contains_byte]. intros H.
  change (String ch pre +:+ rest) with (String ch (pre +:+ rest)).
  change (String ch pre +:+ fmt.Sprintf0 rest) with (String ch (pre +:+ fmt.Sprintf0 rest)).
  cbn [fmt.Sprintf0].
  destruct (Ascii.eqb_spec ch "%") as [->|Hne].
  - by rewrite Ascii.eqb_refl in H.
  - destruct (Ascii.eqb "%" ch) eqn:E; [by apply Ascii.eqb_eq in E; subst|].
    cbn in H. by rewrite IH.
Qed.

(** X4. [Command] hands its line to [PrintfLine] as the format: a line
    without a percent sign is sent as it is, a doubled percent sign is
    sent as one, and a percent sign that ends the line is sent with the
    complaint of [fmt] in its place. *)
Theorem Command_line_is_a_format (pre post : string) (expectCode : Z) (c : Client) :
  write_ok (conn c) = true ->
  strings.contains_byte pre "%" = false ->
  outbound (conn (Command pre expectCode c).2) = outbound (conn c) ++ [pre]
  /\ outbound (conn (Command (pre +:+ "%%" +:+ post) expectCode c).2)
     = outbound (conn c) ++ [pre +:+ "%" +:+ fmt.Sprintf0 post]
  /\ outbound (conn (Command (pre +:+ "%") expectCode c).2)
     = outbound (conn c) ++ [pre +:+ "%!(NOVERB)"].
Proof.
  intros Hw Hpre. repeat split.
  - rewrite (proj1 (Command_sends _ _ _ Hw)). by rewrite Sprintf0_verbatim.
  - rewrite (proj1 (Command_sends _ _ _ Hw)). by rewrite Sprintf0_app.
  - rewrite (proj1 (Command_sends _ _ _ Hw)). by rewrite Sprintf0_app.
Qed.

Lemma Command_line_is_a_format_witness :
  outbound (conn (Command "XPAT subject 1- 100%" (-1) (served ["221 ok"])).2)
  = ["XPAT subject 1- 100%!(NOVERB)"].
Proof.
  apply (Command_line_is_a_format "XPAT subject 1- 100" "" (-1) (served ["221 ok"]));
    reflexivity.
Defined.

(** ** Replies that are refused, and blocks that end early *)

Lemma List_asLines (sub : string) (c : Client) :
  List sub c =
    match asLines (List_cmd sub) 215 c with
    | (Returns (lines, None), c1) =>
        (rv ← List_lines lines []; Returns (rv, None), c1)
    | (Returns (_, Some e), c1) => (Returns ([], Some e), c1)
    | (Panics f, c1) => (Panics f, c1)
    end.
Proof.
  unfold List, asLines, List_cmd, mbind at 1 2 3 4, method_bind.
  destruct (Command _ 215 c) as [[[[code msg] [e|]]|f] c1]; try done.
  unfold on_conn. destruct (textproto.ReadDotLines (conn c1)) as [[lines [e|]] k]; [done|].
  unfold mbind, method_bind, eval. by destruct (List_lines lines []).
Qed.

Lemma Over_asLines (args : list Z) (cmd : string) (c : Client) :
  Over_cmd args = inl cmd ->
  Over args c =
    match asLines cmd 224 c with
    | (Returns (lines, None), c1) =>
        (ret ← Over_lines lines []; Returns (ret, None), c1)
    | (Returns (_, Some e), c1) => (Returns ([], Some e), c1)
    | (Panics f, c1) => (Panics f, c1)
    end.
Proof.
  intros Hcmd. unfold Over. rewrite Hcmd. unfold mbind at 1 2, method_bind.
  destruct (asLines cmd 224 c) as [[[lines [e|]]|f] c1]; try done.
  unfold mbind, method_bind, eval. by destruct (Over_lines lines []).
Qed.

Lemma ListOverviewFmt_asLines (c : Client) :
  ListOverviewFmt c =
    match asLines "LIST OVERVIEW.FMT" 215 c with
    | (Returns (lines, None), c1) => (Returns (lines, None), c1)
    | (Returns (_, Some e), c1) => (Returns ([], Some e), c1)
    | (Panics f, c1) => (Panics f, c1)
    end.
Proof.
  unfold ListOverviewFmt, mbind, method_bind.
  by destruct (asLines _ 215 c) as [[[lines [e|]]|f] c1].
Qed.

Lemma Command_refused (cmd : string) (expected code : Z) (msg : string)
    (rest : list delivery) (c : Client) :
  100 <= expected <= 999 -> 100 <= code <= 999 -> code <> expected ->
  write_ok (conn c) = true ->
  inbound (conn c) = Line (status_line code msg) :: rest ->
  Command cmd expected c =
    (Returns (code, msg, Some (CodeError code msg)),
     set_conn (mkConn rest (outbound (conn c) ++ [fmt.Sprintf0 cmd])
                      (tail (wscript (conn c)))) c).
Proof.
  intros He Hc Hne Hw Hin.
  rewrite (Command_status cmd code expected msg c rest Hc Hw Hin).
  rewrite mismatch_exact by done.
  destruct (Z.eqb_spec code expected); [done|]. done.
Qed.

Lemma asLines_refused (cmd : string) (expected code : Z) (msg : string)
    (rest : list delivery) (c : Client) :
  100 <= expected <= 999 -> 100 <= code <= 999 -> code <> expected ->
  write_ok (conn c) = true ->
  inbound (conn c) = Line (status_line code msg) :: rest ->
  asLines cmd expected c =
    (Returns ([], Some (CodeError code msg)),
     set_conn (mkConn rest (outbound (conn c) ++ [fmt.Sprintf0 cmd])
                      (tail (wscript (conn c)))) c).
Proof.
  intros He Hc Hne Hw Hin. unfold asLines, mbind, method_bind.
  by rewrite (Command_refused cmd expected code msg rest c).
Qed.

Lemma retrieve_refused (verb specifier : string) (expected code : Z) (msg : string)
    (rest : list delivery) (c : Client) :
  100 <= expected <= 999 -> 100 <= code <= 999 -> code <> expected ->
  write_ok (conn c) = true ->
  inbound (conn c) = Line (status_line code msg) :: rest ->
  retrieve verb expected specifier c =
    (Returns (0, "", NilReader, Some (CodeError code msg)),
     set_conn (mkConn rest (outbound (conn c) ++ [verb +:+ " " +:+ specifier])
                      (tail (wscript (conn c)))) c).
Proof.
  intros He Hc Hne Hw Hin. unfold retrieve, articleish, mbind at 1 2, method_bind, on_conn.
  rewrite (PrintfLine_ok _ _ Hw).
  rewrite (ReadCodeLine_status code expected msg _ rest Hc) by done.
  rewrite mismatch_exact by done.
  destruct (Z.eqb_spec code expected); [done|]. done.
Qed.

(** X5. A reply whose code is not the one a call expects is returned as
    the error, and the result beside it carries nothing: a list of length
    0 (the empty slice [List] made at line 117, nil for the other
    calls), the zero group, or no reader with number 0 and an empty id.
    The call reads no further: what follows the status line stays on the
    stream, and a refused [Capabilities] leaves the cache as it was. *)
Theorem refused_reply (code : Z) (msg : string) (rest : list delivery) (c : Client) :
  100 <= code <= 999 ->
  write_ok (conn c) = true ->
  inbound (conn c) = Line (status_line code msg) :: rest ->
  let refused := Some (CodeError code msg) in
  (code <> 215 -> forall sub,
      (List sub c).1 = Returns ([], refused) /\ inbound (conn (List sub c).2) = rest)
  /\ (code <> 211 -> forall name,
      (Group name c).1 = Returns (nntp.zero, refused)
      /\ inbound (conn (Group name c).2) = rest)
  /\ (forall op verb expected specifier,
      (op, verb, expected) ∈ retrievals -> code <> expected ->
      (op specifier c).1 = Returns (0, "", NilReader, refused)
      /\ inbound (conn (op specifier c).2) = rest)
  /\ (code <> 101 ->
      (Capabilities c).1 = Returns ([], refused)
      /\ inbound (conn (Capabilities c).2) = rest
      /\ capabilities (Capabilities c).2 = capabilities c)
  /\ (code <> 215 ->
      (ListOverviewFmt c).1 = Returns ([], refused)
      /\ inbound (conn (ListOverviewFmt c).2) = rest)
  /\ (code <> 224 -> forall args, (length args <= 2)%nat ->
      (Over args c).1 = Returns ([], refused) /\ inbound (conn (Over args c).2) = rest).
Proof.
  intros Hc Hw Hin refused. split; [|split; [|split; [|split; [|split]]]].
  - intros Hne sub. rewrite List_asLines.
    by rewrite (asLines_refused _ 215 code msg rest c) by (done || lia).
  - intros Hne name. unfold Group, mbind, method_bind.
    by rewrite (Command_refused _ 211 code msg rest c) by (done || lia).
  - intros op verb expected specifier Hop Hne.
    destruct (retrievals_retrieve _ _ _ Hop) as [-> He].
    by rewrite (retrieve_refused verb specifier expected code msg rest c).
  - intros Hne. rewrite Capabilities_asLines.
    by rewrite (asLines_refused _ 101 code msg rest c) by (done || lia).
  - intros Hne. rewrite ListOverviewFmt_asLines.
    by rewrite (asLines_refused _ 215 code msg rest c) by (done || lia).
  - intros Hne args Hlen.
    assert (exists cmd, Over_cmd args = inl cmd) as [cmd Hcmd].
    { destruct args as [|a [|b [|x args]]]; cbn in Hlen; try lia; by eexists. }
    rewrite (Over_asLines args cmd c Hcmd).
    by rewrite (asLines_refused _ 224 code msg rest c) by (done || lia).
Qed.

Lemma refused_reply_witness :
  (Group "alt.test" (served ["411 no such group"; "next"])).1
    = Returns (nntp.zero, Some (CodeError 411 "no such group"))
  /\ inbound (conn (Group "alt.test" (served ["411 no such group"; "next"])).2)
     = [Line "next"].
Proof.
  apply (refused_reply 411 "no such group" [Line "next"]
           (served ["411 no such group"; "next"]));
    (lia || reflexivity || done).
Defined.

Lemma ReadDotLines_loop_truncated (body v : list string) :
  textproto.ReadDotLines_loop (Line ∘ dot_stuff <$> body) v
    = ([], v ++ body, Some ErrUnexpectedEOF).
Proof.
  revert v. induction body as [|l body IH]; intros v.
  - by rewrite app_nil_r.
  - cbn [fmap list_fmap compose].
    assert (Hstep : forall tl,
      textproto.ReadDotLines_loop (Line (dot_stuff l) :: tl) v
        = textproto.ReadDotLines_loop tl (v ++ [l])).
    { intros tl. destruct l as [|a l']; [done|].
      unfold dot_stuff.
      destruct (Ascii.ascii_dec a ".") as [->|Hne]; [done|].
      destruct a as [[] [] [] [] [] [] [] []]; try done. }
    rewrite Hstep, IH. by rewrite <- app_assoc.
Qed.

Lemma asLines_truncated (cmd : string) (expectCode : Z) (msg : string)
    (body : list string) (c : Client) :
  100 <= expectCode <= 999 ->
  write_ok (conn c) = true ->
  inbound (conn c) = Line (status_line expectCode msg) :: (Line ∘ dot_stuff <$> body) ->
  asLines cmd expectCode c =
    (Returns (body, Some ErrUnexpectedEOF),
     set_conn (mkConn [] (outbound (conn c) ++ [fmt.Sprintf0 cmd])
                      (tail (wscript (conn c)))) c).
Proof.
  intros Hcode Hw Hin. unfold asLines, mbind, method_bind.
  rewrite (Command_status cmd expectCode expectCode msg c _ Hcode Hw Hin).
  rewrite mismatch_exact, Z.eqb_refl by done. cbn [negb].
  unfold on_conn, textproto.ReadDotLines. cbn [conn set_conn inbound].
  by rewrite ReadDotLines_loop_truncated.
Qed.

(** X6. When the stream ends inside a block, before the line with the
    single dot, [asLines] returns the lines read so far together with
    [io.ErrUnexpectedEOF]; [List], [ListOverviewFmt], [Over] and
    [Capabilities] return the error with a list of length 0 (for [List]
    the empty slice made at line 117, for the others nil), so the lines
    read are dropped, and the cache of capabilities is not touched. *)
Theorem block_cut_short (msg : string) (body : list string) (c : Client) :
  write_ok (conn c) = true ->
  (forall cmd expectCode,
      100 <= expectCode <= 999 ->
      inbound (conn c) = Line (status_line expectCode msg) :: (Line ∘ dot_stuff <$> body) ->
      (asLines cmd expectCode c).1 = Returns (body, Some ErrUnexpectedEOF))
  /\ (inbound (conn c) = Line (status_line 215 msg) :: (Line ∘ dot_stuff <$> body) ->
      (forall sub, (List sub c).1 = Returns ([], Some ErrUnexpectedEOF))
      /\ (ListOverviewFmt c).1 = Returns ([], Some ErrUnexpectedEOF))
  /\ (inbound (conn c) = Line (status_line 224 msg) :: (Line ∘ dot_stuff <$> body) ->
      forall args, (length args <= 2)%nat ->
      (Over args c).1 = Returns ([], Some ErrUnexpectedEOF))
  /\ (inbound (conn c) = Line (status_line 101 msg) :: (Line ∘ dot_stuff <$> body) ->
      (Capabilities c).1 = Returns ([], Some ErrUnexpectedEOF)
      /\ capabilities (Capabilities c).2 = capabilities c).
Proof.
  intros Hw. split; [|split; [|split]].
  - intros cmd expectCode Hcode Hin.
    by rewrite (asLines_truncated cmd expectCode msg body c).
  - intros Hin. split; [intros sub|].
    + rewrite List_asLines.
      by rewrite (asLines_truncated _ 215 msg body c) by (done || lia).
    + rewrite ListOverviewFmt_asLines.
      by rewrite (asLines_truncated _ 215 msg body c) by (done || lia).
  - intros Hin args Hlen.
    assert (exists cmd, Over_cmd args = inl cmd) as [cmd Hcmd].
    { destruct args as [|a [|b [|x args]]]; cbn in Hlen; try lia; by eexists. }
    rewrite (Over_asLines args cmd c Hcmd).
    by rewrite (asLines_truncated _ 224 msg body c) by (done || lia).
  - intros Hin. rewrite Capabilities_asLines.
    by rewrite (asLines_truncated _ 101 msg body c) by (done || lia).
Qed.

Lemma block_cut_short_witness :
  (asLines "LIST OVERVIEW.FMT" 215 (served ["215 fields"; "Subject:"; "..From:"])).1
    = Returns (["Subject:"; ".From:"], Some ErrUnexpectedEOF)
  /\ (ListOverviewFmt (served ["215 fields"; "Subject:"; "..From:"])).1
     = Returns ([], Some ErrUnexpectedEOF).
Proof.
  pose proof (block_cut_short "fields" ["Subject:"; ".From:"]
                (served ["215 fields"; "Subject:"; "..From:"]) eq_refl)
    as (Has & Hlist & _).
  split.
  - apply Has; [lia | reflexivity].
  - apply Hlist. reflexivity.
Defined.

(** X7. No element comes with an error: whatever the connection holds,
    when [List], [Capabilities], [ListOverviewFmt] or [Over] return an
    error, the list they return has length 0. ([Capabilities],
    [ListOverviewFmt] and [Over] return nil there, [List] the empty
    slice it made at line 117; [asLines] and [Group] are the calls that
    do return part of a result with an error.) *)
Theorem error_without_result (c : Client) :
  (forall sub groups e, (List sub c).1 = Returns (groups, Some e) -> groups = [])
  /\ (forall caps e, (Capabilities c).1 = Returns (caps, Some e) -> caps = [])
  /\ (forall fields e, (ListOverviewFmt c).1 = Returns (fields, Some e) -> fields = [])
  /\ (forall args items e, (Over args c).1 = Returns (items, Some e) -> items = []).
Proof.
  repeat apply conj.
  - intros sub groups e. rewrite List_asLines.
    destruct (asLines _ 215 c) as [[[lines [e'|]]|f] c1]; cbn; try congruence.
    by destruct (List_lines lines []).
  - intros caps e. rewrite Capabilities_asLines.
    destruct (asLines _ 101 c) as [[[lines [e'|]]|f] c1]; cbn; congruence.
  - intros fields e. rewrite ListOverviewFmt_asLines.
    destruct (asLines _ 215 c) as [[[lines [e'|]]|f] c1]; cbn; congruence.
  - intros args items e. destruct (Over_cmd args) as [cmd|e'] eqn:Hcmd.
    + rewrite (Over_asLines args cmd c Hcmd).
      destruct (asLines _ 224 c) as [[[lines [e''|]]|f] c1]; cbn; try congruence.
      by destruct (Over_lines lines []).
    + unfold Over. rewrite Hcmd. cbn. congruence.
Qed.

Lemma error_without_result_witness :
  (List "" (served ["215 list"; "alt.test 2 1 y"])).1
    = Returns ([], Some ErrUnexpectedEOF).
Proof.
  destruct (List "" (served ["215 list"; "alt.test 2 1 y"])).1
    as [[groups [e|]]|f] eqn:HL; try (vm_compute in HL; discriminate).
  rewrite (proj1 (error_without_result _) "" groups e HL).
  vm_compute in HL. congruence.
Defined.

(** X8. [List], [ListOverviewFmt], [Over] and [Capabilities] read the
    whole block before they look at a line of it: after the call the
    stream stands behind the block, also when [List] or [Over] fault on
    one of its lines. *)
Theorem block_is_consumed (msg : string) (body : list string)
    (rest : list delivery) (c : Client) :
  write_ok (conn c) = true ->
  (inbound (conn c)
     = Line (status_line 215 msg) :: (Line ∘ dot_stuff <$> body) ++ Line "." :: rest ->
   (forall sub, inbound (conn (List sub c).2) = rest)
   /\ ListOverviewFmt c
      = (Returns (body, None),
         set_conn (mkConn rest (outbound (conn c) ++ ["LIST OVERVIEW.FMT"])
                          (tail (wscript (conn c)))) c))
  /\ (inbound (conn c)
        = Line (status_line 224 msg) :: (Line ∘ dot_stuff <$> body) ++ Line "." :: rest ->
      forall args, (length args <= 2)%nat -> inbound (conn (Over args c).2) = rest)
  /\ (inbound (conn c)
        = Line (status_line 101 msg) :: (Line ∘ dot_stuff <$> body) ++ Line "." :: rest ->
      inbound (conn (Capabilities c).2) = rest).
Proof.
  intros Hw. split; [|split].
  - intros Hin. split; [intros sub|].
    + rewrite List_asLines.
      rewrite (asLines_block _ 215 msg body rest c) by (done || lia).
      by destruct (List_lines body []).
    + rewrite ListOverviewFmt_asLines.
      by rewrite (asLines_block _ 215 msg body rest c) by (done || lia).
  - intros Hin args Hlen.
    assert (exists cmd, Over_cmd args = inl cmd) as [cmd Hcmd].
    { destruct args as [|a [|b [|x args]]]; cbn in Hlen; try lia; by eexists. }
    rewrite (Over_asLines args cmd c Hcmd).
    rewrite (asLines_block _ 224 msg body rest c) by (done || lia).
    by destruct (Over_lines body []).
  - intros Hin. rewrite Capabilities_asLines.
    by rewrite (asLines_block _ 101 msg body rest c) by (done || lia).
Qed.

Lemma block_is_consumed_witness :
  inbound (conn (List "" (served ["215 list"; "alt.test 2 1"; "."; "205 bye"])).2)
    = [Line "205 bye"]
  /\ (List "" (served ["215 list"; "alt.test 2 1"; "."; "205 bye"])).1
     = Panics (IndexOutOfRange 3 3).
Proof.
  split; [|reflexivity].
  apply (block_is_consumed "list" ["alt.test 2 1"] [Line "205 bye"]
           (served ["215 list"; "alt.test 2 1"; "."; "205 bye"]) eq_refl).
  reflexivity.
Defined.

(** ** List, Group and Over: what they return *)

Lemma Split_fields (s : string) (sep : ascii) :
  strings.Split s sep <> []
  /\ Forall (fun p => strings.contains_byte p sep = false) (strings.Split s sep).
Proof.
  induction s as [|c s [IHne IH]]; cbn [strings.Split].
  - split; [done|]. by repeat constructor.
  - destruct (Ascii.eqb_spec c sep) as [->|Hne].
    + split; [done|]. by constructor.
    + destruct (strings.Split s sep) as [|f fs]; [done|]. split; [done|].
      inversion IH as [|? ? Hf Hfs]; subst. constructor; [|done].
      cbn [strings.contains_byte]. rewrite Hf.
      destruct (Ascii.eqb_spec sep c); [congruence|done].
Qed.

Lemma ParseUint_loop_range (s : string) (acc n : Z) :
  0 <= acc -> strconv.ParseUint_loop acc s = strconv.UValue n -> 0 <= n.
Proof.
  revert acc. induction s as [|c s IH]; intros acc Hacc; cbn [strconv.ParseUint_loop].
  - intros [= <-]. done.
  - destruct (strconv.digit c) as [d|] eqn:Hd; [|done].
    destruct (_ <=? acc); [done|].
    destruct (strconv.maxUint64 <? acc * 10 + d); [done|].
    apply IH. unfold strconv.digit in Hd.
    destruct (_ && _) eqn:Hr; [|done]. injection Hd as <-. lia.
Qed.

(** A number [ParseInt] accepts is an [int64]. *)
Lemma ParseInt_range (s : string) (n : Z) :
  strconv.ParseInt s = (n, None) -> strconv.minInt64 <= n <= strconv.maxInt64.
Proof.
  unfold strconv.ParseInt. destruct s as [|c rest]; [done|].
  set (neg := Ascii.eqb c "-").
  set (s := if Ascii.eqb c "+" || neg then rest else String c rest).
  change (2 ^ 63) with 9223372036854775808.
  unfold strconv.minInt64, strconv.maxInt64.
  change (2 ^ 63) with 9223372036854775808.
  destruct (strconv.ParseUint s) as [un| |] eqn:Hu; [|done|].
  - assert (0 <= un) as Hun.
    { unfold strconv.ParseUint in Hu. destruct s; [done|].
      by apply (ParseUint_loop_range _ 0 un) in Hu. }
    destruct neg; cbn [negb andb].
    + destruct (9223372036854775808 <? un) eqn:Hlt; [done|]. intros [= <-]. lia.
    + destruct (9223372036854775808 <=? un) eqn:Hle; [done|]. intros [= <-]. lia.
  - change strconv.maxUint64 with 18446744073709551615. by destruct neg.
Qed.

Lemma list_group_listable (l : string) (g : nntp.Group) :
  list_group l = Some g -> listable g.
Proof.
  unfold list_group. pose proof (Split_fields l " ") as [_ Hall].
  destruct (strings.Split l " ") as [|p0 [|p1 [|p2 [|p3 more]]]]; try done.
  destruct (strconv.ParseInt p1) as [high [eh|]] eqn:Hh; [done|].
  destruct (strconv.ParseInt p2) as [low [el|]] eqn:Hl; [done|].
  intros [= <-]. inversion Hall; subst.
  repeat split; cbn; try done;
    try (by eapply ParseInt_range; eassumption || by apply (ParseInt_range p1)
         || by apply (ParseInt_range p2)).
  unfold parsePosting. by repeat destruct (String.eqb _ _).
Qed.

(** X9. Every group [List] returns has a name without a space, article
    numbers in [int64], no count and a posting status that is known: a
    flag other than y and m reads as posting not permitted. *)
Theorem List_returns_listable (sub : string) (c : Client)
    (groups : list nntp.Group) (err : option error) :
  (List sub c).1 = Returns (groups, err) -> Forall listable groups.
Proof.
  rewrite List_asLines.
  destruct (asLines _ 215 c) as [[[lines [e|]]|f] c1]; cbn [fst].
  - intros [= <- _]. constructor.
  - rewrite List_lines_groups. destruct (existsb list_fault lines); [done|].
    cbn. intros [= <- _].
    induction lines as [|l lines IH]; [constructor|].
    cbn [omap list_omap]. destruct (list_group l) as [g|] eqn:Hg; [|done].
    constructor; [by apply (list_group_listable l)|done].
  - done.
Qed.

Lemma List_returns_listable_witness :
  Forall listable [nntp.mkGroup "alt.test" 0 20 10 nntp.PostingNotPermitted].
Proof.
  apply (List_returns_listable "" (served ["215 list"; "alt.test 20 10 x"; "."]) _ None).
  reflexivity.
Defined.

Lemma Over_lines_items (lines : list string) (ret : list OverItem) :
  Over_lines lines ret =
    match List.find over_short lines with
    | Some l =>
        Panics (IndexOutOfRange (length (strings.Split l "009"))
                                (length (strings.Split l "009")))
    | None => Returns (ret ++ omap over_item lines)
    end.
Proof.
  revert ret. induction lines as [|l lines IH]; intros ret.
  - cbn. by rewrite app_nil_r.
  - cbn [List.find omap list_omap]. unfold over_short at 1, over_item at 1.
    destruct (strings.Split l "009")
      as [|f0 [|f1 [|f2 [|f3 [|f4 [|f5 [|f6 [|f7 more]]]]]]]] eqn:Hs.
    1-5: rewrite Over_lines_skip by (rewrite Hs; cbn; lia); cbn; apply IH.
    1-3: rewrite Over_lines_short by (rewrite Hs; cbn; lia); rewrite Hs; cbn; rewrite Hs; reflexivity.
    rewrite (Over_lines_eight l f0 f1 f2 f3 f4 f5 f6 f7 more) by done.
    cbn [length Nat.leb Nat.ltb andb]. rewrite IH.
    destruct (List.find over_short lines); [done|]. by rewrite <- app_assoc.
Qed.

(** X10. On a 224 reply and its block, [Over] returns the items of the
    lines that have eight fields or more, in the order of the block; a
    line of fewer than five fields is passed over, and the first line of
    five, six or seven fields makes the call fault at the first field it
    lacks. *)
Theorem Over_items_of_block (args : list Z) (msg : string) (body : list string)
    (rest : list delivery) (c : Client) :
  (length args <= 2)%nat ->
  write_ok (conn c) = true ->
  inbound (conn c)
    = Line (status_line 224 msg) :: (Line ∘ dot_stuff <$> body) ++ Line "." :: rest ->
  (Over args c).1 =
    match List.find over_short body with
    | Some l =>
        Panics (IndexOutOfRange (length (strings.Split l "009"))
                                (length (strings.Split l "009")))
    | None => Returns (omap over_item body, None)
    end.
Proof.
  intros Hlen Hw Hin.
  assert (exists cmd, Over_cmd args = inl cmd) as [cmd Hcmd].
  { destruct args as [|a [|b [|x args]]]; cbn in Hlen; try lia; by eexists. }
  rewrite (Over_block args cmd msg body rest c Hcmd Hw Hin), Over_lines_items.
  by destruct (List.find over_short body).
Qed.

Lemma Over_items_of_block_witness :
  (Over [1; 2] (served ["224 overview"; "stray line";
                        String.concat (String "009" "")
                          ["1"; "s"; "f"; "d"; "<a@b>"; ""; "10"; "2"; "Xref: x"];
                        "."])).1
  = Returns ([{| Number := "1"; Subject := "s"; From := "f"; Date := "d";
                 MessageId := "<a@b>"; References := "";
                 bytesMetadata := "10"; linesMetadata := "2" |}], None).
Proof.
  apply (Over_items_of_block [1; 2] "overview"
           ["stray line";
            String.concat (String "009" "")
              ["1"; "s"; "f"; "d"; "<a@b>"; ""; "10"; "2"; "Xref: x"]] []
           (served ["224 overview"; "stray line";
                    String.concat (String "009" "")
                      ["1"; "s"; "f"; "d"; "<a@b>"; ""; "10"; "2"; "Xref: x"];
                    "."])).
  - cbn. lia.
  - reflexivity.
  - reflexivity.
Defined.

Lemma over_line_item (i : OverItem) :
  tab_free i -> over_item (over_line i) = Some i /\ over_short (over_line i) = false.
Proof.
  intros Hfree. unfold over_item, over_short, over_line.
  rewrite Split_join by done. split; [by destruct i|done].
Qed.

Lemma over_lines_items (items : list OverItem) :
  Forall tab_free items ->
  List.find over_short (over_line <$> items) = None
  /\ omap over_item (over_line <$> items) = items.
Proof.
  induction 1 as [|i items Hi _ [IH1 IH2]]; [done|].
  destruct (over_line_item i Hi) as [Hitem Hshort].
  cbn [fmap list_fmap List.find omap list_omap].
  rewrite Hshort, Hitem, IH1. cbn. split; [done|]. f_equal. exact IH2.
Qed.

(** X11. [Over] reads back the items a server lists: for items whose
    fields hold no TAB, each on its line as number, subject, from, date,
    message id, references, bytes and lines, the result is the list of
    these items. *)
Theorem Over_round_trip (args : list Z) (msg : string) (items : list OverItem)
    (rest : list delivery) (c : Client) :
  (length args <= 2)%nat ->
  write_ok (conn c) = true ->
  Forall tab_free items ->
  inbound (conn c)
    = Line (status_line 224 msg)
      :: (Line ∘ dot_stuff <$> (over_line <$> items)) ++ Line "." :: rest ->
  (Over args c).1 = Returns (items, None).
Proof.
  intros Hlen Hw Hall Hin.
  assert (exists cmd, Over_cmd args = inl cmd) as [cmd Hcmd].
  { destruct args as [|a [|b [|x args]]]; cbn in Hlen; try lia; by eexists. }
  rewrite (Over_block args cmd msg _ rest c Hcmd Hw Hin), Over_lines_items.
  destruct (over_lines_items items Hall) as [-> ->]. done.
Qed.

Lemma Over_round_trip_witness :
  (Over [7] (served ["224 overview";
                     String.concat (String "009" "")
                       ["7"; "Re: a b"; "me <m@x>"; "6 Oct"; "<7@x>"; "<6@x>"; "120"; "4"];
                     "."])).1
  = Returns ([{| Number := "7"; Subject := "Re: a b"; From := "me <m@x>";
                 Date := "6 Oct"; MessageId := "<7@x>"; References := "<6@x>";
                 bytesMetadata := "120"; linesMetadata := "4" |}], None).
Proof.
  apply (Over_round_trip [7] "overview"
           [{| Number := "7"; Subject := "Re: a b"; From := "me <m@x>";
               Date := "6 Oct"; MessageId := "<7@x>"; References := "<6@x>";
               bytesMetadata := "120"; linesMetadata := "4" |}] []
           (served ["224 overview";
                    String.concat (String "009" "")
                      ["7"; "Re: a b"; "me <m@x>"; "6 Oct"; "<7@x>"; "<6@x>"; "120"; "4"];
                    "."])).
  - cbn. lia.
  - reflexivity.
  - repeat constructor.
  - reflexivity.
Defined.

(** X12. [Group] reads back the group of a 211 reply: for a count, a low
    and a high number in [int64] and a name without a space, the result
    carries them, with the name the server sent, whatever name was asked
    for, and with the posting status unknown. *)
Theorem Group_round_trip (name : string) (g : nntp.Group)
    (rest : list delivery) (c : Client) :
  write_ok (conn c) = true ->
  strings.contains_byte (nntp.Name g) " " = false ->
  strconv.minInt64 <= nntp.Count g <= strconv.maxInt64 ->
  strconv.minInt64 <= nntp.Low g <= strconv.maxInt64 ->
  strconv.minInt64 <= nntp.High g <= strconv.maxInt64 ->
  nntp.Posting g = nntp.Unknown ->
  inbound (conn c) = Line (status_line 211 (group_line g)) :: rest ->
  (Group name c).1 = Returns (g, None).
Proof.
  intros Hw Hname Hcount Hlow Hhigh Hpost Hin.
  rewrite (Group_status name _ rest c Hw Hin).
  assert (Hs : strings.Split (group_line g) " "
               = [fmt.FormatInt (nntp.Count g); fmt.FormatInt (nntp.Low g);
                  fmt.FormatInt (nntp.High g); nntp.Name g]).
  { apply Split_join; [done|]. repeat constructor; try done; by apply FormatInt_bytes. }
  rewrite (Group_parse_more _ _ _ _ _ _ _ _ _ Hs
             (ParseInt_FormatInt _ Hcount) (ParseInt_FormatInt _ Hlow)
             (ParseInt_FormatInt _ Hhigh)).
  destruct g as [n cnt high low posting]. cbn in *. by subst posting.
Qed.

Lemma Group_round_trip_witness :
  (Group "ALT.TEST" (served ["211 5 10 20 alt.test"])).1
  = Returns (nntp.mkGroup "alt.test" 5 20 10 nntp.Unknown, None).
Proof.
  apply (Group_round_trip "ALT.TEST" (nntp.mkGroup "alt.test" 5 20 10 nntp.Unknown) []
           (served ["211 5 10 20 alt.test"]));
    try reflexivity; cbn; unfold strconv.minInt64, strconv.maxInt64; lia.
Defined.

(** ** The two revisions of List *)

Lemma client_go_List_asLines (sub : string) (c : Client) :
  client_go.List sub c =
    match asLines ("LIST " +:+ sub) 215 c with
    | (Returns (lines, None), c1) =>
        (rv ← client_go.List_lines lines []; Returns (rv, None), c1)
    | (Returns (_, Some e), c1) => (Returns ([], Some e), c1)
    | (Panics f, c1) => (Panics f, c1)
    end.
Proof.
  unfold client_go.List, asLines, mbind at 1 2 3 4, method_bind.
  destruct (Command _ 215 c) as [[[[code msg] [e|]]|f] c1]; try done.
  unfold on_conn. destruct (textproto.ReadDotLines (conn c1)) as [[lines [e|]] k]; [done|].
  unfold mbind, method_bind, eval. by destruct (client_go.List_lines lines []).
Qed.

Lemma List_lines_revisions (lines : list string) (rv : list nntp.Group) :
  Forall (fun l => (3 <= length (strings.Split l " "))%nat) lines ->
  client_go.List_lines lines rv = List_lines lines rv.
Proof.
  intros Hall. revert rv. induction Hall as [|l lines Hl _ IH]; intros rv; [done|].
  cbn [client_go.List_lines List_lines].
  destruct (strings.Split l " ") as [|p0 [|p1 [|p2 parts]]]; cbn in Hl; try lia.
  cbn [length Nat.ltb Nat.leb]. unfold index. cbn [lookup list_lookup mbind go_bind].
  destruct parts as [|p3 parts]; cbn;
    destruct (strconv.ParseInt p1) as [high [eh|]], (strconv.ParseInt p2) as [low [el|]];
    cbn; by rewrite ?IH.
Qed.

(** X13. The two revisions of [List] agree on every block whose lines
    have three fields or more: they return the same groups or fault
    alike, and for a pattern that is not empty they send the same line
    and leave the same client. For the empty pattern the older revision
    sends [LIST] with a space after it. *)
Theorem List_revisions_agree (sub msg : string) (body : list string)
    (rest : list delivery) (c : Client) :
  write_ok (conn c) = true ->
  inbound (conn c)
    = Line (status_line 215 msg) :: (Line ∘ dot_stuff <$> body) ++ Line "." :: rest ->
  Forall (fun l => (3 <= length (strings.Split l " "))%nat) body ->
  (client_go.List sub c).1 = (List sub c).1
  /\ (sub <> "" -> client_go.List sub c = List sub c)
  /\ outbound (conn (client_go.List "" c).2) = outbound (conn c) ++ ["LIST "]
  /\ outbound (conn (List "" c).2) = outbound (conn c) ++ ["LIST"].
Proof.
  intros Hw Hin Hall. split; [|split; [|split]].
  - rewrite client_go_List_asLines, List_asLines.
    rewrite !(asLines_block _ 215 msg body rest c) by (done || lia).
    by rewrite List_lines_revisions.
  - intros Hsub. rewrite client_go_List_asLines, List_asLines. unfold List_cmd.
    destruct (String.eqb_spec sub ""); [done|].
    change ("LIST" +:+ " " +:+ sub) with ("LIST " +:+ sub).
    rewrite !(asLines_block _ 215 msg body rest c) by (done || lia).
    by rewrite List_lines_revisions.
  - rewrite client_go_List_asLines.
    rewrite !(asLines_block _ 215 msg body rest c) by (done || lia).
    by destruct (client_go.List_lines body []).
  - rewrite List_asLines.
    rewrite !(asLines_block _ 215 msg body rest c) by (done || lia).
    by destruct (List_lines body []).
Qed.

Lemma List_revisions_agree_witness :
  client_go.List "alt.*" (served ["215 list"; "alt.test 20 10 y"; "alt.x 1 2"; "."])
  = List "alt.*" (served ["215 list"; "alt.test 20 10 y"; "alt.x 1 2"; "."]).
Proof.
  apply (List_revisions_agree "alt.*" "list" ["alt.test 20 10 y"; "alt.x 1 2"] []
           (served ["215 list"; "alt.test 20 10 y"; "alt.x 1 2"; "."])).
  - reflexivity.
  - reflexivity.
  - repeat constructor.
  - done.
Defined.

(** ** NewConn and StartTLS *)

(** X14. [NewConn] writes nothing and reads one line, the greeting. A
    greeting of code 200 makes the client, with the message as its
    banner, no TLS, a nil transport handle and no capabilities; any other
    code, 201 among them, is returned as the error and no client is
    made. *)
Theorem NewConn_greeting (text_conn : NetConn -> Conn) (establishedConn : NetConn)
    (code : Z) (msg : string) (rest : list delivery) :
  100 <= code <= 999 ->
  inbound (text_conn establishedConn) = Line (status_line code msg) :: rest ->
  NewConn text_conn establishedConn =
    if code =? 200 then
      (Some (mkClient (mkConn rest (outbound (text_conn establishedConn))
                              (wscript (text_conn establishedConn)))
                      NilConn false msg []), None)
    else (None, Some (CodeError code msg)).
Proof.
  intros Hcode Hin. unfold NewConn.
  rewrite (ReadCodeLine_status code 200 msg _ rest Hcode Hin).
  rewrite mismatch_exact by lia. by destruct (code =? 200).
Qed.

Lemma NewConn_greeting_witness :
  NewConn (fun _ => mkConn [Line "201 no posting"] [] []) (Socket 1)
  = (None, Some (CodeError 201 "no posting")).
Proof.
  apply (NewConn_greeting (fun _ => mkConn [Line "201 no posting"] [] []) (Socket 1)
           201 "no posting" []); [lia | reflexivity].
Defined.

(** X15. When the reply to [STARTTLS] is not a 382, or the line cannot be
    written, [StartTLS] returns the error and changes the connection
    only: no TLS client is made, the flag stays off, and the cache of
    capabilities is not fetched again. *)
Theorem StartTLS_refused (text_conn : NetConn -> Conn) (config : Config) (c : Client) :
  tls c = false ->
  accepts (conn c) 0 382 = false ->
  exists e k',
    StartTLS text_conn config c = (Returns (Some e), set_conn k' c)
    /\ outbound k'
       = outbound (conn c)
         ++ (if is_nil (write_error (conn c) 0) then ["STARTTLS"] else [])
    /\ HasTLS (StartTLS text_conn config c).2 = false.
Proof.
  intros Htls Hacc. unfold StartTLS. rewrite Htls. unfold mbind, method_bind.
  rewrite Command_exchange. change (fmt.Sprintf0 "STARTTLS") with "STARTTLS".
  destruct (exchange_spec "STARTTLS" 382 c ltac:(lia))
    as (code & msg & err & k1 & -> & Hok & _ & Hout & _).
  destruct err as [e|].
  - exists e, k1. by repeat split.
  - rewrite (proj1 Hok eq_refl) in Hacc. done.
Qed.

Lemma StartTLS_refused_witness :
  exists e k',
    StartTLS (fun _ => mkConn [] [] []) (mkConfig "news.example.com" false)
             (served ["580 can not initiate TLS"])
    = (Returns (Some e), set_conn k' (served ["580 can not initiate TLS"]))
    /\ outbound k' = ["STARTTLS"].
Proof.
  destruct (StartTLS_refused (fun _ => mkConn [] [] []) (mkConfig "news.example.com" false)
              (served ["580 can not initiate TLS"]) eq_refl eq_refl)
    as (e & k' & Hs & Hout & _).
  by exists e, k'.
Defined.

(** ** What a session keeps *)

Lemma keeps_session_frame {A} (m : method A) (c : Client) :
  keeps_session m ->
  netconn (m c).2 = netconn c /\ tls (m c).2 = tls c /\ Banner (m c).2 = Banner c.
Proof. intros Hm. destruct (Hm c) as [k' ->]. done. Qed.

Lemma StartTLS_frame (text_conn : NetConn -> Conn) (config : Config) (c : Client) :
  let c' := (StartTLS text_conn config c).2 in
  Banner c' = Banner c
  /\ (tls c = true -> c' = c)
  /\ (tls c' = false -> netconn c' = netconn c /\ tls c = false)
  /\ (tls c = false -> tls c' = true -> netconn c' = TLSClient (netconn c) config).
Proof.
  unfold StartTLS. destruct (tls c) eqn:Htls.
  { cbn. repeat split; congruence. }
  unfold mbind, method_bind.
  destruct (Command_keeps "STARTTLS" 382 c) as [k1 Hk1].
  destruct (Command "STARTTLS" 382 c) as [[[[code msg] [e|]]|f] c1];
    cbn [snd] in Hk1; subst c1; cbn [snd].
  1, 3: cbn; repeat split; intros; congruence.
  unfold modify. cbn [netconn set_conn Banner capabilities].
  set (secured := TLSClient (netconn c) config).
  set (up := mkClient _ secured true _ _).
  destruct (Handshake secured) as [[e|]|f].
  1, 3: cbn; repeat split; intros; congruence.
  destruct (Capabilities_session up) as (caps & err & c' & -> & Hnet & Htls' & Hban & _).
  destruct err; cbn [snd mret method_ret]; rewrite Hnet, Htls', Hban; cbn;
    repeat split; intros; congruence.
Qed.

Lemma perform_frame (text_conn : NetConn -> Conn) (op : call) (c : Client) :
  let c' := perform text_conn op c in
  Banner c' = Banner c
  /\ (tls c = true -> tls c' = true /\ netconn c' = netconn c)
  /\ (tls c' = false -> netconn c' = netconn c /\ tls c = false)
  /\ ((forall config, op <> CallStartTLS config) ->
      tls c' = tls c /\ netconn c' = netconn c).
Proof.
  assert (Hkeeps : forall A (m : method A), keeps_session m ->
            Banner (m c).2 = Banner c
            /\ (tls c = true -> tls (m c).2 = true /\ netconn (m c).2 = netconn c)
            /\ (tls (m c).2 = false -> netconn (m c).2 = netconn c /\ tls c = false)
            /\ (tls (m c).2 = tls c /\ netconn (m c).2 = netconn c)).
  { intros A m Hm. destruct (keeps_session_frame m c Hm) as (-> & -> & ->).
    repeat split; done. }
  destruct op; cbn [perform];
    try (match goal with
         | |- Banner (?m c).2 = _ /\ _ =>
             destruct (Hkeeps _ m) as (H1 & H2 & H3 & H4);
             [ first [ apply Command_keeps | apply Authenticate_keeps | apply List_keeps
                     | apply Group_keeps | apply retrieve_keeps
                     | apply ListOverviewFmt_keeps | apply Over_keeps ]
             | repeat split; intros;
               first [ done | by apply H2 | by apply H3 | exact H4 | apply H4 ] ]
         end).
  - destruct (Capabilities_session c) as (caps & err & c' & -> & Hn & Ht & Hb & _).
    cbn [snd]. rewrite Hn, Ht, Hb. repeat split; intros; congruence.
  - destruct (StartTLS_frame text_conn config c) as (H1 & H2 & H3 & H4).
    cbn zeta in *. split; [done|]. split; [|split].
    + intros Ht. by rewrite (H2 Ht).
    + exact H3.
    + intros Hno. by destruct (Hno config).
Qed.

(** While TLS is not active the transport handle is the one the session
    started with. *)
Lemma run_handle (text_conn : NetConn -> Conn) (ops : list call) (c : Client) :
  tls (run text_conn ops c) = false ->
  netconn (run text_conn ops c) = netconn c /\ tls c = false.
Proof.
  revert c. induction ops as [|op ops IH]; intros c; cbn [run]; [done|].
  intros Ht. destruct (IH _ Ht) as [Hn Ht'].
  destruct (perform_frame text_conn op c) as (_ & _ & P3 & _). cbn zeta in P3.
  destruct (P3 Ht') as [Hn' Ht'']. split; congruence.
Qed.

(** C5. With TLS active [StartTLS] returns its error and leaves the
    client as it was: nothing is written, no transport is made. With TLS
    not active it cannot succeed on a client of this package. [NewConn]
    leaves [netconn] nil and no other call assigns it, so at any point of
    a session [StartTLS] hands the nil handle to [tls.Client]. After a
    382 reply the three assignments are made: the TLS client of nil in
    [netconn], a text connection over it in [conn], the flag set. Then
    the write of [CAPABILITIES] starts the handshake: with a
    configuration that names no server and skips no verification it
    fails and [StartTLS] returns that error; with any other
    configuration it dereferences the nil handle and the call faults. No
    capability is fetched, whatever the text connection would deliver,
    and the client is left marked as using TLS. *)
Theorem StartTLS_on_nil_handle (text_conn : NetConn -> Conn)
    (establishedConn : NetConn) (ops : list call) (config : Config)
    (made c : Client) :
  (tls c = true ->
   StartTLS text_conn config c = (Returns (Some (ErrorString "TLS already active")), c))
  /\ (NewConn text_conn establishedConn = (Some made, None) ->
      c = run text_conn ops made ->
      tls c = false ->
      accepts (conn c) 0 382 = true ->
      let secured := TLSClient NilConn config in
      let upgraded :=
        mkClient (text_conn secured) secured true (Banner c) (capabilities c) in
      StartTLS text_conn config c =
        (if String.eqb (ServerName config) "" && negb (InsecureSkipVerify config)
         then Returns (Some ErrNoServerName)
         else Panics NilDereference,
         upgraded)
      /\ (StartTLS text_conn config c).1 <> Returns None
      /\ fetched text_conn (CallStartTLS config) c = None).
Proof.
  split.
  - intros Htls. unfold StartTLS. by rewrite Htls.
  - intros Hmade -> Htls Hacc secured upgraded.
    destruct (NewConn_fresh _ _ _ Hmade) as (Hnil & _ & _).
    destruct (run_handle text_conn ops made Htls) as [Hn _]. rewrite Hnil in Hn.
    set (c := run text_conn ops made) in *.
    assert (Hrun : StartTLS text_conn config c =
                   (if String.eqb (ServerName config) "" && negb (InsecureSkipVerify config)
                    then Returns (Some ErrNoServerName)
                    else Panics NilDereference,
                    upgraded)
                   /\ fetched text_conn (CallStartTLS config) c = None).
    { unfold StartTLS, fetched. rewrite Htls. unfold mbind, method_bind.
      rewrite Command_exchange. change (fmt.Sprintf0 "STARTTLS") with "STARTTLS".
      destruct (exchange_spec "STARTTLS" 382 c ltac:(lia))
        as (code & msg & err1 & k1 & -> & Hok & _).
      rewrite (proj2 Hok Hacc).
      unfold modify. cbn [netconn conn tls Banner capabilities set_conn].
      rewrite Hn. fold secured. fold upgraded.
      cbn [Handshake secured].
      by destruct (String.eqb (ServerName config) "" && negb (InsecureSkipVerify config)). }
    destruct Hrun as [Hrun Hfetched]. rewrite Hrun. split; [done|]. split; [|done].
    cbn [fst].
    by destruct (String.eqb (ServerName config) "" && negb (InsecureSkipVerify config)).
Qed.

Lemma StartTLS_on_nil_handle_witness :
  let text_conn := fun n : NetConn =>
    match n with
    | TLSClient _ _ =>
        mkConn (Line <$> ["101 capabilities follow"; "VERSION 2"; "."]) [] []
    | _ => mkConn (Line <$> ["200 ready"; "382 continue with TLS"]) [] []
    end in
  let made := mkClient (mkConn [Line "382 continue with TLS"] [] []) NilConn false "ready" [] in
  let secured := TLSClient NilConn (mkConfig "news.example.com" false) in
  NewConn text_conn (Socket 1) = (Some made, None)
  /\ StartTLS text_conn (mkConfig "news.example.com" false) made
     = (Panics NilDereference, mkClient (text_conn secured) secured true "ready" [])
  /\ StartTLS text_conn (mkConfig "" false) made
     = (Returns (Some ErrNoServerName),
        mkClient (text_conn (TLSClient NilConn (mkConfig "" false)))
                 (TLSClient NilConn (mkConfig "" false)) true "ready" []).
Proof.
  intros text_conn made secured. split; [reflexivity|]. split.
  - apply (proj2 (StartTLS_on_nil_handle text_conn (Socket 1) []
                    (mkConfig "news.example.com" false) made made));
      reflexivity.
  - apply (proj2 (StartTLS_on_nil_handle text_conn (Socket 1) []
                    (mkConfig "" false) made made));
      reflexivity.
Defined.

(** X16. Through any sequence of the calls of the model (every method
    of the client but [Post]) the banner stays the greeting the
    client was made with; once TLS is active it stays active and the
    transport handle is not replaced again; while TLS is not active the
    handle is the one the session started with; and only a [StartTLS]
    call changes either. *)
Theorem session_frame (text_conn : NetConn -> Conn) (ops : list call) (c : Client) :
  let c' := run text_conn ops c in
  Banner c' = Banner c
  /\ (HasTLS c = true -> HasTLS c' = true /\ netconn c' = netconn c)
  /\ (HasTLS c' = false -> netconn c' = netconn c /\ HasTLS c = false)
  /\ ((forall config, CallStartTLS config ∉ ops) ->
      HasTLS c' = HasTLS c /\ netconn c' = netconn c).
Proof.
  unfold HasTLS. revert c. induction ops as [|op ops IH]; intros c; cbn [run].
  - repeat split; done.
  - destruct (IH (perform text_conn op c)) as (I1 & I2 & I3 & I4).
    destruct (perform_frame text_conn op c) as (P1 & P2 & P3 & P4).
    cbn zeta in *. split; [congruence|]. split; [|split].
    + intros Ht. destruct (P2 Ht) as [Ht' Hn]. destruct (I2 Ht') as [Ht'' Hn'].
      split; congruence.
    + intros Ht. destruct (I3 Ht) as [Hn Ht']. destruct (P3 Ht') as [Hn' Ht''].
      split; congruence.
    + intros Hno.
      destruct I4 as [I4a I4b].
      { intros config Hin. apply (Hno config). by right. }
      destruct P4 as [P4a P4b].
      { intros config ->. apply (Hno config). by left. }
      split; congruence.
Qed.

Lemma session_frame_witness :
  let c := served ["382 go ahead"; "211 5 10 20 alt.test"] in
  let ops := [CallStartTLS (mkConfig "news.example.com" false); CallGroup "alt.test";
              CallStartTLS (mkConfig "other.example.com" true)] in
  HasTLS (run (fun _ => mkConn [] [] []) ops c) = true
  /\ netconn (run (fun _ => mkConn [] [] []) ops c)
     = TLSClient NilConn (mkConfig "news.example.com" false).
Proof.
  intros c ops.
  destruct (session_frame (fun _ => mkConn [] [] [])
              [CallGroup "alt.test"; CallStartTLS (mkConfig "other.example.com" true)]
              (perform (fun _ => mkConn [] [] [])
                       (CallStartTLS (mkConfig "news.example.com" false)) c))
    as (_ & Hkept & _).
  apply Hkept. reflexivity.
Defined.

Lemma perform_upper_case (text_conn : NetConn -> Conn) (op : call) (c : Client) :
  Forall upper_case (capabilities c) ->
  Forall upper_case (capabilities (perform text_conn op c)).
Proof.
  intros Hup. rewrite perform_cache.
  destruct (fetched text_conn op c) as [caps|] eqn:Hf; [|done]. cbn [default].
  assert (Hfetch : forall c0, fetch c0 = Some caps -> Forall upper_case caps).
  { intros c0. unfold fetch. rewrite Capabilities_asLines.
    destruct (asLines "CAPABILITIES" 101 c0) as [[[lines [e|]]|f] c1]; try done.
    cbn. intros [= <-]. apply Forall_fmap, Forall_true. intros l.
    apply ToUpper_idempotent. }
  destruct op; cbn [fetched] in Hf; try done.
  - by apply (Hfetch c).
  - destruct (tls c); [done|].
    destruct (Command "STARTTLS" 382 c) as [[[[code msg] [e|]]|f] c1]; try done.
    destruct (Handshake _) as [[e|]|f]; try done.
    by eapply Hfetch.
Qed.

(** X17. The cache of capabilities holds upper-case lines throughout a
    session: if it does at the start, as for a new client whose cache is
    nil, it does after any sequence of the calls of the model (every
    method of the client but [Post]). *)
Theorem cache_stays_upper_case (text_conn : NetConn -> Conn) (ops : list call)
    (c : Client) :
  Forall upper_case (capabilities c) ->
  Forall upper_case (capabilities (run text_conn ops c)).
Proof.
  revert c. induction ops as [|op ops IH]; intros c Hup; [done|].
  cbn [run]. apply IH. by apply perform_upper_case.
Qed.

Lemma cache_stays_upper_case_witness :
  Forall upper_case
    (capabilities
       (run (fun _ => mkConn [] [] []) [CallCapabilities; CallList ""]
            (served ["101 capabilities"; "version 2"; "list active"; ".";
                     "215 list"; "alt.test 2 1 y"; "."]))).
Proof.
  apply (cache_stays_upper_case (fun _ => mkConn [] [] [])
           [CallCapabilities; CallList ""]
           (served ["101 capabilities"; "version 2"; "list active"; ".";
                    "215 list"; "alt.test 2 1 y"; "."])).
  constructor.
Defined.

(** ** Looking up a capability *)

Lemma GetCapability_scan_member (capability : string) (caps : list string) :
  GetCapability_scan capability caps = "" \/ GetCapability_scan capability caps ∈ caps.
Proof.
  induction caps as [|capa caps IH]; [by left|].
  cbn [GetCapability_scan].
  destruct (_ && _); [right; by left|].
  destruct (String.eqb capa capability); [right; by left|].
  destruct IH as [IH|IH]; [by left|right; by right].
Qed.

(** X18. On a cache of upper-case lines, [GetCapability] returns the first
    line that matches the label, and the empty string when there is
    none. A line matches when the whole line, or its part before its
    first space or TAB, is the label, letter case of the label apart
    ([label_matches]). *)
Theorem GetCapability_first_match (label : string) (c : Client) :
  Forall upper_case (capabilities c) ->
  GetCapability label c = default "" (List.find (label_matches label) (capabilities c)).
Proof. intros Hup. unfold GetCapability. by apply GetCapability_scan_find. Qed.

Lemma GetCapability_first_match_witness :
  GetCapability "list"
    (mkClient (mkConn [] [] []) NilConn false ""
              ["LISTGROUP"; "LIST ACTIVE"; "LIST NEWSGROUPS"])
  = "LIST ACTIVE".
Proof.
  rewrite (GetCapability_first_match "list"
             (mkClient (mkConn [] [] []) NilConn false ""
                       ["LISTGROUP"; "LIST ACTIVE"; "LIST NEWSGROUPS"])).
  - reflexivity.
  - repeat constructor.
Defined.

(** X19. [HasCapabilityArgument] reports only what the cache holds: when
    it answers yes, the line [GetCapability] finds for the label is a
    line of the cache, and the argument in upper case is one of its
    fields after the first. *)
Theorem HasCapabilityArgument_sound (label argument : string) (c : Client) :
  HasCapabilityArgument label argument c = Returns (true, None) ->
  GetCapability label c ∈ capabilities c
  /\ exists first, strings.ToUpper argument ∈ tail (strings.Fields (GetCapability label c))
       /\ head (strings.Fields (GetCapability label c)) = Some first.
Proof.
  unfold HasCapabilityArgument.
  destruct (capabilities c) as [|cap caps] eqn:Hcaps; [done|].
  destruct (String.eqb_spec (GetCapability label c) ""); [done|].
  destruct (strings.Fields (GetCapability label c)) as [|first fields]; [done|].
  cbn. rewrite existsb_eqb. intros [= Hin%bool_decide_eq_true].
  split; [|by exists first].
  unfold GetCapability in *. rewrite Hcaps in *.
  by destruct (GetCapability_scan_member (strings.ToUpper label) (cap :: caps)).
Qed.

Lemma HasCapabilityArgument_sound_witness :
  "LIST ACTIVE NEWSGROUPS" ∈ ["VERSION 2"; "LIST ACTIVE NEWSGROUPS"]
  /\ exists first, "NEWSGROUPS" ∈ ["ACTIVE"; "NEWSGROUPS"] /\ Some "LIST" = Some first.
Proof.
  apply (HasCapabilityArgument_sound "list" "newsgroups"
           (mkClient (mkConn [] [] []) NilConn false ""
                     ["VERSION 2"; "LIST ACTIVE NEWSGROUPS"])).
  reflexivity.
Defined.

(** ** From the CAPABILITIES block to the lookup *)

Lemma upper_separator (c : ascii) :
  strings.contains_byte (String "009" " ") (strings.upper c)
    = strings.contains_byte (String "009" " ") c.
Proof. destruct c as [[] [] [] [] [] [] [] []]; reflexivity. Qed.

Lemma IndexAny_ToUpper (s : string) :
  strings.IndexAny (strings.ToUpper s) (String "009" " ")
    = strings.IndexAny s (String "009" " ").
Proof.
  induction s as [|c s IH]; [done|].
  cbn [strings.ToUpper strings.IndexAny]. by rewrite upper_separator, IH.
Qed.

Lemma label_matches_ToUpper (label line : string) :
  label_matches label (strings.ToUpper line) = label_matches label line.
Proof.
  unfold label_matches, label_of, prefix_to.
  rewrite ToUpper_idempotent, IndexAny_ToUpper.
  destruct (strings.IndexAny line (String "009" " ") =? -1); [done|].
  by rewrite <- ToUpper_substring, ToUpper_idempotent.
Qed.

Lemma find_ToUpper (label : string) (lines : list string) :
  List.find (label_matches label) (strings.ToUpper <$> lines)
    = strings.ToUpper <$> List.find (label_matches label) lines.
Proof.
  induction lines as [|l lines IH]; [done|].
  cbn [fmap list_fmap List.find]. rewrite label_matches_ToUpper.
  by destruct (label_matches label l).
Qed.

(** X20. After [Capabilities] has read a block with success,
    [GetCapability] finds what the server advertised: it returns, in
    upper case, the first line of the block that matches the label, and
    the empty string when the block has no such line. A line matches
    when the whole line, or its part before its first space or TAB, is
    the label, letter case apart ([label_matches]). *)
Theorem advertised_capability_is_found (label msg : string) (body : list string)
    (rest : list delivery) (c : Client) :
  write_ok (conn c) = true ->
  inbound (conn c)
    = Line (status_line 101 msg) :: (Line ∘ dot_stuff <$> body) ++ Line "." :: rest ->
  GetCapability label (Capabilities c).2
    = default "" (strings.ToUpper <$> List.find (label_matches label) body).
Proof.
  intros Hw Hin. rewrite Capabilities_asLines.
  rewrite (asLines_block _ 101 msg body rest c) by (done || lia).
  unfold GetCapability. cbn [snd capabilities set_capabilities].
  rewrite GetCapability_scan_find, find_ToUpper; [done|].
  apply Forall_fmap, Forall_true. intros l. apply ToUpper_idempotent.
Qed.

Lemma advertised_capability_is_found_witness :
  GetCapability "Over"
    (Capabilities (served ["101 capabilities"; "version 2"; "overview x";
                           "over msgid"; "."])).2
  = "OVER MSGID".
Proof.
  rewrite (advertised_capability_is_found "Over" "capabilities"
             ["version 2"; "overview x"; "over msgid"] []
             (served ["101 capabilities"; "version 2"; "overview x"; "over msgid"; "."])
             eq_refl eq_refl).
  reflexivity.
Defined.

(** ** Numbers that do not parse *)

(** X21. When a number of the 211 reply does not parse, [Group] returns
    the error of [ParseInt] together with the group as far as it was
    filled: the numbers before the failing one, the value [ParseInt]
    gave for the failing one, and no name. *)
Theorem Group_partial_result (name msg p0 p1 p2 : string) (more : list string)
    (rest : list delivery) (c : Client) :
  write_ok (conn c) = true ->
  inbound (conn c) = Line (status_line 211 msg) :: rest ->
  strings.Split msg " " = p0 :: p1 :: p2 :: more ->
  let count := strconv.ParseInt p0 in
  let low := strconv.ParseInt p1 in
  let high := strconv.ParseInt p2 in
  (count.2 <> None ->
   (Group name c).1 = Returns (nntp.mkGroup "" count.1 0 0 nntp.Unknown, count.2))
  /\ (count.2 = None -> low.2 <> None ->
      (Group name c).1 = Returns (nntp.mkGroup "" count.1 0 low.1 nntp.Unknown, low.2))
  /\ (count.2 = None -> low.2 = None -> high.2 <> None ->
      (Group name c).1
        = Returns (nntp.mkGroup "" count.1 high.1 low.1 nntp.Unknown, high.2)).
Proof.
  intros Hw Hin Hs count low high.
  rewrite (Group_status name msg rest c Hw Hin).
  unfold Group_parse. rewrite Hs. subst count low high.
  cbn [index lookup list_lookup mbind go_bind length Nat.eqb negb].
  destruct (strconv.ParseInt p0) as [n0 [e0|]]; cbn; [by repeat split|].
  destruct (strconv.ParseInt p1) as [n1 [e1|]]; cbn; [by repeat split|].
  destruct (strconv.ParseInt p2) as [n2 [e2|]]; cbn; by repeat split.
Qed.

Lemma Group_partial_result_witness :
  (Group "alt.test" (served ["211 5 99999999999999999999 20 alt.test"])).1
  = Returns (nntp.mkGroup "" 5 0 (2 ^ 63 - 1) nntp.Unknown,
             Some (NumError "ParseInt" "99999999999999999999" ErrRange)).
Proof.
  apply (Group_partial_result "alt.test" "5 99999999999999999999 20 alt.test"
           "5" "99999999999999999999" "20" ["alt.test"] []
           (served ["211 5 99999999999999999999 20 alt.test"]));
    (reflexivity || done).
Defined.

(** X22. When the first word of the reply to [ARTICLE], [HEAD] or [BODY]
    is no number, the call returns the error of [ParseInt] with the zero
    results and no reader; the body that follows stays on the stream. *)
Theorem retrieve_number_error op verb expected
    (specifier msg first : string) (n : Z) (e : error)
    (c : Client) (rest : list delivery) :
  (op, verb, expected) ∈ retrievals ->
  write_ok (conn c) = true ->
  inbound (conn c) = Line (status_line expected msg) :: rest ->
  head (strings.SplitN2 msg " ") = Some first ->
  strconv.ParseInt first = (n, Some e) ->
  op specifier c =
    (Returns (0, "", NilReader, Some e),
     set_conn (mkConn rest (outbound (conn c) ++ [verb +:+ " " +:+ specifier])
                      (tail (wscript (conn c)))) c).
Proof.
  intros Hop Hw Hin Hfirst Hp.
  destruct (retrievals_retrieve _ _ _ Hop) as [-> Hcode].
  assert (Hrun : retrieve verb expected specifier c =
                 articleish expected (set_conn (written (verb +:+ " " +:+ specifier) (conn c)) c)).
  { unfold retrieve, mbind, method_bind, on_conn. by rewrite PrintfLine_ok. }
  rewrite Hrun.
  rewrite (articleish_status expected msg _ rest Hcode) by done.
  destruct (strings.SplitN2 msg " ") as [|p0 ps]; [done|].
  injection Hfirst as ->. by rewrite Hp.
Qed.

Lemma retrieve_number_error_witness :
  Head "<1@x>" (served ["221 <1@x> head follows"; "Subject: a"; "."])
  = (Returns (0, "", NilReader, Some (NumError "ParseInt" "<1@x>" ErrSyntax)),
     set_conn (mkConn [Line "Subject: a"; Line "."] ["HEAD <1@x>"] [])
              (served ["221 <1@x> head follows"; "Subject: a"; "."])).
Proof.
  apply (retrieve_number_error Head "HEAD" 221 "<1@x>" "<1@x> head follows" "<1@x>" 0
           (NumError "ParseInt" "<1@x>" ErrSyntax)
           (served ["221 <1@x> head follows"; "Subject: a"; "."])
           [Line "Subject: a"; Line "."]).
  - unfold retrievals. apply list_elem_of_further, list_elem_of_here.
  - reflexivity.
  - reflexivity.
  - reflexivity.
  - reflexivity.
Defined.
